(** * UserService: the Cognito identity broker, embedded and verified

    A shallow embedding of [app/infrastructure/repositories/user_repository.py]
    (class [UserRepository]), of the schemas of
    [app/domain/schemas/user_schema.py] it consumes and produces, and of the
    [list_users] route of [app/presentation/routers/user_router.py].

    Conventions of the embedding.
    - A Python [str] is a [string] holding its UTF-8 bytes, so
      [bytes(s, 'utf-8')] is the list of its characters' codes and [+]
      on [str] is [++].
    - A Python [dict] used as a map is a [gmap string _]; a dict of a fixed
      shape (a Cognito attribute, a boto3 response) is a record whose optional
      keys are [option] fields.
    - An operation of the repository is a computation over a [World]: the
      trace of the calls made on the boto3 client and the number of clock
      reads.  It ends by returning, by raising [AppException], by raising
      botocore's [ClientError] or by raising another Python exception.
    - Calls on the logger write to a sink nothing reads back; they are left
      out. *)

From Stdlib Require Import ZArith List String Ascii Bool Lia.
From stdpp Require Import base option list gmap strings.
Import ListNotations.

Local Open Scope string_scope.
Local Open Scope Z_scope.

(** ** Bytes *)

Module Bytes.

(** A byte is a [Z] in [0, 256). *)
Definition byte_of_ascii (c : ascii) : Z := Z.of_N (N_of_ascii c).
Definition ascii_of_byte (b : Z) : ascii := ascii_of_N (Z.to_N b).

(** [bytes(s, 'utf-8')] *)
Fixpoint encode (s : string) : list Z :=
  match s with
  | EmptyString => []
  | String c s' => byte_of_ascii c :: encode s'
  end.

(** [bs.decode()] on bytes that are ASCII *)
Fixpoint decode (bs : list Z) : string :=
  match bs with
  | [] => EmptyString
  | b :: bs' => String (ascii_of_byte b) (decode bs')
  end.

(** big-endian bytes of the [n]-byte number [x] *)
Fixpoint be_bytes (n : nat) (x : Z) : list Z :=
  match n with
  | O => []
  | S n' => Z.land (Z.shiftr x (8 * Z.of_nat n')) 255 :: be_bytes n' x
  end.

(** the number whose big-endian bytes are [bs] *)
Definition be_value (bs : list Z) : Z :=
  fold_left (fun acc b => Z.lor (Z.shiftl acc 8) b) bs 0.

(** cut [l] in consecutive pieces of [n] elements (the last may be shorter) *)
Fixpoint chunks_fuel {A} (fuel : nat) (n : nat) (l : list A) : list (list A) :=
  match fuel, l with
  | O, _ | _, [] => []
  | S fuel', _ => firstn n l :: chunks_fuel fuel' n (skipn n l)
  end.
Definition chunks {A} (n : nat) (l : list A) : list (list A) :=
  chunks_fuel (length l) n l.

End Bytes.

(** ** hashlib.sha256, as FIPS 180-4 defines it *)

Module SHA256.
Import Bytes.

Definition w32 (x : Z) : Z := x mod 2 ^ 32.
Definition add32 (x y : Z) : Z := w32 (x + y).
Definition rotr (n x : Z) : Z := Z.lor (Z.shiftr x n) (w32 (Z.shiftl x (32 - n))).
Definition not32 (x : Z) : Z := Z.lxor x (2 ^ 32 - 1).

Definition Ch (x y z : Z) : Z := Z.lxor (Z.land x y) (Z.land (not32 x) z).
Definition Maj (x y z : Z) : Z :=
  Z.lxor (Z.lxor (Z.land x y) (Z.land x z)) (Z.land y z).
Definition bsig0 (x : Z) : Z := Z.lxor (Z.lxor (rotr 2 x) (rotr 13 x)) (rotr 22 x).
Definition bsig1 (x : Z) : Z := Z.lxor (Z.lxor (rotr 6 x) (rotr 11 x)) (rotr 25 x).
Definition ssig0 (x : Z) : Z := Z.lxor (Z.lxor (rotr 7 x) (rotr 18 x)) (Z.shiftr x 3).
Definition ssig1 (x : Z) : Z := Z.lxor (Z.lxor (rotr 17 x) (rotr 19 x)) (Z.shiftr x 10).

(** The round constants are the first 32 bits of the fractional parts of
    the cube roots of the first 64 primes, the initial state those of the
    square roots of the first 8: they are computed, not tabulated. *)
Definition is_prime (p : Z) : bool :=
  (1 <? p) && forallb (fun d => negb (p mod d =? 0)) (map Z.of_nat (seq 2 (Z.to_nat p - 2))).
Definition primes_below (n : nat) : list Z :=
  filter (fun p => is_prime p) (map Z.of_nat (seq 0 n)).

(** the largest [r < 2 ^ bits] with [r ^ 3 <= x] *)
Fixpoint icbrt (bits : nat) (x r : Z) : Z :=
  match bits with
  | O => r
  | S b =>
      let r' := r + 2 ^ Z.of_nat b in
      icbrt b x (if r' * r' * r' <=? x then r' else r)
  end.

Definition K : list Z :=
  Eval vm_compute in
    map (fun p => w32 (icbrt 36 (p * 2 ^ 96) 0)) (primes_below 312).
Definition H0 : list Z :=
  Eval vm_compute in
    map (fun p => w32 (Z.sqrt (p * 2 ^ 64))) (primes_below 20).

(** padding of a message of [len] bytes (5.1.1) *)
Definition padding (len : nat) : list Z :=
  128 :: repeat 0 (Z.to_nat ((55 - Z.of_nat len) mod 64))
    ++ be_bytes 8 (8 * Z.of_nat len).

(** the message schedule; [rev_ws] holds W(t-1), W(t-2), ... (6.2.2 step 1) *)
Fixpoint schedule (n : nat) (rev_ws : list Z) : list Z :=
  match n with
  | O => rev rev_ws
  | S n' =>
      let wt := add32 (add32 (ssig1 (nth 1 rev_ws 0)) (nth 6 rev_ws 0))
                      (add32 (ssig0 (nth 14 rev_ws 0)) (nth 15 rev_ws 0)) in
      schedule n' (wt :: rev_ws)
  end.

Record regs := Regs { ra : Z; rb : Z; rc : Z; rd : Z; re : Z; rf : Z; rg : Z; rh : Z }.

Definition regs_of (l : list Z) : regs :=
  Regs (nth 0 l 0) (nth 1 l 0) (nth 2 l 0) (nth 3 l 0)
       (nth 4 l 0) (nth 5 l 0) (nth 6 l 0) (nth 7 l 0).
Definition list_of (r : regs) : list Z :=
  [ra r; rb r; rc r; rd r; re r; rf r; rg r; rh r].

(** one round (6.2.2 step 3) *)
Definition round (r : regs) (kw : Z * Z) : regs :=
  let t1 := add32 (add32 (add32 (rh r) (bsig1 (re r))) (Ch (re r) (rf r) (rg r)))
                  (add32 (fst kw) (snd kw)) in
  let t2 := add32 (bsig0 (ra r)) (Maj (ra r) (rb r) (rc r)) in
  Regs (add32 t1 t2) (ra r) (rb r) (rc r) (add32 (rd r) t1) (re r) (rf r) (rg r).

(** one 64-byte block folded into the state (6.2.2 steps 1 to 4) *)
Definition compress (h : list Z) (block : list Z) : list Z :=
  let m := map be_value (chunks 4 block) in
  let ws := schedule 48 (rev m) in
  let r := fold_left round (combine K ws) (regs_of h) in
  map (fun p => add32 (fst p) (snd p)) (combine h (list_of r)).

(** [hashlib.sha256(msg).digest()] *)
Definition digest (msg : list Z) : list Z :=
  let blocks := chunks 64 (msg ++ padding (length msg)) in
  flat_map (be_bytes 4) (fold_left compress blocks H0).

Definition block_size : nat := 64.

End SHA256.

(** ** hmac.new(key, msg, hashlib.sha256).digest(), as RFC 2104 defines it *)

Module HMAC.

Definition block_key (key : list Z) : list Z :=
  let k := if (SHA256.block_size <? length key)%nat then SHA256.digest key else key in
  k ++ repeat 0 (SHA256.block_size - length k).

Definition digest (key msg : list Z) : list Z :=
  let k := block_key key in
  let inner := SHA256.digest (map (Z.lxor 54) k ++ msg) in
  SHA256.digest (map (Z.lxor 92) k ++ inner).

End HMAC.

(** ** base64.b64encode, as RFC 4648 defines it *)

Module Base64.

Definition alphabet : string :=
  "ABCDEFGHIJKLMNOPQRSTUVWXYZabcdefghijklmnopqrstuvwxyz0123456789+/".

Definition digit (i : Z) : Z :=
  match String.get (Z.to_nat i) alphabet with
  | Some c => Bytes.byte_of_ascii c
  | None => 61
  end.

Definition pad : Z := 61.

(** the four characters of a group of at most three bytes *)
Definition group (g : list Z) : list Z :=
  match g with
  | [a; b; c] =>
      [digit (Z.shiftr a 2);
       digit (Z.lor (Z.shiftl (Z.land a 3) 4) (Z.shiftr b 4));
       digit (Z.lor (Z.shiftl (Z.land b 15) 2) (Z.shiftr c 6));
       digit (Z.land c 63)]
  | [a; b] =>
      [digit (Z.shiftr a 2);
       digit (Z.lor (Z.shiftl (Z.land a 3) 4) (Z.shiftr b 4));
       digit (Z.shiftl (Z.land b 15) 2);
       pad]
  | [a] =>
      [digit (Z.shiftr a 2); digit (Z.shiftl (Z.land a 3) 4); pad; pad]
  | _ => []
  end.

Definition b64encode (bs : list Z) : list Z :=
  flat_map group (Bytes.chunks 3 bs).

End Base64.

(** ** Python strings *)

Module Str.

(** [bool(s)]: a string is truthy when it is not empty *)
Definition truthy (s : string) : bool :=
  match s with
  | EmptyString => false
  | String _ _ => true
  end.

(** [s.split(sep)] for a separator of one character: never an empty list *)
Fixpoint split (sep : ascii) (s : string) : list string :=
  match s with
  | EmptyString => [EmptyString]
  | String c s' =>
      if Ascii.eqb c sep then EmptyString :: split sep s'
      else match split sep s' with
           | x :: xs => String c x :: xs
           | [] => [String c EmptyString]
           end
  end.

(** [l[0]] on the result of a split *)
Definition item0 (l : list string) : string := hd EmptyString l.

(** [c.lower()] on one byte: only the ASCII capitals change.  No character
    outside ASCII lowers to one of the letters t, r, u, e, so comparing
    [s.lower()] with ["true"] is decided by this function. *)
Definition lower_char (c : ascii) : ascii :=
  let n := N_of_ascii c in
  if ((65 <=? n) && (n <=? 90))%N then ascii_of_N (n + 32) else c.

Fixpoint lower (s : string) : string :=
  match s with
  | EmptyString => EmptyString
  | String c s' => String (lower_char c) (lower s')
  end.

End Str.

(** ** Python values that cross the repository's boundary *)

Definition datetime := Z.

#[local] Set Warnings "-register-all".

(** [app/domain/schemas/user_schema.py], class [UserOut] (with [UserBase]) *)
Record UserOut := {
  out_email : string;
  out_username : option string;
  out_phone_number : option string;
  out_profile_image_url : option string;
  out_is_active : option bool;
  out_email_verified : option bool;
  out_created_at : option datetime;
  out_updated_at : option datetime
}.

Inductive PyVal :=
| VNone
| VBool (b : bool)
| VInt (z : Z)
| VStr (s : string)
| VDatetime (t : datetime)
| VUser (u : UserOut)
| VList (l : list PyVal)
| VDict (d : gmap string PyVal).

(** a Cognito attribute, [{"Name": n, "Value": v}] *)
Record Attribute := { Name : string; Value : string }.

Definition attribute_dict (a : Attribute) : PyVal :=
  VDict (<["Value" := VStr (Value a)]> (<["Name" := VStr (Name a)]> ∅)).

(** [x or y] on values that are a [str] or [None] *)
Definition py_or (x y : option string) : option string :=
  match x with
  | Some s => if Str.truthy s then x else y
  | None => y
  end.
Infix "|||" := py_or (at level 50, left associativity).

(** [bool(x)] on a value that is a [str] or [None] *)
Definition truthy_opt (x : option string) : bool :=
  match x with
  | Some s => Str.truthy s
  | None => false
  end.

(** the value of an optional string as a [PyVal] *)
Definition of_opt_str (x : option string) : PyVal :=
  match x with
  | Some s => VStr s
  | None => VNone
  end.

(** ** Schemas of [app/domain/schemas/user_schema.py] *)

(** class [UserCreate] (with [UserBase]) *)
Record UserCreate := {
  uc_email : string;
  uc_username : option string;
  uc_password : string;
  uc_phone_number : option string;
  uc_profile_image_url : option string;
  uc_created_at : datetime;
  uc_updated_at : datetime
}.

(** A field of a pydantic model is either left unset by the caller (it then
    holds its default and is not in [__fields_set__]) or set to a value. *)
Inductive Field (A : Type) :=
| NotSet
| IsSet (v : A).
Arguments NotSet {A}.
Arguments IsSet {A} v.

(** class [UserUpdate] *)
Record UserUpdate := {
  uu_username : Field (option string);
  uu_email : Field (option string);
  uu_phone_number : Field (option string);
  uu_profile_image_url : Field (option string);
  uu_updated_at : Field datetime
}.

Definition item {A} (key : string) (inj : A -> PyVal) (f : Field A) : list (string * PyVal) :=
  match f with
  | NotSet => []
  | IsSet v => [(key, inj v)]
  end.

(** [user_data.dict(exclude_unset=True).items()]: the fields that were set,
    in the order of their declaration *)
Definition dict_exclude_unset (u : UserUpdate) : list (string * PyVal) :=
  item "username" of_opt_str (uu_username u)
  ++ item "email" of_opt_str (uu_email u)
  ++ item "phone_number" of_opt_str (uu_phone_number u)
  ++ item "profile_image_url" of_opt_str (uu_profile_image_url u)
  ++ item "updated_at" VDatetime (uu_updated_at u).

(** ** Exceptions and the outcome of an operation *)

(** botocore's [ClientError]: [error.response["Error"]] *)
Record ClientError := { Code : string; Message : string }.

(** [core.exceptions.AppException(message, status_code)], as
    [app/core/error_handler.py] reads it *)
Record AppException := { message : string; status_code : Z }.

Inductive Exception :=
| EApp (e : AppException)
| EClient (e : ClientError)
| EKeyError (key : string)
| EValidation (field : string)
| ERequestValidation (param : string).

Inductive Outcome (A : Type) :=
| Return (a : A)
| Raise (e : Exception).
Arguments Return {A} a.
Arguments Raise {A} e.

(** ** The world: the calls made on the boto3 client, and the clock *)

Record Call := { api : string; kwargs : gmap string PyVal }.

Record World := { calls : list Call; clock_reads : nat }.

Definition M (A : Type) : Type := World -> Outcome A * World.

#[global] Instance M_ret : MRet M := fun A a w => (Return a, w).
#[global] Instance M_bind : MBind M := fun A B k m w =>
  match m w with
  | (Return a, w') => k a w'
  | (Raise e, w') => (Raise e, w')
  end.

Definition raise {A} (e : Exception) : M A := fun w => (Raise e, w).

(** [try: body  except ClientError as e: handler(e)] *)
Definition try_except_ClientError {A} (body : M A) (handler : ClientError -> M A) : M A :=
  fun w =>
    match body w with
    | (Raise (EClient e), w') => handler e w'
    | r => r
    end.

(** [d[key]] on an optional key of a response *)
Definition getitem {A} (key : string) (x : option A) : M A :=
  match x with
  | Some a => mret a
  | None => raise (EKeyError key)
  end.

(** [[body(x) for x in items]]: the bodies run in the order of the items,
    and the first that raises ends the comprehension *)
Fixpoint comprehension {A B} (body : A -> M B) (items : list A) : M (list B) :=
  match items with
  | [] => mret []
  | x :: rest =>
      y ← body x;
      ys ← comprehension body rest;
      mret (y :: ys)
  end.

(** ** The boto3 [cognito-idp] client *)

(** The shapes of the responses the repository reads.  A key the code reads
    with [.get] or with [[...]] is an optional field: boto3 leaves out what
    the service did not send. *)
Record CodeDeliveryDetailsType := {
  Destination : option string;
  DeliveryMedium : option string
}.

Record SignUpResponse := {
  UserConfirmed : option bool;
  CodeDeliveryDetails : option CodeDeliveryDetailsType
}.

Record AuthenticationResultType := {
  AccessToken : option string;
  RefreshToken : option string;
  IdToken : option string;
  TokenType : option string;
  ExpiresIn : option Z
}.

Record InitiateAuthResponse := {
  AuthenticationResult : option AuthenticationResultType
}.

Record GetUserResponse := {
  gu_Username : option string;
  gu_UserAttributes : option (list Attribute)
}.

(** an entry of [Users] of [list_users], and the dict [get_by_username]
    builds for [_map_user] *)
Record CognitoUser := {
  Username : option string;
  Attributes : option (list Attribute);
  Enabled : option bool
}.

Record ListUsersResponse := {
  Users : option (list CognitoUser);
  PaginationToken : option string
}.

Record AdminGetUserResponse := {
  agu_Username : option string;
  agu_UserAttributes : option (list Attribute);
  agu_Enabled : option bool
}.

(** The client: each method answers the keyword arguments of a call with a
    response or with a [ClientError]. *)
Record CognitoIdp := {
  sign_up : gmap string PyVal -> ClientError + SignUpResponse;
  admin_initiate_auth : gmap string PyVal -> ClientError + InitiateAuthResponse;
  get_user : gmap string PyVal -> ClientError + GetUserResponse;
  list_users : gmap string PyVal -> ClientError + ListUsersResponse;
  admin_get_user : gmap string PyVal -> ClientError + AdminGetUserResponse;
  admin_update_user_attributes : gmap string PyVal -> ClientError + unit
}.

(** a call of a method of [self.client] with keyword arguments [kw]: the
    call is recorded, then answered *)
Definition invoke {R} (name : string) (method : gmap string PyVal -> ClientError + R)
    (kw : gmap string PyVal) : M R :=
  fun w =>
    let w' := {| calls := calls w ++ [{| api := name; kwargs := kw |}];
                 clock_reads := clock_reads w |} in
    match method kw with
    | inl e => (Raise (EClient e), w')
    | inr r => (Return r, w')
    end.

(** ** What the Python runtime and the libraries supply *)

Record Runtime := {
  (** the instant the [n]-th call of [datetime.utcnow()] returns *)
  utc_clock : nat -> datetime;
  (** pydantic's [EmailStr]: the validated address, or a validation error *)
  EmailStr : string -> option string;
  (** [str(v)] on a value that is not a [str] *)
  str_other : PyVal -> string;
  (** [fastapi.encoders.jsonable_encoder] *)
  jsonable_encoder : PyVal -> PyVal
}.

(** [email-validator], on which [EmailStr] rests, rejects an address with
    nothing before its [@]-sign, and one without an [@]-sign. *)
Definition EmailStr_local_part (rt : Runtime) : Prop :=
  forall s e : string,
    EmailStr rt s = Some e -> Str.item0 (Str.split "@" s) <> "".

(** ** [app/infrastructure/repositories/user_repository.py] *)

(** the attributes of [self] that [__init__] reads from the configuration *)
Record UserRepository := {
  client : CognitoIdp;
  user_pool_id : string;
  client_id : string;
  client_secret : option string
}.

(** [{attr["Name"]: attr["Value"] for attr in l}]: a later entry of the same
    name replaces an earlier one *)
Definition attrs_dict (l : list Attribute) : gmap string string :=
  fold_left (fun d attr => <[Name attr := Value attr]> d) l ∅.

Section Repository.

Context (rt : Runtime) (self : UserRepository).

Definition utcnow : M datetime :=
  fun w => (Return (utc_clock rt (clock_reads w)),
            {| calls := calls w; clock_reads := S (clock_reads w) |}).

(** [str(value)] *)
Definition py_str (v : PyVal) : string :=
  match v with
  | VStr s => s
  | _ => str_other rt v
  end.

(** [UserOut(email=..., username=..., ...)]: pydantic validates [email],
    the one field of [UserOut] that carries a constraint *)
Definition UserOut_init (email : string) (username phone_number profile_image_url : option string)
    (is_active email_verified : option bool) (created_at updated_at : option datetime) : M UserOut :=
  match EmailStr rt email with
  | Some e =>
      mret {| out_email := e; out_username := username;
              out_phone_number := phone_number;
              out_profile_image_url := profile_image_url;
              out_is_active := is_active; out_email_verified := email_verified;
              out_created_at := created_at; out_updated_at := updated_at |}
  | None => raise (EValidation "email")
  end.

(** lines 29-37 *)
Definition _get_secret_hash (username : string) : option string :=
  if negb (truthy_opt (client_secret self)) then None
  else
    let message := Bytes.encode (username ++ client_id self) in
    let secret := Bytes.encode (default "" (client_secret self)) in
    let dig := HMAC.digest secret message in
    Some (Bytes.decode (Base64.b64encode dig)).

(** lines 42-73; the two calls on the logger are left out *)
Definition _handle_cognito_error (error : ClientError) (context : string) : M unit :=
  let code := Code error in
  let message := Message error in
  let raise_AppException (m : string) (s : Z) : M unit :=
    raise (EApp {| message := m; status_code := s |}) in
  if (code =? "UsernameExistsException")%string then
    raise_AppException "User account already exists" 409
  else if (code =? "UserNotFoundException")%string then
    raise_AppException "User not found" 404
  else if (code =? "UserNotConfirmedException")%string then
    raise_AppException "Please verify your email before logging in. Check your inbox for the confirmation code." 403
  else if (code =? "NotAuthorizedException")%string then
    raise_AppException ("Authentication failed: " ++ message) 401
  else if (code =? "InvalidParameterException")%string then
    raise_AppException ("Invalid parameter: " ++ message) 400
  else if (code =? "CodeMismatchException")%string then
    raise_AppException "Invalid verification code. Please try again." 400
  else if (code =? "ExpiredCodeException")%string then
    raise_AppException "Verification code has expired. Please request a new one." 400
  else if (code =? "TooManyFailedAttemptsException")%string then
    raise_AppException "Too many failed attempts, please try again later" 429
  else if (code =? "TooManyRequestsException")%string then
    raise_AppException "Too many requests, please slow down" 429
  else if (code =? "LimitExceededException")%string then
    raise_AppException "Attempt limit exceeded, please try after some time" 429
  else if (code =? "ResourceNotFoundException")%string then
    raise_AppException "User pool or app client not found. Check your configuration." 404
  else
    raise_AppException ("Cognito error [" ++ code ++ "]: " ++ message) 500.

(** lines 83-88: the [username] of [_map_user] *)
Definition map_user_username (attrs : gmap string string) (user : CognitoUser) : option string :=
  attrs !! "name"
  ||| attrs !! "preferred_username"
  ||| Some (Str.item0 (Str.split "@" (default "" (attrs !! "email"))))
  ||| Some (default "" (Username user)).

(** line 96 and line 440: the [email_verified] of a user *)
Definition email_verified_of (attrs : gmap string string) : bool :=
  (Str.lower (default "false" (attrs !! "email_verified")) =? "true")%string.

(** lines 78-99 *)
Definition _map_user (user : CognitoUser) : M UserOut :=
  let attrs := attrs_dict (default [] (Attributes user)) in
  let username := map_user_username attrs user in
  created_at ← utcnow;
  updated_at ← utcnow;
  UserOut_init
    (default "" (attrs !! "email"))
    username
    (Some (default "" (attrs !! "phone_number")))
    (Some (default "" (attrs !! "custom:profile_image_url")))
    (Some (default true (Enabled user)))
    (Some (email_verified_of attrs))
    (Some created_at)
    (Some updated_at).

End Repository.

(** [except ClientError as e: self._handle_cognito_error(e, context)]: were
    the call to return, the method would end and return [None] *)
Definition on_ClientError (context : string) (e : ClientError) : M PyVal :=
  _handle_cognito_error e context ≫= fun _ => mret VNone.

Section Operations.

Context (rt : Runtime) (self : UserRepository).
Local Open Scope list_scope.

(** lines 109-123: [user_attributes] of [signup] *)
Definition signup_attributes (user_data : UserCreate) : list Attribute :=
  let user_attributes := [{| Name := "email"; Value := uc_email user_data |}] in
  let user_attributes :=
    if truthy_opt (uc_username user_data)
    then user_attributes ++ [{| Name := "name"; Value := default "" (uc_username user_data) |}]
    else user_attributes
           ++ [{| Name := "name"; Value := Str.item0 (Str.split "@" (uc_email user_data)) |}] in
  let user_attributes :=
    if truthy_opt (uc_phone_number user_data)
    then user_attributes
           ++ [{| Name := "phone_number"; Value := default "" (uc_phone_number user_data) |}]
    else user_attributes in
  if truthy_opt (uc_profile_image_url user_data)
  then user_attributes
         ++ [{| Name := "custom:profile_image_url";
                Value := default "" (uc_profile_image_url user_data) |}]
  else user_attributes.

(** lines 126-137: [signup_params] of [signup] *)
Definition signup_params (user_data : UserCreate) : gmap string PyVal :=
  let signup_params : gmap string PyVal :=
    <["UserAttributes" := VList (attribute_dict <$> signup_attributes user_data)]>
      (<["Password" := VStr (uc_password user_data)]>
         (<["Username" := VStr (uc_email user_data)]>
            (<["ClientId" := VStr (client_id self)]> ∅))) in
  if truthy_opt (client_secret self)
  then <["SecretHash" := of_opt_str (_get_secret_hash self (uc_email user_data))]> signup_params
  else signup_params.

(** lines 104-156 *)
Definition signup (user_data : UserCreate) : M PyVal :=
  try_except_ClientError
    (response ← invoke "sign_up" (sign_up (client self)) (signup_params user_data);
     mret (VDict (
       <["code_delivery_destination" :=
           of_opt_str (CodeDeliveryDetails response ≫= Destination)]>
      (<["code_delivery_medium" :=
           of_opt_str (CodeDeliveryDetails response ≫= DeliveryMedium)]>
      (<["user_confirmed" := VBool (default false (UserConfirmed response))]>
      (<["username" :=
           of_opt_str (uc_username user_data
                       ||| Some (Str.item0 (Str.split "@" (uc_email user_data))))]>
      (<["email" := VStr (uc_email user_data)]>
      (<["message" :=
           VStr "User registered successfully. Please check your email for the verification code."]>
       ∅))))))))
    (on_ClientError "signup").

(** lines 224-233: [auth_params] of [login] *)
Definition login_auth_params (username password : string) : gmap string PyVal :=
  let auth_params : gmap string PyVal :=
    <["PASSWORD" := VStr password]> (<["USERNAME" := VStr username]> ∅) in
  if truthy_opt (client_secret self)
  then <["SECRET_HASH" := of_opt_str (_get_secret_hash self username)]> auth_params
  else auth_params.

(** lines 238-243: the keyword arguments of the call of [login] *)
Definition login_params (username password : string) : gmap string PyVal :=
  <["AuthParameters" := VDict (login_auth_params username password)]>
    (<["AuthFlow" := VStr "ADMIN_NO_SRP_AUTH"]>
       (<["ClientId" := VStr (client_id self)]>
          (<["UserPoolId" := VStr (user_pool_id self)]> ∅))).

(** lines 218-263 *)
Definition login (username password : string) : M PyVal :=
  try_except_ClientError
    (response ← invoke "admin_initiate_auth" (admin_initiate_auth (client self))
                  (login_params username password);
     tokens ← getitem "AuthenticationResult" (AuthenticationResult response);
     access_token ← getitem "AccessToken" (AccessToken tokens);
     refresh_token ← getitem "RefreshToken" (RefreshToken tokens);
     id_token ← getitem "IdToken" (IdToken tokens);
     token_type ← getitem "TokenType" (TokenType tokens);
     expires_in ← getitem "ExpiresIn" (ExpiresIn tokens);
     mret (VDict (
       <["expires_in" := VInt expires_in]>
      (<["token_type" := VStr token_type]>
      (<["id_token" := VStr id_token]>
      (<["refresh_token" := VStr refresh_token]>
      (<["access_token" := VStr access_token]>
      (<["status" := VStr "SUCCESS"]> ∅))))))))
    (on_ClientError "login").

(** lines 282-293: the keyword arguments of the call of [refresh_token] *)
Definition refresh_token_params (refresh_token : string) : gmap string PyVal :=
  let auth_params : gmap string PyVal := <["REFRESH_TOKEN" := VStr refresh_token]> ∅ in
  <["AuthParameters" := VDict auth_params]>
    (<["AuthFlow" := VStr "REFRESH_TOKEN_AUTH"]>
       (<["ClientId" := VStr (client_id self)]>
          (<["UserPoolId" := VStr (user_pool_id self)]> ∅))).

(** lines 279-304 *)
Definition refresh_token (refresh_token : string) : M PyVal :=
  try_except_ClientError
    (response ← invoke "admin_initiate_auth" (admin_initiate_auth (client self))
                  (refresh_token_params refresh_token);
     tokens ← getitem "AuthenticationResult" (AuthenticationResult response);
     access_token ← getitem "AccessToken" (AccessToken tokens);
     id_token ← getitem "IdToken" (IdToken tokens);
     token_type ← getitem "TokenType" (TokenType tokens);
     expires_in ← getitem "ExpiresIn" (ExpiresIn tokens);
     mret (VDict (
       <["expires_in" := VInt expires_in]>
      (<["token_type" := VStr token_type]>
      (<["id_token" := VStr id_token]>
      (<["access_token" := VStr access_token]>
      (<["status" := VStr "SUCCESS"]> ∅)))))))
    (on_ClientError "refresh_token").

(** lines 428-432: the [username] of [get_current_user] *)
Definition current_user_username (attrs : gmap string string) : option string :=
  attrs !! "name"
  ||| attrs !! "preferred_username"
  ||| Some (Str.item0 (Str.split "@" (default "" (attrs !! "email")))).

(** lines 418-446 *)
Definition get_current_user (access_token : string) : M PyVal :=
  try_except_ClientError
    (response ← invoke "get_user" (get_user (client self))
                  (<["AccessToken" := VStr access_token]> ∅);
     let attrs := attrs_dict (default [] (gu_UserAttributes response)) in
     let username := current_user_username attrs in
     created_at ← utcnow rt;
     updated_at ← utcnow rt;
     user ← UserOut_init rt
              (default "" (attrs !! "email"))
              username
              (Some (default "" (attrs !! "phone_number")))
              (Some (default "" (attrs !! "custom:profile_image_url")))
              (Some true)
              (Some (email_verified_of attrs))
              (Some created_at)
              (Some updated_at);
     mret (VUser user))
    (on_ClientError "get_current_user").

(** lines 453-455: [params] of [get_all] *)
Definition get_all_params (limit : Z) (pagination_token : option string) : gmap string PyVal :=
  let params : gmap string PyVal :=
    <["Limit" := VInt limit]> (<["UserPoolId" := VStr (user_pool_id self)]> ∅) in
  if truthy_opt pagination_token
  then <["PaginationToken" := of_opt_str pagination_token]> params
  else params.

(** lines 451-463; the defaults of the signature, [limit = 20] and
    [pagination_token = None], are for a caller that leaves them out *)
Definition get_all (limit : Z) (pagination_token : option string) : M PyVal :=
  try_except_ClientError
    (response ← invoke "list_users" (list_users (client self))
                  (get_all_params limit pagination_token);
     users ← comprehension (_map_user rt) (default [] (Users response));
     mret (VDict (
       <["next_token" := of_opt_str (PaginationToken response)]>
      (<["users" := VList (VUser <$> users)]> ∅))))
    (on_ClientError "get_all").

(** lines 467-470: the keyword arguments of the call of [get_by_username] *)
Definition get_by_username_params (username : string) : gmap string PyVal :=
  <["Username" := VStr username]> (<["UserPoolId" := VStr (user_pool_id self)]> ∅).

(** lines 465-478 *)
Definition get_by_username (username : string) : M PyVal :=
  try_except_ClientError
    (response ← invoke "admin_get_user" (admin_get_user (client self))
                  (get_by_username_params username);
     name ← getitem "Username" (agu_Username response);
     attributes ← getitem "UserAttributes" (agu_UserAttributes response);
     let user := {| Username := Some name;
                    Attributes := Some attributes;
                    Enabled := Some (default true (agu_Enabled response)) |} in
     user ← _map_user rt user;
     mret (VUser user))
    (on_ClientError "get_by_username").

(** lines 487-492 *)
Definition name_mapping : gmap string string :=
  <["username" := "name"]>
    (<["email" := "email"]>
       (<["phone_number" := "phone_number"]>
          (<["profile_image_url" := "custom:profile_image_url"]> ∅))).

(** lines 484-496: the body of the loop of [update] *)
Definition update_step (attributes : list Attribute) (kv : string * PyVal) : list Attribute :=
  let '(key, value) := kv in
  match value with
  | VNone => attributes
  | _ =>
      match name_mapping !! key with
      | Some name =>
          if Str.truthy name
          then attributes ++ [{| Name := name; Value := py_str rt value |}]
          else attributes
      | None => attributes
      end
  end.

(** lines 482-496: [attributes] of [update] when the loop ends *)
Definition update_attributes (user_data : UserUpdate) : list Attribute :=
  fold_left update_step (dict_exclude_unset user_data) [].

(** lines 501-505: the keyword arguments of the call of [update] *)
Definition update_params (username : string) (attributes : list Attribute) :
    gmap string PyVal :=
  <["UserAttributes" := VList (attribute_dict <$> attributes)]>
    (<["Username" := VStr username]>
       (<["UserPoolId" := VStr (user_pool_id self)]> ∅)).

(** lines 480-510 *)
Definition update (username : string) (user_data : UserUpdate) : M PyVal :=
  try_except_ClientError
    (let attributes := update_attributes user_data in
     match attributes with
     | [] => mret (VDict (<["message" := VStr "No attributes to update"]> ∅))
     | _ =>
         _ ← invoke "admin_update_user_attributes"
               (admin_update_user_attributes (client self))
               (update_params username attributes);
         mret (VDict (<["message" := VStr "User updated successfully"]> ∅))
     end)
    (on_ClientError "update").

End Operations.

(** ** [app/core/response.py] and [app/presentation/routers/user_router.py] *)

(** starlette's [JSONResponse(status_code, content)] *)
Record JSONResponse := { response_status_code : Z; content : gmap string PyVal }.

(** [fastapi.Query(default, le=bound)] on an [int] parameter *)
Record Query := { query_default : Z; le : Z }.

(** What FastAPI hands to the route for the parameter [name] declared with a
    [Query]: the default when the request leaves the parameter out, the
    value when it is within the bound, and otherwise no call of the route at
    all but a request validation error. *)
Definition resolve_query (name : string) (q : Query) (given : option Z) : M Z :=
  match given with
  | None => mret (query_default q)
  | Some v => if v <=? le q then mret v else raise (ERequestValidation name)
  end.

Section Response.

Context (rt : Runtime).

(** [core/response.py], lines 5-17 *)
Definition JsonResponse (data : PyVal) (message : string) (status_code : Z) : JSONResponse :=
  let data := jsonable_encoder rt data in
  {| response_status_code := status_code;
     content :=
       <["data" := data]>
      (<["message" := VStr message]>
      (<["status" := VStr (if status_code <? 400 then "success" else "error")]> ∅)) |}.

End Response.

Module user_router.
Section Routes.

Context (rt : Runtime) (user_repo : UserRepository).

(** [user_router.py], lines 12-16:
    [def list_users(limit: int = Query(20, le=60), token: str | None = None)] *)
Definition list_users (limit : option Z) (token : option string) : M JSONResponse :=
  limit ← resolve_query "limit" {| query_default := 20; le := 60 |} limit;
  users ← get_all rt user_repo limit token;
  mret (JsonResponse rt users "Users retrieved successfully" 200).

End Routes.
End user_router.

(** * The rest of the service *)

(** What follows embeds the methods of [UserRepository] the first part left
    out, the schemas that validate a request, the other routes of
    [user_router.py], [core/error_handler.py] and the wiring of [main.py]. *)

(** ** More of Python's [str] *)

Module PyStr.

(** [s.replace(old, new)] for an [old] that is not empty: the occurrences of
    [old] are taken from the left and do not overlap.  [skip] counts the
    characters of the occurrence just replaced that are still to pass. *)
Fixpoint replace_from (old new : string) (skip : nat) (s : string) : string :=
  match s with
  | EmptyString => EmptyString
  | String c s' =>
      match skip with
      | S skip' => replace_from old new skip' s'
      | O =>
          if String.prefix old s
          then new ++ replace_from old new (String.length old - 1) s'
          else String c (replace_from old new 0 s')
      end
  end.

Definition replace (old new s : string) : string := replace_from old new 0 s.

(** a byte that continues a character of UTF-8: [10xxxxxx] *)
Definition continuation (c : ascii) : bool :=
  (N.land (N_of_ascii c) 192 =? 128)%N.

(** [len(s)]: the characters of [s], one for each byte of its UTF-8 form
    that does not continue a character *)
Fixpoint len (s : string) : nat :=
  match s with
  | EmptyString => O
  | String c s' => ((if continuation c then 0 else 1) + len s')%nat
  end.

End PyStr.

(** ** More of the boto3 client *)

Record CodeDeliveryResponse := {
  cd_CodeDeliveryDetails : option CodeDeliveryDetailsType
}.

Record UserPoolType := { pool_Name : option string }.

Record DescribeUserPoolResponse := { UserPool : option UserPoolType }.

Record UserPoolClientType := {
  ClientName : option string;
  ExplicitAuthFlows : option (list string)
}.

Record DescribeUserPoolClientResponse := {
  UserPoolClient : option UserPoolClientType
}.

(** [self.client] has more methods than [CognitoIdp] lists: these are the
    ones the methods below call. *)
Module cognito_idp.

Record methods := {
  confirm_sign_up : gmap string PyVal -> ClientError + unit;
  resend_confirmation_code : gmap string PyVal -> ClientError + CodeDeliveryResponse;
  global_sign_out : gmap string PyVal -> ClientError + unit;
  forgot_password : gmap string PyVal -> ClientError + CodeDeliveryResponse;
  confirm_forgot_password : gmap string PyVal -> ClientError + unit;
  admin_delete_user : gmap string PyVal -> ClientError + unit;
  describe_user_pool : gmap string PyVal -> ClientError + DescribeUserPoolResponse;
  describe_user_pool_client :
    gmap string PyVal -> ClientError + DescribeUserPoolClientResponse
}.

End cognito_idp.

(** What botocore and FastAPI supply besides [Runtime]. *)
Record Libraries := {
  (** [str(e)] on a [ClientError] *)
  str_ClientError : ClientError -> string;
  (** the [detail] of FastAPI's answer to a request that fails validation *)
  validation_detail : string -> PyVal
}.

(** ** [user_repository.py], the other methods *)

Module user_repository.
Section Methods.

Context (lib : Libraries) (self : UserRepository) (idp : cognito_idp.methods).

(** a dict with the [SecretHash] of [username] when a client secret exists:
    [if self.client_secret: params["SecretHash"] = self._get_secret_hash(username)] *)
Definition with_secret_hash (username : string) (params : gmap string PyVal) :
    gmap string PyVal :=
  if truthy_opt (client_secret self)
  then <["SecretHash" := of_opt_str (_get_secret_hash self username)]> params
  else params.

(** lines 166-175: [confirm_params] of [confirm_email] *)
Definition confirm_email_params (email code : string) : gmap string PyVal :=
  with_secret_hash email
    (<["ConfirmationCode" := VStr code]>
       (<["Username" := VStr email]>
          (<["ClientId" := VStr (client_id self)]> ∅))).

(** lines 161-183 *)
Definition confirm_email (email code : string) : M PyVal :=
  try_except_ClientError
    (_ ← invoke "confirm_sign_up" (cognito_idp.confirm_sign_up idp)
           (confirm_email_params email code);
     mret (VDict (<["message" := VStr "Email confirmed successfully. You can now login."]> ∅)))
    (on_ClientError "confirm_email").

(** lines 193-201: [resend_params] of [resend_confirmation_code] *)
Definition resend_confirmation_code_params (email : string) : gmap string PyVal :=
  with_secret_hash email
    (<["Username" := VStr email]> (<["ClientId" := VStr (client_id self)]> ∅)).

(** the dict [resend_confirmation_code] and [forgot_password] return *)
Definition delivery_result (message : string) (response : CodeDeliveryResponse) : PyVal :=
  VDict (
    <["code_delivery_destination" :=
        of_opt_str (cd_CodeDeliveryDetails response ≫= Destination)]>
   (<["code_delivery_medium" :=
        of_opt_str (cd_CodeDeliveryDetails response ≫= DeliveryMedium)]>
   (<["message" := VStr message]> ∅))).

(** lines 188-213 *)
Definition resend_confirmation_code (email : string) : M PyVal :=
  try_except_ClientError
    (response ← invoke "resend_confirmation_code" (cognito_idp.resend_confirmation_code idp)
                  (resend_confirmation_code_params email);
     mret (delivery_result "Verification code has been resent to your email." response))
    (on_ClientError "resend_confirmation_code").

(** lines 268-274 *)
Definition logout (access_token : string) : M PyVal :=
  try_except_ClientError
    (_ ← invoke "global_sign_out" (cognito_idp.global_sign_out idp)
           (<["AccessToken" := VStr access_token]> ∅);
     mret (VDict (<["message" := VStr "User logged out successfully"]> ∅)))
    (on_ClientError "logout").

(** lines 314-322: [forgot_params] of [forgot_password] *)
Definition forgot_password_params (email : string) : gmap string PyVal :=
  with_secret_hash email
    (<["Username" := VStr email]> (<["ClientId" := VStr (client_id self)]> ∅)).

(** lines 309-334 *)
Definition forgot_password (email : string) : M PyVal :=
  try_except_ClientError
    (response ← invoke "forgot_password" (cognito_idp.forgot_password idp)
                  (forgot_password_params email);
     mret (delivery_result "Password reset code has been sent to your email." response))
    (on_ClientError "forgot_password").

(** lines 344-354: [confirm_params] of [confirm_forgot_password] *)
Definition confirm_forgot_password_params (email code new_password : string) :
    gmap string PyVal :=
  with_secret_hash email
    (<["Password" := VStr new_password]>
       (<["ConfirmationCode" := VStr code]>
          (<["Username" := VStr email]>
             (<["ClientId" := VStr (client_id self)]> ∅)))).

(** lines 339-362 *)
Definition confirm_forgot_password (email code new_password : string) : M PyVal :=
  try_except_ClientError
    (_ ← invoke "confirm_forgot_password" (cognito_idp.confirm_forgot_password idp)
           (confirm_forgot_password_params email code new_password);
     mret (VDict (<["message" :=
                     VStr "Password has been reset successfully. You can now login with your new password."]> ∅)))
    (on_ClientError "confirm_forgot_password").

(** lines 514-517: the keyword arguments of the call of [delete] *)
Definition delete_params (username : string) : gmap string PyVal :=
  <["Username" := VStr username]> (<["UserPoolId" := VStr (user_pool_id self)]> ∅).

(** lines 512-521 *)
Definition delete (username : string) : M PyVal :=
  try_except_ClientError
    (_ ← invoke "admin_delete_user" (cognito_idp.admin_delete_user idp)
           (delete_params username);
     mret (VDict (<["message" := VStr "User deleted successfully"]> ∅)))
    (on_ClientError "delete").

(** lines 381-384: the keyword arguments of the second call of [test_connection] *)
Definition describe_client_params : gmap string PyVal :=
  <["ClientId" := VStr (client_id self)]> (<["UserPoolId" := VStr (user_pool_id self)]> ∅).

(** ['ADMIN_NO_SRP_AUTH' in auth_flows] *)
Definition has_admin_no_srp (auth_flows : list string) : bool :=
  existsb (String.eqb "ADMIN_NO_SRP_AUTH") auth_flows.

(** lines 367-413.  The logger is left out, but not what its arguments
    evaluate: lines 378 and 385 index the responses, and raise [KeyError]
    on a key that is missing, before the code goes on.  (Line 371 reads
    [AWS_REGION] from the configuration, as [__init__] has done.) *)
Definition test_connection : M PyVal :=
  try_except_ClientError
    (pool_info ← invoke "describe_user_pool" (cognito_idp.describe_user_pool idp)
                   (<["UserPoolId" := VStr (user_pool_id self)]> ∅);
     user_pool ← getitem "UserPool" (UserPool pool_info);
     pool_name ← getitem "Name" (pool_Name user_pool);
     client_info ← invoke "describe_user_pool_client"
                     (cognito_idp.describe_user_pool_client idp) describe_client_params;
     pool_client ← getitem "UserPoolClient" (UserPoolClient client_info);
     client_name ← getitem "ClientName" (ClientName pool_client);
     let auth_flows := default [] (ExplicitAuthFlows pool_client) in
     if negb (has_admin_no_srp auth_flows)
     then mret (VDict (
            <["required_action" :=
                VStr "Enable ALLOW_ADMIN_USER_PASSWORD_AUTH in Cognito app client settings"]>
           (<["message" := VStr "ADMIN_NO_SRP_AUTH not enabled in app client"]>
           (<["status" := VStr "error"]> ∅))))
     else mret (VDict (
            <["auth_flows" := VList (VStr <$> auth_flows)]>
           (<["app_client" := VStr client_name]>
           (<["user_pool" := VStr pool_name]>
           (<["message" := VStr "Cognito connection successful"]>
           (<["status" := VStr "success"]> ∅)))))))
    (fun e => mret (VDict (
       <["code" := VStr (Code e)]>
      (<["message" := VStr (str_ClientError lib e)]>
      (<["status" := VStr "error"]> ∅))))).

End Methods.
End user_repository.

(** ** [user_schema.py]: the models that validate a request *)

(** class [UserLogin] *)
Record UserLogin := { ul_email : string; ul_password : string }.

Module schemas.

(** The fields of a JSON body, each left out, [null] or a string; the two
    instants are left out or given. *)
Record UserCreate_fields := {
  f_email : Field (option string);
  f_username : Field (option string);
  f_password : Field (option string);
  f_phone_number : Field (option string);
  f_profile_image_url : Field (option string);
  f_created_at : Field datetime;
  f_updated_at : Field datetime
}.

Record UserLogin_fields := {
  l_email : Field (option string);
  l_password : Field (option string)
}.

(** a field that must hold a string *)
Definition required (f : Field (option string)) : option string :=
  match f with
  | IsSet (Some s) => Some s
  | _ => None
  end.

(** a field of type [Optional[str]] with the default [d] *)
Definition optional (d : option string) (f : Field (option string)) : option string :=
  match f with
  | NotSet => d
  | IsSet x => x
  end.

(** [Field(..., min_length=n)] on a string *)
Definition min_length (n : nat) (s : string) : bool := (n <=? PyStr.len s)%nat.

(** [Field(None, max_length=n)] on a string or [None] *)
Definition max_length (n : nat) (x : option string) : bool :=
  match x with
  | Some s => (PyStr.len s <=? n)%nat
  | None => true
  end.

Section Validation.

Context (rt : Runtime).

(** [Field(default_factory=datetime.utcnow)] *)
Definition default_factory (f : Field datetime) : M datetime :=
  match f with
  | NotSet => utcnow rt
  | IsSet t => mret t
  end.

(** the first field of [UserCreate] that does not validate, in the order of
    the declarations; [email] is declared by [UserBase] *)
Definition UserCreate_error (fields : UserCreate_fields) : option string :=
  if negb (bool_decide (is_Some (required (f_email fields) ≫= EmailStr rt)))
  then Some "email"
  else if negb (bool_decide (is_Some (required (f_password fields))))
          || negb (min_length 6 (default "" (required (f_password fields))))
  then Some "password"
  else if negb (max_length 15 (optional None (f_phone_number fields)))
  then Some "phone_number"
  else None.

(** the constructor of [UserCreate] on the fields of a body, lines 18-22 *)
Definition UserCreate_init (fields : UserCreate_fields) : M UserCreate :=
  created_at ← default_factory (f_created_at fields);
  updated_at ← default_factory (f_updated_at fields);
  match UserCreate_error fields with
  | Some field => raise (EValidation field)
  | None =>
      mret {| uc_email := default "" (required (f_email fields) ≫= EmailStr rt);
              uc_username := optional None (f_username fields);
              uc_password := default "" (required (f_password fields));
              uc_phone_number := optional None (f_phone_number fields);
              uc_profile_image_url := optional (Some "") (f_profile_image_url fields);
              uc_created_at := created_at;
              uc_updated_at := updated_at |}
  end.

(** the constructor of [UserLogin] on the fields of a body, lines 49-51 *)
Definition UserLogin_init (fields : UserLogin_fields) : M UserLogin :=
  match required (l_email fields) ≫= EmailStr rt with
  | None => raise (EValidation "email")
  | Some email =>
      match required (l_password fields) with
      | Some password =>
          if min_length 6 password
          then mret {| ul_email := email; ul_password := password |}
          else raise (EValidation "password")
      | None => raise (EValidation "password")
      end
  end.

(** a field of [UserUpdate] of type [Optional[EmailStr]] *)
Definition optional_email (f : Field (option string)) : option (Field (option string)) :=
  match f with
  | IsSet (Some s) => (fun e => IsSet (Some e)) <$> EmailStr rt s
  | _ => Some f
  end.

(** the constructor of [UserUpdate] on the fields of a body, lines 70-75: a
    field left out stays unset *)
Definition UserUpdate_init (fields : UserUpdate) : M UserUpdate :=
  _ ← default_factory (uu_updated_at fields);
  match optional_email (uu_email fields) with
  | None => raise (EValidation "email")
  | Some email =>
      if max_length 15 (optional None (uu_phone_number fields))
      then mret {| uu_username := uu_username fields; uu_email := email;
                   uu_phone_number := uu_phone_number fields;
                   uu_profile_image_url := uu_profile_image_url fields;
                   uu_updated_at := uu_updated_at fields |}
      else raise (EValidation "phone_number")
  end.

End Validation.
End schemas.

(** ** The routes and the application *)

(** A route can fail as an operation of the repository can, and on a value
    of the wrong type besides. *)
Inductive Failure :=
| Known (e : Exception)
| TypeError
| AttributeError.

Definition H (A : Type) : Type := World -> (Failure + A) * World.

#[global] Instance H_ret : MRet H := fun A a w => (inr a, w).
#[global] Instance H_bind : MBind H := fun A B k m w =>
  match m w with
  | (inr a, w') => k a w'
  | (inl f, w') => (inl f, w')
  end.

Definition fail {A} (f : Failure) : H A := fun w => (inl f, w).

(** a call of a method of the repository from a route *)
Definition lift {A} (m : M A) : H A :=
  fun w =>
    match m w with
    | (Return a, w') => (inr a, w')
    | (Raise e, w') => (inl (Known e), w')
    end.

(** [v[key]] *)
Definition subscript (v : PyVal) (key : string) : H PyVal :=
  match v with
  | VDict d =>
      match d !! key with
      | Some x => mret x
      | None => fail (Known (EKeyError key))
      end
  | _ => fail TypeError
  end.

(** [v.get(key, default)] *)
Definition py_get (v : PyVal) (key : string) (d : PyVal) : H PyVal :=
  match v with
  | VDict m => mret (default d (m !! key))
  | _ => fail AttributeError
  end.

(** FastAPI builds the model of a body before it calls the route, and
    answers a body that does not validate itself *)
Definition with_body {B A R} (init : B -> M A) (route : A -> H R) (body : B) : H R :=
  fun w =>
    match init body w with
    | (Return a, w') => route a w'
    | (Raise (EValidation field), w') => (inl (Known (ERequestValidation field)), w')
    | (Raise e, w') => (inl (Known e), w')
    end.

(** [Header(...)]: a header the request must carry *)
Definition required_header (name : string) (given : option string) : H string :=
  match given with
  | Some v => mret v
  | None => fail (Known (ERequestValidation name))
  end.

(** [core/response.py], lines 5-17, for a message that is any value *)
Definition JsonResponse_any (rt : Runtime) (data message : PyVal) (status_code : Z) :
    JSONResponse :=
  let data := jsonable_encoder rt data in
  {| response_status_code := status_code;
     content :=
       <["data" := data]>
      (<["message" := message]>
      (<["status" := VStr (if status_code <? 400 then "success" else "error")]> ∅)) |}.

Module routes.
Section Routes.

Context (rt : Runtime) (lib : Libraries) (user_repo : UserRepository)
  (idp : cognito_idp.methods).

(** [user_router.py], lines 19-23 *)
Definition get_user (username : string) : H JSONResponse :=
  user ← lift (get_by_username rt user_repo username);
  mret (JsonResponse rt user "User retrieved successfully" 200).

(** lines 26-31 *)
Definition create_user (user : UserCreate) : H JSONResponse :=
  created_user ← lift (signup user_repo user);
  mret (JsonResponse rt created_user "User created successfully" 200).

(** lines 34-38 *)
Definition update_user (username : string) (user : UserUpdate) : H JSONResponse :=
  updated_user ← lift (update rt user_repo username user);
  mret (JsonResponse rt updated_user "User updated successfully" 200).

(** lines 41-45 *)
Definition delete_user (username : string) : H JSONResponse :=
  result ← lift (user_repository.delete user_repo idp username);
  mret (JsonResponse rt result "User deleted successfully" 200).

(** lines 47-50 *)
Definition confirm_email (email code : string) : H JSONResponse :=
  result ← lift (user_repository.confirm_email user_repo idp email code);
  message ← subscript result "message";
  mret (JsonResponse_any rt result message 200).

(** lines 52-55 *)
Definition login (user : UserLogin) : H JSONResponse :=
  result ← lift (login user_repo (ul_email user) (ul_password user));
  message ← py_get result "message" (VStr "Login successful");
  mret (JsonResponse_any rt result message 200).

(** lines 60-64; the header is [Authorization: str = Header(...)] *)
Definition logout (Authorization : option string) : H JSONResponse :=
  Authorization ← required_header "Authorization" Authorization;
  let token := PyStr.replace "Bearer " "" Authorization in
  result ← lift (user_repository.logout idp token);
  message ← subscript result "message";
  mret (JsonResponse_any rt VNone message 200).

End Routes.
End routes.

(** [core/error_handler.py], lines 10-15; the logger is left out *)
Definition app_exception_handler (exc : AppException) : JSONResponse :=
  {| response_status_code := status_code exc;
     content := <["message" := VStr (message exc)]> (<["status" := VStr "error"]> ∅) |}.

(** lines 17-22 *)
Definition general_exception_handler : JSONResponse :=
  {| response_status_code := 500;
     content := <["message" := VStr "Internal Server Error"]>
                  (<["status" := VStr "error"]> ∅) |}.

(** FastAPI's own handler of a request that fails validation *)
Definition request_validation_handler (lib : Libraries) (param : string) : JSONResponse :=
  {| response_status_code := 422;
     content := <["detail" := validation_detail lib param]> ∅ |}.

(** [main.py], lines 10-14: the application answers a request with the
    response of its route, and what the route raises with the handler
    registered for it: [app_exception_handler] for [AppException],
    FastAPI's for a request that fails validation, and
    [general_exception_handler] for any other exception. *)
Definition app (lib : Libraries) (route : H JSONResponse) (w : World) : JSONResponse * World :=
  match route w with
  | (inr response, w') => (response, w')
  | (inl (Known (EApp exc)), w') => (app_exception_handler exc, w')
  | (inl (Known (ERequestValidation param)), w') => (request_validation_handler lib param, w')
  | (inl _, w') => (general_exception_handler, w')
  end.

(** [main.py], lines 17-19 *)
Definition health_root (rt : Runtime) : JSONResponse :=
  JsonResponse rt (VDict ∅) "User Service is up and running" 200.

(** [Query(...)] without a default: a parameter the request must carry *)
Definition required_query (name : string) (given : option string) : H string :=
  match given with
  | Some v => mret v
  | None => fail (Known (ERequestValidation name))
  end.

(** The requests the application routes: the decorators of
    [user_router.py] under the prefix [/users], and [GET /] of [main.py].
    A parameter of the query or a header may be missing; a body comes as
    its fields. *)
Inductive Request :=
| GET_root
| GET_users (limit : option Z) (token : option string)
| GET_user (username : string)
| POST_create (body : schemas.UserCreate_fields)
| PUT_update (username : string) (body : UserUpdate)
| DELETE_delete (username : string)
| POST_confirm (email code : option string)
| POST_login (body : schemas.UserLogin_fields)
| POST_logout (Authorization : option string).

Section Application.

Context (rt : Runtime) (lib : Libraries) (user_repo : UserRepository)
  (idp : cognito_idp.methods).

(** the route of a request, called on what FastAPI makes of the request *)
Definition route_of (request : Request) : H JSONResponse :=
  match request with
  | GET_root => mret (health_root rt)
  | GET_users limit token => lift (user_router.list_users rt user_repo limit token)
  | GET_user username => routes.get_user rt user_repo username
  | POST_create body =>
      with_body (schemas.UserCreate_init rt) (routes.create_user rt user_repo) body
  | PUT_update username body =>
      with_body (schemas.UserUpdate_init rt) (routes.update_user rt user_repo username) body
  | DELETE_delete username => routes.delete_user rt user_repo idp username
  | POST_confirm email code =>
      email ← required_query "email" email;
      code ← required_query "code" code;
      routes.confirm_email rt user_repo idp email code
  | POST_login body =>
      with_body (schemas.UserLogin_init rt) (routes.login rt user_repo) body
  | POST_logout Authorization => routes.logout rt idp Authorization
  end.

(** the response of the application to a request *)
Definition serve (request : Request) (w : World) : JSONResponse * World :=
  app lib (route_of request) w.

End Application.

(** ** [core/logger.py] and [core/dependancies.py] *)

Module logger.

(** the handlers the service builds, with the format of their formatter *)
Inductive Handler :=
| StreamHandler (stream : string) (fmt : string)
| RotatingFileHandler (filename : string) (maxBytes backupCount : Z) (fmt : string).

(** a logger of the module [logging] *)
Record Logger := { level : Z; handlers : list Handler }.

(** What the process holds: the loggers of [logging] by name, which
    [logging.getLogger] hands out, one for a name; the directories
    [os.makedirs] was asked for and the files opened, in their order. *)
Record Process := {
  loggers : gmap string Logger;
  directories : list string;
  files : list string
}.

(** The operating system: [os.path.join], and whether it lets a directory
    be made and a file be opened for appending. *)
Record OS := {
  path_join : string -> string -> string;
  can_make : string -> bool;
  can_open : string -> bool
}.

(** the attributes [__init__] sets from its arguments; [self.logger] is the
    logger of the name [name] *)
Record LoggingService := {
  log_dir : string;
  log_file : string;
  service_level : Z;
  name : string
}.

(** [logging.INFO], [logging.WARNING] and [logging.NOTSET] *)
Definition INFO : Z := 20.
Definition WARNING : Z := 30.
Definition NOTSET : Z := 0.

(** the name [logging] keeps a logger under: the root logger answers to
    the empty name and to [root] *)
Definition key (name : string) : string :=
  if (name =? "")%string then "root" else name.

(** a logger nothing has configured *)
Definition fresh (name : string) : Logger :=
  {| level := if (key name =? "root")%string then WARNING else NOTSET; handlers := [] |}.

(** [logging.getLogger(name)] *)
Definition getLogger (name : string) (p : Process) : Logger :=
  default (fresh name) (loggers p !! key name).

Definition store (name : string) (l : Logger) (p : Process) : Process :=
  {| loggers := <[key name := l]> (loggers p);
     directories := directories p;
     files := files p |}.

(** [logger.setLevel(level)], for a level that is a number *)
Definition setLevel (name : string) (lvl : Z) (p : Process) : Process :=
  store name {| level := lvl; handlers := handlers (getLogger name p) |} p.

(** [logger.addHandler(hdlr)], for a handler the logger does not hold *)
Definition addHandler (name : string) (h : Handler) (p : Process) : Process :=
  store name {| level := level (getLogger name p);
                handlers := (handlers (getLogger name p) ++ [h])%list |} p.

Definition format : string :=
  "[%(asctime)s] %(levelname)s in %(module)s: %(message)s".

Section Service.

Context (os : OS).

(** lines 23-48; [None] stands for the [OSError] of [os.makedirs] or of
    the handler that opens its file *)
Definition _initialize_logger (self : LoggingService) (p : Process) :
    option unit * Process :=
  if negb (can_make os (log_dir self)) then (None, p)
  else
    let p := {| loggers := loggers p;
                directories := (directories p ++ [log_dir self])%list;
                files := files p |} in
    let log_path := path_join os (log_dir self) (log_file self) in
    let stream_handler := StreamHandler "sys.stdout" format in
    if negb (can_open os log_path) then (None, p)
    else
      let p := {| loggers := loggers p;
                  directories := directories p;
                  files := (files p ++ [log_path])%list |} in
      let file_handler := RotatingFileHandler log_path 5000000 5 format in
      let p := setLevel (name self) (service_level self) p in
      match handlers (getLogger (name self) p) with
      | [] =>
          (Some tt, addHandler (name self) file_handler
                      (addHandler (name self) stream_handler p))
      | _ => (Some tt, p)
      end.

(** lines 15-21: the service made of the arguments, and the process after *)
Definition LoggingService_init (log_dir log_file : string) (level : Z) (name : string)
    (p : Process) : option LoggingService * Process :=
  let self := {| log_dir := log_dir; log_file := log_file;
                 service_level := level; name := name |} in
  match _initialize_logger self p with
  | (Some _, p') => (Some self, p')
  | (None, p') => (None, p')
  end.

End Service.

(** lines 50-52 *)
Definition get_logger (self : LoggingService) (p : Process) : Logger :=
  getLogger (name self) p.

(** lines 54-56 *)
Definition set_level (self : LoggingService) (lvl : Z) (p : Process) : Process :=
  setLevel (name self) lvl p.

(** [core/dependancies.py], line 5: [LoggingService()] with the defaults of
    [__init__] *)
Definition logging_service (os : OS) (p : Process) : option LoggingService * Process :=
  LoggingService_init os "logs" "app.log" INFO "app_logger" p.

End logger.

(** ** Hexadecimal text, to state digests *)

Module Hex.

Definition hex_digit (d : Z) : ascii :=
  match String.get (Z.to_nat d) "0123456789abcdef" with
  | Some c => c
  | None => "?"%char
  end.

Fixpoint hex (bs : list Z) : string :=
  match bs with
  | [] => EmptyString
  | b :: bs' => String (hex_digit (Z.shiftr b 4)) (String (hex_digit (Z.land b 15)) (hex bs'))
  end.

End Hex.

(** ** A concrete runtime, provider and repository, to run the operations on *)

Module Sample.

(** an [EmailStr] that accepts [local@domain] with both parts non-empty *)
Definition email_str (s : string) : option string :=
  match Str.split "@" s with
  | [l; d] => if Str.truthy l && Str.truthy d then Some s else None
  | _ => None
  end.

Definition runtime : Runtime :=
  {| utc_clock := fun n => 1700000000 + Z.of_nat n;
     EmailStr := email_str;
     str_other := fun _ => "";
     jsonable_encoder := fun v => v |}.

Definition alice : CognitoUser :=
  {| Username := Some "3f1c-uuid";
     Attributes := Some [{| Name := "sub"; Value := "3f1c-uuid" |};
                         {| Name := "email_verified"; Value := "True" |};
                         {| Name := "name"; Value := "" |};
                         {| Name := "preferred_username"; Value := "" |};
                         {| Name := "email"; Value := "a@b.com" |}];
     Enabled := Some true |}.

Definition tokens : AuthenticationResultType :=
  {| AccessToken := Some "access-1"; RefreshToken := Some "refresh-2";
     IdToken := Some "id-1"; TokenType := Some "Bearer"; ExpiresIn := Some 3600 |}.

(** a provider with one user, whose pool holds no user named ["ghost"] *)
Definition provider : CognitoIdp :=
  {| sign_up := fun _ =>
       inr {| UserConfirmed := Some false;
              CodeDeliveryDetails :=
                Some {| Destination := Some "a***@b***"; DeliveryMedium := Some "EMAIL" |} |};
     admin_initiate_auth := fun _ => inr {| AuthenticationResult := Some tokens |};
     get_user := fun _ =>
       inr {| gu_Username := Username alice; gu_UserAttributes := Attributes alice |};
     list_users := fun _ => inr {| Users := Some [alice]; PaginationToken := None |};
     admin_get_user := fun kw =>
       match kw !! "Username" with
       | Some (VStr "ghost") =>
           inl {| Code := "UserNotFoundException"; Message := "User does not exist." |}
       | _ => inr {| agu_Username := Username alice;
                     agu_UserAttributes := Attributes alice;
                     agu_Enabled := Enabled alice |}
       end;
     admin_update_user_attributes := fun _ => inr tt |}.

Definition repo (secret : option string) : UserRepository :=
  {| client := provider; user_pool_id := "pool-1"; client_id := "client123";
     client_secret := secret |}.

Definition world0 : World := {| calls := []; clock_reads := 0 |}.

End Sample.

(** ** The specification, in its own words *)

Module Spec.

(** The mapping table of section 4.2: the name of the provider's error and
    the status of the application error.  The provider reports each of
    them under its name followed by [Exception]; section 8 names the code
    of the row [UserNotConfirmed] so, [UserNotConfirmedException]. *)
Definition mapping_table : list (string * Z) :=
  [("UsernameExists", 409); ("UserNotFound", 404); ("UserNotConfirmed", 403);
   ("NotAuthorized", 401); ("InvalidParameter", 400); ("CodeMismatch", 400);
   ("ExpiredCode", 400); ("TooManyFailedAttempts", 429); ("TooManyRequests", 429);
   ("LimitExceeded", 429); ("ResourceNotFound", 404)].

Definition provider_code (name : string) : string := name ++ "Exception".

(** the status the table gives a provider code: the one of its row, and
    500 ([Internal]) for a code without a row *)
Definition table_status (code : string) : Z :=
  match find (fun row => (code =? provider_code (fst row))%string) mapping_table with
  | Some row => snd row
  | None => 500
  end.

(** The contract of section 4.1: nothing without a secret; otherwise the
    base64 text of the HMAC-SHA-256, keyed by the secret, of the user name
    followed by the client identifier. *)
Definition derive (username clientId : string) (clientSecret : option string) : option string :=
  match clientSecret with
  | None => None
  | Some EmptyString => None
  | Some secret =>
      let message := (Bytes.encode username ++ Bytes.encode clientId)%list in
      Some (Bytes.decode (Base64.b64encode (HMAC.digest (Bytes.encode secret) message)))
  end.

(** the characters of base64 text *)
Definition base64_char (c : ascii) : bool :=
  let n := N_of_ascii c in
  ((65 <=? n) && (n <=? 90) || (97 <=? n) && (n <=? 122) || (48 <=? n) && (n <=? 57)
   || (n =? 43) || (n =? 47) || (n =? 61))%N.

Fixpoint base64_text (s : string) : bool :=
  match s with
  | EmptyString => true
  | String c s' => base64_char c && base64_text s'
  end.

(** the text of [s] before its first [sep], all of [s] when it has none *)
Fixpoint before (sep : ascii) (s : string) : string :=
  match s with
  | EmptyString => EmptyString
  | String c s' => if Ascii.eqb c sep then EmptyString else String c (before sep s')
  end.

(** the first non-empty string of a chain, the empty string when it has none *)
Fixpoint first_non_empty (chain : list string) : string :=
  match chain with
  | [] => EmptyString
  | s :: chain' => if Str.truthy s then s else first_non_empty chain'
  end.

(** The chain of section 4.3; an attribute that is absent counts as empty. *)
Definition username_chain (attrs : gmap string string) (user : CognitoUser) : list string :=
  [default "" (attrs !! "name");
   default "" (attrs !! "preferred_username");
   before "@" (default "" (attrs !! "email"));
   default "" (Username user)].


(** a user name that is a string and is not empty *)
Definition non_empty (x : option string) : Prop :=
  exists s : string, x = Some s /\ s <> "".

(** an update request in which no field is set *)
Definition nothing_set (u : UserUpdate) : Prop :=
  uu_username u = NotSet /\ uu_email u = NotSet /\ uu_phone_number u = NotSet
  /\ uu_profile_image_url u = NotSet /\ uu_updated_at u = NotSet.

(** [a] is a field of [u] that the caller supplied, under the name the
    provider knows it by *)
Definition supplied (u : UserUpdate) (a : Attribute) : Prop :=
  (Name a = "custom:profile_image_url" /\ uu_profile_image_url u = IsSet (Some (Value a)))
  \/ (Name a = "name" /\ uu_username u = IsSet (Some (Value a)))
  \/ (Name a = "email" /\ uu_email u = IsSet (Some (Value a)))
  \/ (Name a = "phone_number" /\ uu_phone_number u = IsSet (Some (Value a))).

(** the names an update may send to the provider *)
Definition provider_names : list string :=
  ["email"; "phone_number"; "custom:profile_image_url"; "name"].

(** what a field contributes to the attributes sent: itself when it is set
    to a value, nothing when it is unset or set to [None] *)
Definition sent (name : string) (f : Field (option string)) : list Attribute :=
  match f with
  | IsSet (Some v) => [{| Name := name; Value := v |}]
  | _ => []
  end.

Definition transmitted (u : UserUpdate) : list Attribute :=
  (sent "name" (uu_username u) ++ sent "email" (uu_email u)
   ++ sent "phone_number" (uu_phone_number u)
   ++ sent "custom:profile_image_url" (uu_profile_image_url u))%list.

(** the request of the end-to-end scenario of section 8: the fields it does
    not name hold the defaults of [UserCreate] *)
Definition scenario_request (created_at updated_at : datetime) : UserCreate :=
  {| uc_email := "a@b.com"; uc_username := Some "a"; uc_password := "Secret1!";
     uc_phone_number := None; uc_profile_image_url := Some "";
     uc_created_at := created_at; uc_updated_at := updated_at |}.

(** the calls an update adds to the trace for the attributes it collected:
    none for none, one otherwise *)
Definition update_calls (self : UserRepository) (username : string)
    (attributes : list Attribute) : list Call :=
  match attributes with
  | [] => []
  | _ => [{| api := "admin_update_user_attributes";
             kwargs := update_params self username attributes |}]
  end.

(** an update request with another [updated_at] *)
Definition with_updated_at (t : Field datetime) (u : UserUpdate) : UserUpdate :=
  {| uu_username := uu_username u; uu_email := uu_email u;
     uu_phone_number := uu_phone_number u;
     uu_profile_image_url := uu_profile_image_url u; uu_updated_at := t |}.

(** a byte, and a byte that is a character of base64 text *)
Definition is_byte (b : Z) : Prop := 0 <= b < 256.
Definition char_ok (b : Z) : Prop := base64_char (Bytes.ascii_of_byte b) = true.

Definition all_bytes : list Z := map Z.of_nat (seq 0 256).

(** the characters a group of bytes encodes to, checked on a pair of bytes *)
Definition digits_ok (a b : Z) : bool :=
  forallb (fun i => base64_char (Bytes.ascii_of_byte (Base64.digit i)))
    [Z.shiftr a 2;
     Z.lor (Z.shiftl (Z.land a 3) 4) (Z.shiftr b 4);
     Z.lor (Z.shiftl (Z.land a 15) 2) (Z.shiftr b 6);
     Z.land a 63;
     Z.shiftl (Z.land a 3) 4;
     Z.shiftl (Z.land a 15) 2].

End Spec.

(** ** More of the sample, and of the vocabulary of the statements *)

Module Sample2.

(** a provider that confirms, signs out and deletes, knows one pool and
    one client, and has no code left to send to ["ghost@b.com"] *)
Definition idp : cognito_idp.methods :=
  {| cognito_idp.confirm_sign_up := fun _ => inr tt;
     cognito_idp.resend_confirmation_code := fun kw =>
       match kw !! "Username" with
       | Some (VStr "ghost@b.com") =>
           inl {| Code := "UserNotFoundException"; Message := "User does not exist." |}
       | _ => inr {| cd_CodeDeliveryDetails :=
                       Some {| Destination := Some "a***@b***";
                               DeliveryMedium := Some "EMAIL" |} |}
       end;
     cognito_idp.global_sign_out := fun _ => inr tt;
     cognito_idp.forgot_password := fun _ => inr {| cd_CodeDeliveryDetails := None |};
     cognito_idp.confirm_forgot_password := fun _ =>
       inl {| Code := "ExpiredCodeException"; Message := "Invalid code provided." |};
     cognito_idp.admin_delete_user := fun _ => inr tt;
     cognito_idp.describe_user_pool := fun _ =>
       inr {| UserPool := Some {| pool_Name := Some "users" |} |};
     cognito_idp.describe_user_pool_client := fun _ =>
       inr {| UserPoolClient :=
                Some {| ClientName := Some "web";
                        ExplicitAuthFlows := Some ["ALLOW_REFRESH_TOKEN_AUTH";
                                                   "ADMIN_NO_SRP_AUTH"] |} |} |}.

Definition lib : Libraries :=
  {| str_ClientError := fun e =>
       "An error occurred (" ++ Code e ++ "): " ++ Message e;
     validation_detail := fun param => VList [VStr param] |}.

(** a provider like the one of the sample, but whose authentication sends
    no refresh token, and whose pool lists a user without an address *)
Definition sparse : CognitoIdp :=
  {| sign_up := sign_up Sample.provider;
     admin_initiate_auth := fun _ =>
       inr {| AuthenticationResult :=
                Some {| AccessToken := Some "access-1"; RefreshToken := None;
                        IdToken := Some "id-1"; TokenType := Some "Bearer";
                        ExpiresIn := Some 3600 |} |};
     get_user := get_user Sample.provider;
     list_users := fun _ =>
       inr {| Users := Some [Sample.alice;
                             {| Username := Some "77aa-uuid";
                                Attributes := Some [{| Name := "sub"; Value := "77aa-uuid" |}];
                                Enabled := Some true |}];
              PaginationToken := Some "page-2" |};
     admin_get_user := admin_get_user Sample.provider;
     admin_update_user_attributes := admin_update_user_attributes Sample.provider |}.

Definition sparse_repo : UserRepository :=
  {| client := sparse; user_pool_id := "pool-1"; client_id := "client123";
     client_secret := None |}.

(** the provider of the sample, after the account of its user was disabled *)
Definition suspended : CognitoIdp :=
  {| sign_up := sign_up Sample.provider;
     admin_initiate_auth := admin_initiate_auth Sample.provider;
     get_user := get_user Sample.provider;
     list_users := list_users Sample.provider;
     admin_get_user := fun _ =>
       inr {| agu_Username := Username Sample.alice;
              agu_UserAttributes := Attributes Sample.alice;
              agu_Enabled := Some false |};
     admin_update_user_attributes := admin_update_user_attributes Sample.provider |}.

Definition suspended_repo : UserRepository :=
  {| client := suspended; user_pool_id := "pool-1"; client_id := "client123";
     client_secret := None |}.

(** [é], a character of two bytes *)
Definition e_acute : string := String "195"%char (String "169"%char "").

(** an operating system that lets every directory be made and every file
    be opened, and a process that has configured no logger *)
Definition os : logger.OS :=
  {| logger.path_join := fun d f => (d ++ "/" ++ f)%string;
     logger.can_make := fun _ => true;
     logger.can_open := fun _ => true |}.

Definition process : logger.Process :=
  {| logger.loggers := ∅; logger.directories := []; logger.files := [] |}.

End Sample2.

Module Words.

(** [old] occurs in [s] *)
Definition occurs (old s : string) : Prop :=
  exists a b : string, s = a ++ old ++ b.

(** the world after one more call *)
Definition called (w : World) (name : string) (kw : gmap string PyVal) : World :=
  {| calls := (calls w ++ [{| api := name; kwargs := kw |}])%list;
     clock_reads := clock_reads w |}.

(** the attribute of name [n] that a list of attributes ends on holds [v] *)
Definition last_named (n v : string) (l : list Attribute) : Prop :=
  exists l1 l2 : list Attribute,
    l = (l1 ++ {| Name := n; Value := v |} :: l2)%list
    /\ Forall (fun a => Name a <> n) l2.

(** the statuses of the responses of the application *)
Definition statuses : list Z := [200; 400; 401; 403; 404; 409; 422; 429; 500].

(** what a method of one call ends in: the status of the table for the code
    of a failure, and a dict with a message for an answer *)
Definition settled {R} (answer : ClientError + R) (o : Outcome PyVal * World) : Prop :=
  match answer with
  | inl e =>
      exists msg : string,
        fst o = Raise (EApp {| message := msg; status_code := Spec.table_status (Code e) |})
  | inr _ =>
      exists (d : gmap string PyVal) (msg : string),
        fst o = Return (VDict d) /\ d !! "message" = Some (VStr msg)
  end.

(** the keys [login] reads from the result of an authentication and does
    not find, in the order it reads them *)
Definition absent {A} (key : string) (x : option A) : list string :=
  match x with
  | Some _ => []
  | None => [key]
  end.

Definition missing_tokens (t : AuthenticationResultType) : list string :=
  (absent "AccessToken" (AccessToken t) ++ absent "RefreshToken" (RefreshToken t)
   ++ absent "IdToken" (IdToken t) ++ absent "TokenType" (TokenType t)
   ++ absent "ExpiresIn" (ExpiresIn t))%list.

(** the attributes of a user of the provider, as a dict, and the address
    among them *)
Definition attributes_of (user : CognitoUser) : gmap string string :=
  attrs_dict (default [] (Attributes user)).

Definition email_of (user : CognitoUser) : string :=
  default "" (attributes_of user !! "email").

(** [UserOut] accepts the address of the user *)
Definition valid_email (rt : Runtime) (user : CognitoUser) : Prop :=
  is_Some (EmailStr rt (email_of user)).

(** the record [r] is the user [user] of the provider, mapped *)
Definition maps_to (rt : Runtime) (user : CognitoUser) (r : UserOut) : Prop :=
  EmailStr rt (email_of user) = Some (out_email r)
  /\ out_username r = map_user_username (attributes_of user) user
  /\ out_is_active r = Some (default true (Enabled user)).

(** the name [signup] registers a user under: the user name of the
    request, or the text of the address before its [@] *)
Definition name_sent (user_data : UserCreate) : string :=
  if truthy_opt (uc_username user_data)
  then default "" (uc_username user_data)
  else Spec.before "@" (uc_email user_data).

(** an optional value of a request that is sent only when it is not empty *)
Definition when_truthy (x : option string) : option string :=
  if truthy_opt x then x else None.

(** two bags hold the same under each of the names of the provider *)
Definition same_profile (d1 d2 : gmap string string) : Prop :=
  Forall (fun n => d1 !! n = d2 !! n) Spec.provider_names.

(** the statuses of an [AppException] of the repository *)
Definition failure_statuses : list Z := [400; 401; 403; 404; 409; 429; 500].

(** a string of at least [n] characters, and an optional one of at most [n] *)
Definition at_least (n : nat) (s : string) : Prop := (n <= PyStr.len s)%nat.

Definition at_most (n : nat) (x : option string) : Prop :=
  forall s : string, x = Some s -> (PyStr.len s <= n)%nat.


(** a body that holds what [UserLogin] asks for *)
Definition acceptable_login (rt : Runtime) (body : schemas.UserLogin_fields) : Prop :=
  (exists s, schemas.l_email body = IsSet (Some s) /\ is_Some (EmailStr rt s))
  /\ (exists p, schemas.l_password body = IsSet (Some p) /\ at_least 6 p).

(** a body that holds what [UserUpdate] asks for: every field may be left
    out or be [null] *)
Definition acceptable_update (rt : Runtime) (body : UserUpdate) : Prop :=
  (forall s, uu_email body = IsSet (Some s) -> is_Some (EmailStr rt s))
  /\ at_most 15 (schemas.optional None (uu_phone_number body)).


(** the three shapes of a response of the application: the envelope of
    [JsonResponse] for a success, the one of the exception handlers for a
    failure, and the answer of FastAPI to a request it does not accept *)
Definition envelope (lib : Libraries) (r : JSONResponse) : Prop :=
  (response_status_code r = 200
   /\ exists (data : PyVal) (msg : string),
        content r = <["data" := data]> (<["message" := VStr msg]>
                      (<["status" := VStr "success"]> ∅)))
  \/ (response_status_code r ∈ failure_statuses
      /\ exists msg : string,
           content r = <["message" := VStr msg]> (<["status" := VStr "error"]> ∅))
  \/ (response_status_code r = 422
      /\ exists param : string,
           content r = <["detail" := validation_detail lib param]> ∅).

(** from [w] to [w'] the provider was called once at most *)
Definition at_most_one_call (w w' : World) : Prop :=
  exists extra : list Call,
    calls w' = (calls w ++ extra)%list /\ (length extra <= 1)%nat.

(** how a method of the repository may end: by a value, by an
    [AppException] of a status of the table, by a [KeyError] or by a
    validation error of a model *)
Definition regular {A} (o : Outcome A) : Prop :=
  match o with
  | Return _ => True
  | Raise (EApp a) => status_code a ∈ failure_statuses
  | Raise (EKeyError _) => True
  | Raise (EValidation _) => True
  | Raise (EClient _) => False
  | Raise (ERequestValidation _) => False
  end.

(** how the rest of a route may end once the repository has answered: by a
    response of status 200, or by an error of Python that is no
    [AppException]; it calls nothing *)
Definition finishes (rest : H JSONResponse) : Prop :=
  forall w : World,
    snd (rest w) = w
    /\ match fst (rest w) with
       | inr r =>
           response_status_code r = 200
           /\ exists (data : PyVal) (msg : string),
                content r = <["data" := data]> (<["message" := VStr msg]>
                              (<["status" := VStr "success"]> ∅))
       | inl (Known (EApp _)) => False
       | inl (Known (ERequestValidation _)) => False
       | inl _ => True
       end.

End Words.

(** ** The table of section 4.2, row by row

    The kinds and the statuses are those of the table; the message of a
    row is the one [_handle_cognito_error] words for it, lines 42-73. *)

Module Table.

(** the kinds of an application error *)
Inductive Kind :=
| Conflict
| NotFound
| Forbidden
| Unauthorized
| BadRequest
| RateLimited
| Configuration
| Internal.

(** A row: the name of the provider's error, the kind and the status of
    the application error, and its message, which may quote the code and
    the message of the provider. *)
Record Row := {
  row_name : string;
  row_kind : Kind;
  row_status : Z;
  row_message : string -> string -> string
}.

Definition rows : list Row :=
  [{| row_name := "UsernameExists"; row_kind := Conflict; row_status := 409;
      row_message := fun _ _ => "User account already exists" |};
   {| row_name := "UserNotFound"; row_kind := NotFound; row_status := 404;
      row_message := fun _ _ => "User not found" |};
   {| row_name := "UserNotConfirmed"; row_kind := Forbidden; row_status := 403;
      row_message := fun _ _ =>
        "Please verify your email before logging in. Check your inbox for the confirmation code." |};
   {| row_name := "NotAuthorized"; row_kind := Unauthorized; row_status := 401;
      row_message := fun _ m => "Authentication failed: " ++ m |};
   {| row_name := "InvalidParameter"; row_kind := BadRequest; row_status := 400;
      row_message := fun _ m => "Invalid parameter: " ++ m |};
   {| row_name := "CodeMismatch"; row_kind := BadRequest; row_status := 400;
      row_message := fun _ _ => "Invalid verification code. Please try again." |};
   {| row_name := "ExpiredCode"; row_kind := BadRequest; row_status := 400;
      row_message := fun _ _ =>
        "Verification code has expired. Please request a new one." |};
   {| row_name := "TooManyFailedAttempts"; row_kind := RateLimited; row_status := 429;
      row_message := fun _ _ => "Too many failed attempts, please try again later" |};
   {| row_name := "TooManyRequests"; row_kind := RateLimited; row_status := 429;
      row_message := fun _ _ => "Too many requests, please slow down" |};
   {| row_name := "LimitExceeded"; row_kind := RateLimited; row_status := 429;
      row_message := fun _ _ => "Attempt limit exceeded, please try after some time" |};
   {| row_name := "ResourceNotFound"; row_kind := Configuration; row_status := 404;
      row_message := fun _ _ =>
        "User pool or app client not found. Check your configuration." |}].

(** the row of any other code *)
Definition other : Row :=
  {| row_name := ""; row_kind := Internal; row_status := 500;
     row_message := fun code m => "Cognito error [" ++ code ++ "]: " ++ m |}.

Definition row_of (code : string) : Row :=
  default other
    (find (fun r => (code =? Spec.provider_code (row_name r))%string) rows).

(** the taxonomy of section 7: the statuses of a kind *)
Definition statuses_of (k : Kind) : list Z :=
  match k with
  | Conflict => [409]
  | NotFound => [404]
  | Forbidden => [403]
  | Unauthorized => [401]
  | BadRequest => [400]
  | RateLimited => [429]
  | Configuration => [404; 500]
  | Internal => [500]
  end.

(** the application error of a row, for an error of the provider *)
Definition app_error (r : Row) (error : ClientError) : AppException :=
  {| message := row_message r (Code error) (Message error);
     status_code := row_status r |}.

End Table.

(** * Properties *)

(** ** The library functions agree with their published vectors *)

Module LibraryVectors.

Import Hex.

(** FIPS 180-4 example, one block *)
Example sha256_abc :
  hex (SHA256.digest (Bytes.encode "abc"))
  = "ba7816bf8f01cfea414140de5dae2223b00361a396177a9cb410ff61f20015ad".
Proof. vm_compute. reflexivity. Qed.

(** RFC 4231, test case 2 *)
Example hmac_rfc4231_2 :
  hex (HMAC.digest (Bytes.encode "Jefe") (Bytes.encode "what do ya want for nothing?"))
  = "5bdcc146bf60754e6a042426089575c75a003f089d2739839dec58b964ec3843".
Proof. vm_compute. reflexivity. Qed.

(** RFC 4648, section 10 *)
Example b64_rfc4648 :
  map (fun s => Bytes.decode (Base64.b64encode (Bytes.encode s)))
      [""; "f"; "fo"; "foo"; "foob"; "fooba"; "foobar"]
  = [""; "Zg=="; "Zm8="; "Zm9v"; "Zm9vYg=="; "Zm9vYmE="; "Zm9vYmFy"].
Proof. vm_compute. reflexivity. Qed.

End LibraryVectors.

(** ** How computations run *)

Module Run.

Lemma bind_returns {A B} (m : M A) (k : A -> M B) (w w' : World) (v : B) :
  (m ≫= k) w = (Return v, w') ->
  exists a w1, m w = (Return a, w1) /\ k a w1 = (Return v, w').
Proof.
  unfold mbind, M_bind. destruct (m w) as [[a|e] w1]; intros H.
  - now exists a, w1.
  - discriminate H.
Qed.

Lemma bind_world {A B} (m : M A) (k : A -> M B) (w : World) :
  snd ((m ≫= k) w)
  = match m w with
    | (Return a, w1) => snd (k a w1)
    | (Raise _, w1) => w1
    end.
Proof. unfold mbind, M_bind. now destruct (m w) as [[a|e] w1]. Qed.

Ltac case_code :=
  match goal with
  | |- context [String.eqb ?c ?lit] => destruct (String.eqb c lit) eqn:?
  end.

(** [_handle_cognito_error] never returns and touches nothing; the status
    it raises is the one of the table *)
Lemma handle_cognito_error_status (error : ClientError) (context : string) (w : World) :
  exists msg : string,
    _handle_cognito_error error context w
    = (Raise (EApp {| message := msg; status_code := Spec.table_status (Code error) |}), w).
Proof.
  unfold _handle_cognito_error, Spec.table_status.
  cbv [Spec.mapping_table Spec.provider_code find fst snd String.append].
  repeat (case_code; [eexists; reflexivity |]).
  eexists; reflexivity.
Qed.

Lemma on_ClientError_status (context : string) (e : ClientError) (w : World) :
  exists msg : string,
    on_ClientError context e w
    = (Raise (EApp {| message := msg; status_code := Spec.table_status (Code e) |}), w).
Proof.
  unfold on_ClientError, mbind, M_bind.
  destruct (handle_cognito_error_status e context w) as [msg ->]. now exists msg.
Qed.

Lemma on_ClientError_raises (context : string) (e : ClientError) (w : World) :
  exists a : AppException, on_ClientError context e w = (Raise (EApp a), w).
Proof. destruct (on_ClientError_status context e w) as [msg ->]. now eexists. Qed.

(** a method that returns did so from the body of its [try] *)
Lemma try_returns (context : string) (body : M PyVal) (w w' : World) (v : PyVal) :
  try_except_ClientError body (on_ClientError context) w = (Return v, w') ->
  body w = (Return v, w').
Proof.
  unfold try_except_ClientError.
  destruct (body w) as [[a|[| e | | |]] w1]; try (intros H; exact H).
  destruct (on_ClientError_raises context e w1) as [x ->]. discriminate.
Qed.

(** the handler of a method makes no call and reads no clock *)
Lemma try_world (context : string) (body : M PyVal) (w : World) :
  snd (try_except_ClientError body (on_ClientError context) w) = snd (body w).
Proof.
  unfold try_except_ClientError.
  destruct (body w) as [[a|[| e | | |]] w1]; try reflexivity.
  now destruct (on_ClientError_raises context e w1) as [x ->].
Qed.

Lemma invoke_world {R} (name : string) (method : gmap string PyVal -> ClientError + R)
    (kw : gmap string PyVal) (w : World) :
  snd (invoke name method kw w)
  = {| calls := calls w ++ [{| api := name; kwargs := kw |}];
       clock_reads := clock_reads w |}.
Proof. unfold invoke. now destruct (method kw). Qed.

Lemma invoke_returns {R} (name : string) (method : gmap string PyVal -> ClientError + R)
    (kw : gmap string PyVal) (w w' : World) (r : R) :
  invoke name method kw w = (Return r, w') ->
  method kw = inr r
  /\ w' = {| calls := calls w ++ [{| api := name; kwargs := kw |}];
             clock_reads := clock_reads w |}.
Proof.
  unfold invoke. destruct (method kw); intros H; inversion H; now subst.
Qed.

Lemma getitem_returns {A} (key : string) (x : option A) (w w' : World) (a : A) :
  getitem key x w = (Return a, w') -> x = Some a /\ w' = w.
Proof. destruct x; intros H; inversion H; now subst. Qed.

Lemma getitem_world {A} (key : string) (x : option A) (w : World) :
  snd (getitem key x w) = w.
Proof. now destruct x. Qed.

End Run.

(** ** The error normalizer *)

Module Normalizer.

Import Spec.

Example table_status_rows :
  map table_status
    ["UsernameExistsException"; "UserNotFoundException"; "UserNotConfirmedException";
     "NotAuthorizedException"; "InvalidParameterException"; "CodeMismatchException";
     "ExpiredCodeException"; "TooManyFailedAttemptsException"; "TooManyRequestsException";
     "LimitExceededException"; "ResourceNotFoundException";
     "InternalErrorException"; "UsernameExists"; ""]
  = [409; 404; 403; 401; 400; 400; 400; 429; 429; 429; 404; 500; 500; 500].
Proof. reflexivity. Qed.

Lemma row_of_listed (code : string) (r : Table.Row) :
  In r Table.rows -> code = provider_code (Table.row_name r) -> Table.row_of code = r.
Proof.
  intros Hin ->. unfold Table.rows in Hin. cbn [In] in Hin.
  repeat (destruct Hin as [<- | Hin]; [reflexivity |]). contradiction.
Qed.

Lemma row_of_other (code : string) :
  Forall (fun r => code <> provider_code (Table.row_name r)) Table.rows ->
  Table.row_of code = Table.other.
Proof.
  intros Hrows. unfold Table.row_of, Table.rows in *.
  repeat (apply Forall_cons_1 in Hrows as [Hne Hrows];
          apply String.eqb_neq in Hne; cbn [Table.row_name] in Hne;
          cbn [find Table.row_name]; rewrite Hne; clear Hne).
  reflexivity.
Qed.

(** C1.  Whatever the provider error and the context, [_handle_cognito_error]
    raises an [AppException] and returns nothing; the world is left as it
    was.  The exception is the one of the row of the table of section 4.2
    for the provider code, and of the row [Internal], 500, for a code the
    table does not list: it has the status of the row and the message of
    the row, by which the kinds of one status are told apart, [NotFound]
    from [Configuration] at 404 and the three of [BadRequest] at 400.
    The rows are the eleven of the table, each with its kind and status,
    and the status of a row is one the taxonomy of section 7 gives its
    kind. *)
Theorem handle_cognito_error_normalizes (error : ClientError) (context : string) (w : World) :
  let row := Table.row_of (Code error) in
  _handle_cognito_error error context w = (Raise (EApp (Table.app_error row error)), w)
  /\ Table.row_status row = table_status (Code error)
  /\ In (Table.row_status row) (Table.statuses_of (Table.row_kind row))
  /\ map (fun r => (Table.row_name r, Table.row_kind r, Table.row_status r)) Table.rows
     = [("UsernameExists", Table.Conflict, 409); ("UserNotFound", Table.NotFound, 404);
        ("UserNotConfirmed", Table.Forbidden, 403);
        ("NotAuthorized", Table.Unauthorized, 401);
        ("InvalidParameter", Table.BadRequest, 400);
        ("CodeMismatch", Table.BadRequest, 400); ("ExpiredCode", Table.BadRequest, 400);
        ("TooManyFailedAttempts", Table.RateLimited, 429);
        ("TooManyRequests", Table.RateLimited, 429);
        ("LimitExceeded", Table.RateLimited, 429);
        ("ResourceNotFound", Table.Configuration, 404)]
  /\ (forall r, In r Table.rows -> Code error = provider_code (Table.row_name r) -> row = r)
  /\ (Forall (fun r => Code error <> provider_code (Table.row_name r)) Table.rows ->
      row = Table.other
      /\ _handle_cognito_error error context w
         = (Raise (EApp {| message := "Cognito error [" ++ Code error ++ "]: " ++ Message error;
                           status_code := 500 |}), w)).
Proof.
  intros row.
  assert (Hrun : _handle_cognito_error error context w
                 = (Raise (EApp (Table.app_error row error)), w)
                 /\ Table.row_status row = table_status (Code error)
                 /\ In (Table.row_status row) (Table.statuses_of (Table.row_kind row))).
  { subst row. unfold _handle_cognito_error, table_status, Table.row_of, Table.app_error.
    cbv [Table.rows mapping_table provider_code find fst snd String.append Table.row_name].
    repeat (Run.case_code;
            [split; [reflexivity | split; [reflexivity | cbn; tauto]] |]).
    split; [reflexivity | split; [reflexivity | cbn; tauto]]. }
  destruct Hrun as (H1 & H2 & H3).
  split; [exact H1 |]. split; [exact H2 |]. split; [exact H3 |].
  split; [reflexivity |]. split.
  - intros r Hin Hcode. now apply row_of_listed.
  - intros Hrows. pose proof (row_of_other _ Hrows) as Hother. split; [exact Hother |].
    rewrite H1. subst row. now rewrite Hother.
Qed.

(** The exception of a row, message included: an unconfirmed user. *)
Lemma handle_cognito_error_not_confirmed (m context : string) (w : World) :
  _handle_cognito_error {| Code := "UserNotConfirmedException"; Message := m |} context w
  = (Raise (EApp {| message := "Please verify your email before logging in. Check your inbox for the confirmation code.";
                    status_code := 403 |}), w).
Proof. reflexivity. Qed.

(** The exception of a code without a row. *)
Lemma handle_cognito_error_unknown (error : ClientError) (context : string) (w : World) :
  Forall (fun row => Code error <> provider_code (fst row)) mapping_table ->
  _handle_cognito_error error context w
  = (Raise (EApp {| message := "Cognito error [" ++ Code error ++ "]: " ++ Message error;
                    status_code := 500 |}), w).
Proof.
  intros Hrows. unfold _handle_cognito_error.
  repeat (apply Forall_cons_1 in Hrows as [Hne Hrows];
          apply String.eqb_neq in Hne; cbv [provider_code fst String.append] in Hne;
          rewrite Hne; clear Hne).
  reflexivity.
Qed.

(** A method whose provider call fails raises the normalized error:
    looking up a user the pool does not hold. *)
Example get_by_username_not_found :
  fst (get_by_username Sample.runtime (Sample.repo None) "ghost" Sample.world0)
  = Raise (EApp {| message := "User not found"; status_code := 404 |}).
Proof. reflexivity. Qed.

End Normalizer.

(** ** The secret-hash deriver *)

Module SecretHash.

Import Spec.

Lemma encode_app (a b : string) :
  Bytes.encode (a ++ b) = (Bytes.encode a ++ Bytes.encode b)%list.
Proof. induction a as [|c a IH]; simpl; [reflexivity | now rewrite IH]. Qed.

Lemma be_bytes_spec (n : nat) (x : Z) :
  length (Bytes.be_bytes n x) = n /\ Forall is_byte (Bytes.be_bytes n x).
Proof.
  induction n as [|n [IHl IHb]]; simpl; [now split |].
  split; [now rewrite IHl |]. constructor; [| exact IHb].
  unfold is_byte. change 255 with (Z.ones 8).
  rewrite Z.land_ones by lia. apply Z.mod_pos_bound. lia.
Qed.

Lemma compress_length (h block : list Z) :
  length h = 8%nat -> length (SHA256.compress h block) = 8%nat.
Proof.
  intros Hh. unfold SHA256.compress.
  rewrite length_map, length_combine, Hh. reflexivity.
Qed.

Lemma sha256_digest_spec (msg : list Z) :
  length (SHA256.digest msg) = 32%nat /\ Forall is_byte (SHA256.digest msg).
Proof.
  unfold SHA256.digest.
  set (blocks := Bytes.chunks 64 _).
  assert (Hlen : length (fold_left SHA256.compress blocks SHA256.H0) = 8%nat).
  { generalize SHA256.H0 (eq_refl : length SHA256.H0 = 8%nat).
    induction blocks as [|b blocks IH]; intros h Hh; simpl; [exact Hh |].
    apply IH, compress_length, Hh. }
  revert Hlen. generalize (fold_left SHA256.compress blocks SHA256.H0).
  intros h Hh. split.
  - do 8 (destruct h as [|? h]; [discriminate Hh |]).
    destruct h; [reflexivity | discriminate Hh].
  - clear Hh. induction h as [|x h IH]; cbn [flat_map]; [constructor |].
    apply Forall_app. split; [apply (be_bytes_spec 4) | exact IH].
Qed.

Lemma hmac_digest_spec (key msg : list Z) :
  length (HMAC.digest key msg) = 32%nat /\ Forall is_byte (HMAC.digest key msg).
Proof. apply sha256_digest_spec. Qed.

Lemma all_bytes_In (b : Z) : is_byte b -> In b all_bytes.
Proof.
  intros [Hl Hu]. unfold all_bytes. apply in_map_iff.
  exists (Z.to_nat b). split; [lia |]. apply in_seq. lia.
Qed.

Lemma digits_ok_all :
  forallb (fun a => forallb (digits_ok a) all_bytes) all_bytes = true.
Proof. vm_compute. reflexivity. Qed.

Lemma digits_ok_bytes (a b : Z) : is_byte a -> is_byte b -> digits_ok a b = true.
Proof.
  intros Ha Hb. pose proof digits_ok_all as H.
  rewrite forallb_forall in H. specialize (H a (all_bytes_In a Ha)).
  rewrite forallb_forall in H. exact (H b (all_bytes_In b Hb)).
Qed.

Lemma group_ok (g : list Z) : Forall is_byte g -> Forall char_ok (Base64.group g).
Proof.
  intros Hg. destruct g as [|a [|b [|c [|d g]]]]; cbn [Base64.group].
  - constructor.
  - apply Forall_cons_1 in Hg as [Ha _].
    pose proof (digits_ok_bytes a a Ha Ha) as H. unfold digits_ok in H.
    cbn [forallb] in H. repeat (apply andb_prop in H as [? H]).
    repeat constructor; assumption.
  - apply Forall_cons_1 in Hg as [Ha Hg]. apply Forall_cons_1 in Hg as [Hb _].
    pose proof (digits_ok_bytes a b Ha Hb) as H. unfold digits_ok in H.
    pose proof (digits_ok_bytes b b Hb Hb) as H'. unfold digits_ok in H'.
    cbn [forallb] in H, H'.
    repeat (apply andb_prop in H as [? H]). repeat (apply andb_prop in H' as [? H']).
    repeat constructor; assumption.
  - apply Forall_cons_1 in Hg as [Ha Hg]. apply Forall_cons_1 in Hg as [Hb Hg].
    apply Forall_cons_1 in Hg as [Hc _].
    pose proof (digits_ok_bytes a b Ha Hb) as H. unfold digits_ok in H.
    pose proof (digits_ok_bytes b c Hb Hc) as H'. unfold digits_ok in H'.
    pose proof (digits_ok_bytes c c Hc Hc) as H''. unfold digits_ok in H''.
    cbn [forallb] in H, H', H''.
    repeat (apply andb_prop in H as [? H]). repeat (apply andb_prop in H' as [? H']).
    repeat (apply andb_prop in H'' as [? H'']).
    repeat constructor; assumption.
  - constructor.
Qed.

Lemma chunks_fuel_bytes (fuel n : nat) (l : list Z) :
  Forall is_byte l -> Forall (Forall is_byte) (Bytes.chunks_fuel fuel n l).
Proof.
  revert l. induction fuel as [|fuel IH]; intros l Hl; simpl.
  - destruct l; constructor.
  - destruct l as [|x l]; [constructor |].
    constructor.
    + now apply Forall_take.
    + apply IH. now apply Forall_drop.
Qed.

Lemma b64encode_chars (bs : list Z) :
  Forall is_byte bs -> Forall char_ok (Base64.b64encode bs).
Proof.
  intros Hbs. unfold Base64.b64encode, Bytes.chunks.
  pose proof (chunks_fuel_bytes (length bs) 3 bs Hbs) as H.
  induction H as [|g gs Hg _ IH]; cbn [flat_map]; [constructor |].
  apply Forall_app. split; [now apply group_ok | exact IH].
Qed.

Lemma decode_base64_text (l : list Z) :
  Forall char_ok l -> base64_text (Bytes.decode l) = true.
Proof.
  induction 1 as [|b l Hb _ IH]; simpl; [reflexivity |].
  rewrite IH. unfold char_ok in Hb. now rewrite Hb.
Qed.

Lemma decode_length (l : list Z) : String.length (Bytes.decode l) = length l.
Proof. induction l as [|b l IH]; simpl; [reflexivity | now rewrite IH]. Qed.

Lemma b64encode_length_32 (bs : list Z) :
  length bs = 32%nat -> length (Base64.b64encode bs) = 44%nat.
Proof.
  intros H. do 32 (destruct bs as [|? bs]; [discriminate H |]).
  destruct bs; [reflexivity | discriminate H].
Qed.

(** C2.  [_get_secret_hash] is the deriver of the specification at the
    client identifier and the client secret of the repository: [None] when
    the secret is absent or empty, and otherwise the base64 text of the
    HMAC-SHA-256 digest, under the secret, of [username] followed by
    [client_id]; that text is 44 characters of the base64 alphabet, all
    of them ASCII. *)
Theorem get_secret_hash_derive (self : UserRepository) (username : string) :
  _get_secret_hash self username = derive username (client_id self) (client_secret self)
  /\ match _get_secret_hash self username with
     | Some h =>
         exists secret : string,
           client_secret self = Some secret /\ secret <> ""
           /\ h = Bytes.decode (Base64.b64encode
                    (HMAC.digest (Bytes.encode secret)
                                 (Bytes.encode username ++ Bytes.encode (client_id self))))
           /\ base64_text h = true /\ String.length h = 44%nat
     | None => client_secret self = None \/ client_secret self = Some ""
     end.
Proof.
  unfold _get_secret_hash, derive.
  destruct (client_secret self) as [[|c secret]|];
    cbn [truthy_opt Str.truthy negb default]; [split; auto | | split; auto].
  rewrite encode_app. split; [reflexivity |].
  exists (String c secret). split; [reflexivity |]. split; [discriminate |].
  split; [reflexivity |].
  destruct (hmac_digest_spec (Bytes.encode (String c secret))
              (Bytes.encode username ++ Bytes.encode (client_id self))) as [Hlen Hbytes].
  split.
  - apply decode_base64_text, b64encode_chars, Hbytes.
  - rewrite decode_length. apply b64encode_length_32, Hlen.
Qed.

(** The values [hmac], [hashlib] and [base64] of CPython give on the same
    inputs. *)
Example secret_hash_rfc4231 :
  _get_secret_hash
    {| client := Sample.provider; user_pool_id := "pool-1";
       client_id := "for nothing?"; client_secret := Some "Jefe" |}
    "what do ya want "
  = Some "W9zBRr9gdU5qBCQmCJV1x1oAPwidJzmDnexYuWTsOEM=".
Proof. vm_compute. reflexivity. Qed.

Example secret_hash_sample :
  _get_secret_hash (Sample.repo (Some "s3cr3t")) "a@b.com"
  = Some "h45sj2gCsBEbgjcMvTjZzt0NEJVv5wOFy7+1GLWq1a8=".
Proof. vm_compute. reflexivity. Qed.

(** a secret longer than a block of SHA-256, which HMAC hashes first, and a
    message of several blocks *)
Example secret_hash_long_secret :
  _get_secret_hash (Sample.repo (Some (String.concat "" (repeat "k" 70)))) "a@b.com"
  = Some "vlFPiVB+d5D+Hk6ml3xYT0sWLxxF6wXG9LvLCgS4YrI=".
Proof. vm_compute. reflexivity. Qed.

Example secret_hash_long_message :
  _get_secret_hash (Sample.repo (Some "key"))
    (String.concat "" (repeat "u" 100 ++ repeat "c" 21))
  = Some "2MFNsoZZaiWNWtxjv7H+7EX/qJi3m0aV2d5fpJWndgA=".
Proof. vm_compute. reflexivity. Qed.

Example secret_hash_absent_or_empty :
  _get_secret_hash (Sample.repo None) "a@b.com" = None
  /\ _get_secret_hash (Sample.repo (Some "")) "a@b.com" = None.
Proof. split; reflexivity. Qed.

End SecretHash.

(** ** The attribute mapper *)

Module Mapper.

Import Spec.

Lemma split_before (sep : ascii) (s : string) :
  exists rest, Str.split sep s = before sep s :: rest.
Proof.
  induction s as [|c s [rest IH]]; simpl.
  - now exists [].
  - destruct (Ascii.eqb c sep).
    + now eexists.
    + rewrite IH. now eexists.
Qed.

Lemma item0_split (sep : ascii) (s : string) :
  Str.item0 (Str.split sep s) = before sep s.
Proof. destruct (split_before sep s) as [rest ->]. reflexivity. Qed.

Lemma py_or_Some (x : option string) (s : string) :
  x ||| Some s = Some (if Str.truthy (default "" x) then default "" x else s).
Proof. destruct x as [[|c x]|]; reflexivity. Qed.

Lemma map_user_username_chain (attrs : gmap string string) (user : CognitoUser) :
  map_user_username attrs user = Some (first_non_empty (username_chain attrs user)).
Proof.
  unfold map_user_username, username_chain. rewrite item0_split.
  rewrite (py_or_Some (attrs !! "name" ||| attrs !! "preferred_username")).
  rewrite py_or_Some. cbn [first_non_empty].
  destruct (attrs !! "name") as [[|c n]|], (attrs !! "preferred_username") as [[|d p]|];
    cbn [py_or default Str.truthy]; try reflexivity;
    destruct (before "@" (default "" (attrs !! "email"))) as [|e l];
    cbn [Str.truthy]; try reflexivity;
    destruct (default "" (Username user)); reflexivity.
Qed.

(** what [_map_user] does: two reads of the clock, then the validation of
    the e-mail address by [UserOut] *)
Lemma map_user_run (rt : Runtime) (user : CognitoUser) (w : World) :
  let attrs := attrs_dict (default [] (Attributes user)) in
  let w' := {| calls := calls w; clock_reads := S (S (clock_reads w)) |} in
  _map_user rt user w
  = match EmailStr rt (default "" (attrs !! "email")) with
    | Some e =>
        (Return {| out_email := e;
                   out_username := map_user_username attrs user;
                   out_phone_number := Some (default "" (attrs !! "phone_number"));
                   out_profile_image_url :=
                     Some (default "" (attrs !! "custom:profile_image_url"));
                   out_is_active := Some (default true (Enabled user));
                   out_email_verified := Some (email_verified_of attrs);
                   out_created_at := Some (utc_clock rt (clock_reads w));
                   out_updated_at := Some (utc_clock rt (S (clock_reads w))) |}, w')
    | None => (Raise (EValidation "email"), w')
    end.
Proof.
  unfold _map_user, UserOut_init, utcnow, mbind, M_bind; cbn.
  destruct (EmailStr rt _); reflexivity.
Qed.


(** The two bags of the specification, as the provider sends them. *)
Example map_user_username_examples :
  let bag1 := [{| Name := "name"; Value := "" |};
               {| Name := "preferred_username"; Value := "" |};
               {| Name := "email"; Value := "a@b.com" |}] in
  let bag2 := [{| Name := "preferred_username"; Value := "bobby" |};
               {| Name := "name"; Value := "Bob" |};
               {| Name := "email"; Value := "robert@b.com" |}] in
  let user bag := {| Username := Some "3f1c-uuid"; Attributes := Some bag; Enabled := None |} in
  let mapped bag :=
    match fst (_map_user Sample.runtime (user bag) Sample.world0) with
    | Return u => out_username u
    | Raise _ => None
    end in
  mapped bag1 = Some "a" /\ mapped bag2 = Some "Bob".
Proof. split; reflexivity. Qed.

(** *** The e-mail verified flag *)






Example email_verified_examples :
  let flag bag := email_verified_of (attrs_dict bag) in
  flag [{| Name := "email_verified"; Value := "TRUE" |}] = true
  /\ flag [{| Name := "email_verified"; Value := "tRuE" |}] = true
  /\ flag [{| Name := "email_verified"; Value := "false" |}] = false
  /\ flag [{| Name := "email_verified"; Value := "yes" |}] = false
  /\ flag [{| Name := "email_verified"; Value := "true " |}] = false
  /\ flag [{| Name := "email"; Value := "a@b.com" |}] = false.
Proof. repeat split; reflexivity. Qed.

End Mapper.

(** ** The user records the operations return *)

Module UserRecords.

Import Spec.

Lemma first_non_empty_ne (chain : list string) :
  Exists (fun s => s <> "") chain -> first_non_empty chain <> "".
Proof.
  induction chain as [|s chain IH]; intros H; [now inversion H |].
  cbn [first_non_empty]. destruct s as [|c s]; cbn [Str.truthy]; [| discriminate].
  apply IH. inversion H as [? ? Hs | ? ? Ht]; subst; [contradiction | exact Ht].
Qed.

Lemma current_user_username_chain (attrs : gmap string string) :
  current_user_username attrs
  = Some (first_non_empty [default "" (attrs !! "name");
                           default "" (attrs !! "preferred_username");
                           before "@" (default "" (attrs !! "email"))]).
Proof.
  unfold current_user_username. rewrite Mapper.item0_split, Mapper.py_or_Some.
  cbn [first_non_empty].
  destruct (attrs !! "name") as [[|c n]|], (attrs !! "preferred_username") as [[|d p]|];
    cbn [py_or default Str.truthy]; try reflexivity;
    destruct (before "@" (default "" (attrs !! "email"))); reflexivity.
Qed.

(** a local part that is not empty makes both chains end on a name *)
Lemma map_user_username_non_empty (attrs : gmap string string) (user : CognitoUser) :
  Str.item0 (Str.split "@" (default "" (attrs !! "email"))) <> "" ->
  non_empty (map_user_username attrs user).
Proof.
  intros H. rewrite Mapper.item0_split in H.
  rewrite Mapper.map_user_username_chain. eexists. split; [reflexivity |].
  apply first_non_empty_ne. unfold username_chain.
  apply Exists_cons_tl, Exists_cons_tl, Exists_cons_hd, H.
Qed.

Lemma current_user_username_non_empty (attrs : gmap string string) :
  Str.item0 (Str.split "@" (default "" (attrs !! "email"))) <> "" ->
  non_empty (current_user_username attrs).
Proof.
  intros H. rewrite Mapper.item0_split in H.
  rewrite current_user_username_chain. eexists. split; [reflexivity |].
  apply first_non_empty_ne.
  apply Exists_cons_tl, Exists_cons_tl, Exists_cons_hd, H.
Qed.

(** The chain of [get_current_user] stops at the e-mail address: without
    a name and an address its value is empty, whatever the [Username] of
    the response.  Under [EmailStr_local_part] no record is built from it,
    for [UserOut] then rejects the empty address. *)
Lemma current_user_username_empty (attrs : gmap string string) :
  attrs !! "name" = None -> attrs !! "preferred_username" = None ->
  attrs !! "email" = None ->
  current_user_username attrs = Some "".
Proof. intros Hn Hp He. unfold current_user_username. now rewrite Hn, Hp, He. Qed.

Lemma map_user_returns (rt : Runtime) (user : CognitoUser) (w w' : World) (u : UserOut) :
  _map_user rt user w = (Return u, w') ->
  let attrs := attrs_dict (default [] (Attributes user)) in
  is_Some (EmailStr rt (default "" (attrs !! "email")))
  /\ out_username u = map_user_username attrs user.
Proof.
  rewrite Mapper.map_user_run. cbn zeta.
  destruct (EmailStr rt _) as [e|]; intros H; inversion H; subst. now split.
Qed.

Lemma get_current_user_returns (rt : Runtime) (self : UserRepository) (token : string)
    (w w' : World) (v : PyVal) :
  get_current_user rt self token w = (Return v, w') ->
  exists (attrs : gmap string string) (u : UserOut),
    is_Some (EmailStr rt (default "" (attrs !! "email")))
    /\ v = VUser u /\ out_username u = current_user_username attrs.
Proof.
  intros H. apply Run.try_returns in H.
  apply Run.bind_returns in H as (resp & w1 & _ & H).
  exists (attrs_dict (default [] (gu_UserAttributes resp))).
  unfold utcnow, UserOut_init, mbind, M_bind in H. cbn in H.
  destruct (EmailStr rt _) as [e|]; inversion H; subst.
  eexists. split; [eauto |]. split; reflexivity.
Qed.

Lemma get_by_username_returns (rt : Runtime) (self : UserRepository) (name : string)
    (w w' : World) (v : PyVal) :
  get_by_username rt self name w = (Return v, w') ->
  exists (user : CognitoUser) (w1 : World) (u : UserOut),
    _map_user rt user w1 = (Return u, w') /\ v = VUser u.
Proof.
  intros H. apply Run.try_returns in H.
  apply Run.bind_returns in H as (resp & w1 & _ & H).
  apply Run.bind_returns in H as (n & w2 & _ & H).
  apply Run.bind_returns in H as (attributes & w3 & _ & H).
  apply Run.bind_returns in H as (u & w4 & Hu & H).
  inversion H; subst. eauto.
Qed.

Lemma comprehension_returns {A B} (f : A -> M B) (l : list A) (w w' : World) (ys : list B) :
  comprehension f l w = (Return ys, w') ->
  Forall (fun y => exists x w1 w2, f x w1 = (Return y, w2)) ys.
Proof.
  revert w ys. induction l as [|x l IH]; intros w ys H; cbn [comprehension] in H.
  - inversion H. constructor.
  - apply Run.bind_returns in H as (y & w1 & Hy & H).
    apply Run.bind_returns in H as (ys' & w2 & Hys & H).
    inversion H; subst. constructor; [eauto | eapply IH, Hys].
Qed.

Lemma get_all_returns (rt : Runtime) (self : UserRepository) (limit : Z)
    (token : option string) (w w' : World) (v : PyVal) :
  get_all rt self limit token w = (Return v, w') ->
  exists (d : gmap string PyVal) (users : list UserOut),
    v = VDict d /\ d !! "users" = Some (VList (VUser <$> users))
    /\ Forall (fun u => exists user w1 w2, _map_user rt user w1 = (Return u, w2)) users.
Proof.
  intros H. apply Run.try_returns in H.
  apply Run.bind_returns in H as (resp & w1 & _ & H).
  apply Run.bind_returns in H as (users & w2 & Hus & H).
  inversion H; subst. eexists _, users. split; [reflexivity |].
  split; [reflexivity |]. eapply comprehension_returns, Hus.
Qed.

Lemma first_non_empty_Exists (chain : list string) :
  first_non_empty chain <> "" <-> Exists (fun s => s <> "") chain.
Proof.
  split; [| apply first_non_empty_ne].
  induction chain as [|s chain IH]; cbn [first_non_empty]; [congruence |].
  destruct s as [|c s]; cbn [Str.truthy]; intros H.
  - apply Exists_cons_tl, IH, H.
  - now apply Exists_cons_hd.
Qed.

(** the identifier of the provider ends the chain of [_map_user] *)
Lemma map_user_username_identifier (attrs : gmap string string) (user : CognitoUser) :
  truthy_opt (Username user) = true -> non_empty (map_user_username attrs user).
Proof.
  intros H. rewrite Mapper.map_user_username_chain. eexists. split; [reflexivity |].
  apply first_non_empty_ne. unfold username_chain.
  apply Exists_cons_tl, Exists_cons_tl, Exists_cons_tl, Exists_cons_hd.
  destruct (Username user) as [[|c n]|]; cbn in *; congruence.
Qed.

(** the chain of [get_current_user] has three links and no identifier *)
Lemma current_user_username_three_links (attrs : gmap string string) :
  non_empty (current_user_username attrs)
  <-> Exists (fun s => s <> "")
        [default "" (attrs !! "name"); default "" (attrs !! "preferred_username");
         before "@" (default "" (attrs !! "email"))].
Proof.
  rewrite current_user_username_chain, <- first_non_empty_Exists. split.
  - intros (s & Hs & Hne). now inversion Hs; subst.
  - intros H. eexists. now split.
Qed.

(** C8, as amended.  The user name of every record an operation returns is
    a string that is not empty: [UserOut] is built only from an e-mail
    address that [EmailStr] accepts, and it accepts none with nothing
    before its [@], so the chain [name], [preferred_username], text of the
    e-mail address before its [@] ends on a value that is not empty.  This
    holds of the records of [_map_user], of the one of [get_by_username],
    of those of [get_all] and of the one [get_current_user] builds from an
    access token.  On the paths of [_map_user] the chain goes on to the
    identifier of the provider, and is not empty when the identifier is
    not; the chain of [get_current_user] is not empty when one of its three
    links is not. *)
Theorem username_never_empty (rt : Runtime) (self : UserRepository) :
  EmailStr_local_part rt ->
  (forall user w u w',
      _map_user rt user w = (Return u, w') -> non_empty (out_username u))
  /\ (forall name w v w',
         get_by_username rt self name w = (Return v, w') ->
         exists u, v = VUser u /\ non_empty (out_username u))
  /\ (forall limit token w v w',
         get_all rt self limit token w = (Return v, w') ->
         exists d users,
           v = VDict d /\ d !! "users" = Some (VList (VUser <$> users))
           /\ Forall (fun u => non_empty (out_username u)) users)
  /\ (forall token w v w',
         get_current_user rt self token w = (Return v, w') ->
         exists u, v = VUser u /\ non_empty (out_username u))
  /\ (forall attrs user,
         truthy_opt (Username user) = true -> non_empty (map_user_username attrs user))
  /\ (forall attrs,
         Exists (fun s => s <> "")
           [default "" (attrs !! "name"); default "" (attrs !! "preferred_username");
            before "@" (default "" (attrs !! "email"))] ->
         non_empty (current_user_username attrs)).
Proof.
  intros Hlocal.
  assert (Hmap : forall user w u w',
             _map_user rt user w = (Return u, w') -> non_empty (out_username u)).
  { intros user w u w' H. apply map_user_returns in H as [[e He] ->].
    apply map_user_username_non_empty. eapply Hlocal, He. }
  split; [exact Hmap |]. split; [| split; [| split; [| split]]].
  - intros name w v w' H.
    apply get_by_username_returns in H as (user & w1 & u & Hu & ->).
    exists u. split; [reflexivity | eapply Hmap, Hu].
  - intros limit token w v w' H.
    apply get_all_returns in H as (d & users & -> & Hd & Hus).
    exists d, users. split; [reflexivity |]. split; [exact Hd |].
    eapply Forall_impl; [exact Hus |].
    intros u (user & w1 & w2 & Hu). eapply Hmap, Hu.
  - intros token w v w' H.
    apply get_current_user_returns in H as (attrs & u & [e He] & -> & Hu).
    exists u. split; [reflexivity |]. rewrite Hu.
    apply current_user_username_non_empty. eapply Hlocal, He.
  - exact map_user_username_identifier.
  - intros attrs. apply current_user_username_three_links.
Qed.

(** C8, as stated, fails on the path of [get_current_user]: for a user of
    the pool who has an identifier, but neither a name nor an e-mail
    address, the user name derived is the empty string; the identifier of
    the response is not read.  ([UserOut] then rejects the empty e-mail
    address, and the operation raises.) *)
Lemma username_identifier_fallback_fails :
  exists response : GetUserResponse,
    gu_Username response = Some "3f1c-uuid"
    /\ current_user_username (attrs_dict (default [] (gu_UserAttributes response)))
       = Some ""
    /\ ~ non_empty (current_user_username
                      (attrs_dict (default [] (gu_UserAttributes response)))).
Proof.
  exists {| gu_Username := Some "3f1c-uuid";
            gu_UserAttributes :=
              Some [{| Name := "sub"; Value := "3f1c-uuid" |};
                    {| Name := "phone_number"; Value := "+12025550123" |}] |}.
  split; [reflexivity |]. split; [reflexivity |].
  intros (s & Hs & Hne). apply Hne. now inversion Hs.
Qed.

Lemma sample_local_part : EmailStr_local_part Sample.runtime.
Proof.
  intros s e. cbn. unfold Sample.email_str.
  destruct (Str.split "@" s) as [|l [|d [|x rest]]]; try discriminate.
  destruct l; cbn; [discriminate | intros _; discriminate].
Qed.

Lemma username_never_empty_witness :
  EmailStr_local_part Sample.runtime
  /\ exists u, fst (get_current_user Sample.runtime (Sample.repo None) "token" Sample.world0)
               = Return (VUser u)
               /\ non_empty (out_username u).
Proof.
  split; [exact sample_local_part |].
  destruct (username_never_empty Sample.runtime (Sample.repo None) sample_local_part)
    as (_ & _ & _ & H & _).
  destruct (H "token" Sample.world0 _ _ eq_refl) as (u & Hv & Hu).
  exists u. split; [| exact Hu]. rewrite <- Hv. reflexivity.
Defined.

(** A user of the pool without a name and without an e-mail address: the
    chain of [get_current_user] is empty and [UserOut] raises. *)
Example get_current_user_without_email :
  let provider :=
    {| sign_up := sign_up Sample.provider;
       admin_initiate_auth := admin_initiate_auth Sample.provider;
       get_user := fun _ =>
         inr {| gu_Username := Some "3f1c-uuid";
                gu_UserAttributes := Some [{| Name := "sub"; Value := "3f1c-uuid" |};
                                           {| Name := "phone_number"; Value := "+12025550123" |}] |};
       list_users := list_users Sample.provider;
       admin_get_user := admin_get_user Sample.provider;
       admin_update_user_attributes := admin_update_user_attributes Sample.provider |} in
  let self := {| client := provider; user_pool_id := "pool-1"; client_id := "client123";
                 client_secret := None |} in
  fst (get_current_user Sample.runtime self "token" Sample.world0)
  = Raise (EValidation "email").
Proof. reflexivity. Qed.

End UserRecords.

(** ** The identity broker *)

Module Broker.

Import Spec.

(** *** signup *)

(** C4.  [signup] of the e-mail address [a@b.com], the user name [a] and
    the password [Secret1!] by a repository without a client secret makes
    one call, [sign_up], whose [UserAttributes] are the [email] [a@b.com]
    and the [name] [a] and whose keyword arguments are [ClientId],
    [Username], [Password] and [UserAttributes], with no [SecretHash].
    When the provider answers and reports the user unconfirmed, [signup]
    returns a dict whose [email] is [a@b.com], whose [username] is [a] and
    whose [user_confirmed] is false. *)
Theorem signup_without_secret (self : UserRepository) (response : SignUpResponse)
    (created_at updated_at : datetime) (w : World) :
  let user_data := scenario_request created_at updated_at in
  truthy_opt (client_secret self) = false ->
  sign_up (client self) (signup_params self user_data) = inr response ->
  default false (UserConfirmed response) = false ->
  exists (d kw : gmap string PyVal),
    signup self user_data w
    = (Return (VDict d),
       {| calls := calls w ++ [{| api := "sign_up"; kwargs := kw |}];
          clock_reads := clock_reads w |})
    /\ kw !! "UserAttributes"
       = Some (VList [attribute_dict {| Name := "email"; Value := "a@b.com" |};
                      attribute_dict {| Name := "name"; Value := "a" |}])
    /\ kw !! "SecretHash" = None
    /\ kw !! "Username" = Some (VStr "a@b.com")
    /\ kw !! "Password" = Some (VStr "Secret1!")
    /\ kw !! "ClientId" = Some (VStr (client_id self))
    /\ dom kw = {["ClientId"; "Username"; "Password"; "UserAttributes"]}
    /\ d !! "email" = Some (VStr "a@b.com")
    /\ d !! "username" = Some (VStr "a")
    /\ d !! "user_confirmed" = Some (VBool false).
Proof.
  intros user_data Hsecret Hcall Hconfirmed.
  unfold signup, try_except_ClientError, mbind, M_bind, invoke.
  rewrite Hcall. cbn -[signup_params]. rewrite Hconfirmed.
  eexists _, _. split; [reflexivity |].
  unfold signup_params. rewrite Hsecret.
  repeat split; reflexivity.
Qed.

Lemma signup_without_secret_witness :
  let self := Sample.repo None in
  let user_data := scenario_request 0 0 in
  exists response,
    truthy_opt (client_secret self) = false
    /\ sign_up (client self) (signup_params self user_data) = inr response
    /\ default false (UserConfirmed response) = false
    /\ exists d, fst (signup self user_data Sample.world0) = Return (VDict d)
                 /\ d !! "username" = Some (VStr "a").
Proof.
  eexists. split; [reflexivity |]. split; [reflexivity |]. split; [reflexivity |].
  destruct (signup_without_secret (Sample.repo None) _ 0 0 Sample.world0
              eq_refl eq_refl eq_refl)
    as (d & kw & Hrun & _ & _ & _ & _ & _ & _ & _ & Hname & _).
  exists d. rewrite Hrun. split; [reflexivity | exact Hname].
Defined.

(** With a secret the same request carries the hash of the e-mail address. *)
Example signup_with_secret :
  (kwargs <$> calls (snd (signup (Sample.repo (Some "s3cr3t")) (scenario_request 0 0)
                            Sample.world0)))
  ≫= (fun kw => option_list (kw !! "SecretHash"))
  = [VStr "h45sj2gCsBEbgjcMvTjZzt0NEJVv5wOFy7+1GLWq1a8="].
Proof. vm_compute. reflexivity. Qed.

(** *** refresh_token *)

Lemma refresh_token_run (self : UserRepository) (token : string) (w : World) :
  let w' := {| calls := calls w ++ [{| api := "admin_initiate_auth";
                                       kwargs := refresh_token_params self token |}];
               clock_reads := clock_reads w |} in
  refresh_token self token w
  = match admin_initiate_auth (client self) (refresh_token_params self token) with
    | inl e => on_ClientError "refresh_token" e w'
    | inr response =>
        match AuthenticationResult response with
        | None => (Raise (EKeyError "AuthenticationResult"), w')
        | Some tokens =>
            match AccessToken tokens, IdToken tokens, TokenType tokens, ExpiresIn tokens with
            | Some access_token, Some id_token, Some token_type, Some expires_in =>
                (Return (VDict (
                   <["expires_in" := VInt expires_in]>
                  (<["token_type" := VStr token_type]>
                  (<["id_token" := VStr id_token]>
                  (<["access_token" := VStr access_token]>
                  (<["status" := VStr "SUCCESS"]> ∅)))))), w')
            | None, _, _, _ => (Raise (EKeyError "AccessToken"), w')
            | Some _, None, _, _ => (Raise (EKeyError "IdToken"), w')
            | Some _, Some _, None, _ => (Raise (EKeyError "TokenType"), w')
            | Some _, Some _, Some _, None => (Raise (EKeyError "ExpiresIn"), w')
            end
        end
    end.
Proof.
  unfold refresh_token, try_except_ClientError, mbind, M_bind, invoke, getitem.
  destruct (admin_initiate_auth _ _) as [e | [[[[a|] r [i|] [t|] [x|]]|]]]; reflexivity.
Qed.

(** C6.  Whatever the refresh token and the repository, with a client
    secret or without one, [refresh_token] makes one call,
    [admin_initiate_auth], whose keyword arguments are [UserPoolId],
    [ClientId], [AuthFlow] and [AuthParameters] and whose
    [AuthParameters] hold the refresh token alone: no [SecretHash] and no
    [SECRET_HASH] is sent.  What it returns is a dict of status [SUCCESS]
    with the keys [status], [access_token], [id_token], [token_type] and
    [expires_in], and without a [refresh_token]; it returns it whenever the
    provider sends the four values, a refresh token with them or not. *)
Theorem refresh_token_no_secret_hash (self : UserRepository) (token : string) (w : World) :
  let kw := refresh_token_params self token in
  snd (refresh_token self token w)
  = {| calls := calls w ++ [{| api := "admin_initiate_auth"; kwargs := kw |}];
       clock_reads := clock_reads w |}
  /\ kw !! "SecretHash" = None /\ kw !! "SECRET_HASH" = None
  /\ kw !! "AuthParameters" = Some (VDict (<["REFRESH_TOKEN" := VStr token]> ∅))
  /\ dom kw = {["UserPoolId"; "ClientId"; "AuthFlow"; "AuthParameters"]}
  /\ match fst (refresh_token self token w) with
     | Return v =>
         exists d : gmap string PyVal,
           v = VDict d
           /\ d !! "status" = Some (VStr "SUCCESS")
           /\ d !! "refresh_token" = None
           /\ dom d = {["status"; "access_token"; "id_token"; "token_type"; "expires_in"]}
     | Raise e => True
     end
  /\ (forall access_token refresh id_token token_type expires_in,
         admin_initiate_auth (client self) kw
         = inr {| AuthenticationResult :=
                    Some {| AccessToken := Some access_token; RefreshToken := refresh;
                            IdToken := Some id_token; TokenType := Some token_type;
                            ExpiresIn := Some expires_in |} |} ->
         fst (refresh_token self token w)
         = Return (VDict (
             <["expires_in" := VInt expires_in]>
            (<["token_type" := VStr token_type]>
            (<["id_token" := VStr id_token]>
            (<["access_token" := VStr access_token]>
            (<["status" := VStr "SUCCESS"]> ∅))))))).
Proof.
  intros kw. rewrite refresh_token_run. fold kw.
  split; [| split; [| split; [| split; [| split; [| split]]]]]; try reflexivity.
  - destruct (admin_initiate_auth _ _) as [e | [[[[a|] r [i|] [t|] [x|]]|]]];
      try reflexivity.
    now destruct (Run.on_ClientError_raises "refresh_token" e
                    {| calls := calls w ++ [{| api := "admin_initiate_auth"; kwargs := kw |}];
                       clock_reads := clock_reads w |}) as [x ->].
  - destruct (admin_initiate_auth _ _) as [e | [[[[a|] r [i|] [t|] [x|]]|]]];
      cbn [fst]; try exact I.
    + now destruct (Run.on_ClientError_raises "refresh_token" e
                    {| calls := calls w ++ [{| api := "admin_initiate_auth"; kwargs := kw |}];
                       clock_reads := clock_reads w |}) as [y ->].
    + eexists. split; [reflexivity |]. split; [reflexivity |]. split; reflexivity.
  - intros a r i t x Hcall. now rewrite Hcall.
Qed.

(** The provider of the sample sends a refresh token with the others:
    [login] hands it on, [refresh_token] does not; with a secret [login]
    sends its hash, [refresh_token] sends none. *)
Example login_and_refresh_token :
  let self := Sample.repo (Some "s3cr3t") in
  let keys (o : Outcome PyVal * World) :=
    match fst o with
    | Return (VDict d) => d !! "refresh_token"
    | _ => None
    end in
  let hash (o : Outcome PyVal * World) :=
    (kwargs <$> calls (snd o))
    ≫= (fun kw => match kw !! "AuthParameters" with
                  | Some (VDict p) => option_list (p !! "SECRET_HASH")
                  | _ => []
                  end) in
  keys (login self "a@b.com" "Secret1!" Sample.world0) = Some (VStr "refresh-2")
  /\ keys (refresh_token self "refresh-2" Sample.world0) = None
  /\ hash (login self "a@b.com" "Secret1!" Sample.world0)
     = [VStr "h45sj2gCsBEbgjcMvTjZzt0NEJVv5wOFy7+1GLWq1a8="]
  /\ hash (refresh_token self "refresh-2" Sample.world0) = [].
Proof. vm_compute. repeat split; reflexivity. Qed.

End Broker.

(** ** Listing users *)

Module Listing.

Local Open Scope list_scope.

Lemma comprehension_map_user_calls (rt : Runtime) (l : list CognitoUser) (w : World) :
  calls (snd (comprehension (_map_user rt) l w)) = calls w.
Proof.
  revert w. induction l as [|user l IH]; intros w; cbn [comprehension]; [reflexivity |].
  rewrite Run.bind_world, Mapper.map_user_run. cbn zeta.
  destruct (EmailStr rt _); [| reflexivity].
  rewrite Run.bind_world.
  specialize (IH {| calls := calls w; clock_reads := S (S (clock_reads w)) |}).
  destruct (comprehension _ l _) as [[users|e] w2]; exact IH.
Qed.

(** [get_all] makes one call, [list_users], whatever follows *)
Lemma get_all_calls (rt : Runtime) (self : UserRepository) (limit : Z)
    (token : option string) (w : World) :
  calls (snd (get_all rt self limit token w))
  = calls w ++ [{| api := "list_users"; kwargs := get_all_params self limit token |}].
Proof.
  unfold get_all. rewrite Run.try_world, Run.bind_world.
  pose proof (Run.invoke_world "list_users" (list_users (client self))
                (get_all_params self limit token) w) as Hw.
  destruct (invoke _ _ _ w) as [[response|e] w1]; cbn [snd] in Hw; subst w1;
    [| reflexivity].
  rewrite Run.bind_world.
  pose proof (comprehension_map_user_calls rt (default [] (Users response))
                {| calls := calls w ++ [{| api := "list_users";
                                           kwargs := get_all_params self limit token |}];
                   clock_reads := clock_reads w |}) as Hm.
  destruct (comprehension _ _ _) as [[users|e] w2]; exact Hm.
Qed.

Lemma get_all_params_limit (self : UserRepository) (limit : Z) (token : option string) :
  get_all_params self limit token !! "Limit" = Some (VInt limit).
Proof. unfold get_all_params. destruct (truthy_opt token); reflexivity. Qed.

Lemma list_users_route_calls (rt : Runtime) (user_repo : UserRepository) (limit : Z)
    (token : option string) (w : World) :
  calls (snd ((get_all rt user_repo limit token
               ≫= fun users => mret (JsonResponse rt users "Users retrieved successfully" 200))
                w))
  = calls w ++ [{| api := "list_users"; kwargs := get_all_params user_repo limit token |}].
Proof.
  rewrite Run.bind_world.
  pose proof (get_all_calls rt user_repo limit token w) as H.
  destruct (get_all _ _ _ _ w) as [[users|e] w1]; exact H.
Qed.

(** C7.  The route [list_users] rejects a limit above 60, 61 among them,
    with a request validation error and without a call to the provider or
    any other effect.  A limit of at most 60 is handed to the provider as
    it is, in the one call [list_users]; a request without a limit asks
    the provider for 20. *)
Theorem list_users_limit_bound (rt : Runtime) (user_repo : UserRepository)
    (token : option string) (w : World) :
  user_router.list_users rt user_repo (Some 61) token w = (Raise (ERequestValidation "limit"), w)
  /\ (forall limit : Z, 60 < limit ->
        user_router.list_users rt user_repo (Some limit) token w
        = (Raise (ERequestValidation "limit"), w))
  /\ (forall limit : Z, limit <= 60 ->
        calls (snd (user_router.list_users rt user_repo (Some limit) token w))
        = calls w ++ [{| api := "list_users";
                         kwargs := get_all_params user_repo limit token |}]
        /\ get_all_params user_repo limit token !! "Limit" = Some (VInt limit))
  /\ calls (snd (user_router.list_users rt user_repo None token w))
     = calls w ++ [{| api := "list_users"; kwargs := get_all_params user_repo 20 token |}]
  /\ get_all_params user_repo 20 token !! "Limit" = Some (VInt 20).
Proof.
  assert (Hreject : forall limit : Z, 60 < limit ->
            user_router.list_users rt user_repo (Some limit) token w
            = (Raise (ERequestValidation "limit"), w)).
  { intros limit Hlimit. unfold user_router.list_users, resolve_query, mbind, M_bind.
    cbn [le]. destruct (Z.leb_spec limit 60) as [Hle | _]; [lia | reflexivity]. }
  split; [apply Hreject; lia |]. split; [exact Hreject |]. split; [| split].
  - intros limit Hlimit. split; [| apply get_all_params_limit].
    unfold user_router.list_users, resolve_query. cbn [le].
    destruct (Z.leb_spec limit 60) as [_ | Hgt]; [| lia].
    apply list_users_route_calls.
  - apply list_users_route_calls.
  - apply get_all_params_limit.
Qed.

(** The repository itself hands any limit on: the bound is the route's. *)
Example get_all_above_the_bound :
  (kwargs <$> calls (snd (get_all Sample.runtime (Sample.repo None) 61 None Sample.world0)))
  ≫= (fun kw => option_list (kw !! "Limit"))
  = [VInt 61].
Proof. vm_compute. reflexivity. Qed.

End Listing.

(** ** Updating a user *)

Module Updates.

Import Spec.
Local Open Scope list_scope.

(** the loop of [update] collects the fields set to a value, under the
    names of the provider *)
Lemma update_attributes_transmitted (rt : Runtime) (u : UserUpdate) :
  update_attributes rt u = transmitted u.
Proof.
  destruct u as [[|[n|]] [|[e|]] [|[p|]] [|[i|]] [|t]]; reflexivity.
Qed.

Lemma sent_supplied (name : string) (f : Field (option string)) (a : Attribute) :
  In a (sent name f) -> Name a = name /\ f = IsSet (Some (Value a)).
Proof.
  destruct f as [|[v|]]; cbn; try contradiction.
  intros [<- | []]. now split.
Qed.

Lemma transmitted_supplied (u : UserUpdate) : Forall (supplied u) (transmitted u).
Proof.
  apply List.Forall_forall. intros a Ha. unfold transmitted in Ha.
  repeat (apply in_app_or in Ha as [Ha | Ha]);
    apply sent_supplied in Ha as [Hn Hf]; unfold supplied; tauto.
Qed.

Lemma update_run (rt : Runtime) (self : UserRepository) (username : string)
    (u : UserUpdate) (w : World) :
  update rt self username u w
  = match transmitted u with
    | [] => (Return (VDict (<["message" := VStr "No attributes to update"]> ∅)), w)
    | attributes =>
        let w' := {| calls := calls w ++ update_calls self username attributes;
                     clock_reads := clock_reads w |} in
        match admin_update_user_attributes (client self)
                (update_params self username attributes) with
        | inl e => on_ClientError "update" e w'
        | inr _ => (Return (VDict (<["message" := VStr "User updated successfully"]> ∅)), w')
        end
    end.
Proof.
  unfold update. rewrite update_attributes_transmitted.
  destruct (transmitted u) as [|a l]; [reflexivity |].
  unfold try_except_ClientError, mbind, M_bind, invoke, update_calls, update_params.
  now destruct (admin_update_user_attributes _ _).
Qed.

Lemma update_world (rt : Runtime) (self : UserRepository) (username : string)
    (u : UserUpdate) (w : World) :
  snd (update rt self username u w)
  = {| calls := calls w ++ update_calls self username (update_attributes rt u);
       clock_reads := clock_reads w |}.
Proof.
  rewrite update_run, update_attributes_transmitted.
  destruct (transmitted u) as [|a l].
  - cbn. rewrite app_nil_r. now destruct w.
  - cbn zeta. destruct (admin_update_user_attributes _ _) as [e|[]]; [| reflexivity].
    now destruct (Run.on_ClientError_raises "update" e
                    {| calls := calls w ++ update_calls self username (a :: l);
                       clock_reads := clock_reads w |}) as [x ->].
Qed.

Lemma sent_In (name : string) (f : Field (option string)) (a : Attribute) :
  Name a = name -> f = IsSet (Some (Value a)) -> In a (sent name f).
Proof. intros <- ->. destruct a as [n v]. now left. Qed.

Lemma supplied_transmitted (u : UserUpdate) (a : Attribute) :
  supplied u a -> In a (transmitted u).
Proof.
  unfold supplied, transmitted. intros [[Hn Hf] | [[Hn Hf] | [[Hn Hf] | [Hn Hf]]]].
  - apply in_or_app; right. apply in_or_app; right. apply in_or_app; right.
    now apply sent_In.
  - apply in_or_app; left. now apply sent_In.
  - apply in_or_app; right. apply in_or_app; left. now apply sent_In.
  - apply in_or_app; right. apply in_or_app; right. apply in_or_app; left.
    now apply sent_In.
Qed.

(** C5.  [update] with a request in which no field is set returns the
    message [No attributes to update] and leaves the world as it was: it
    makes no call.  Whatever the request, [update] makes no call when it
    collected no attribute and otherwise one call,
    [admin_update_user_attributes], with the attributes it collected.
    These are the fields the caller supplied and no others, each under the
    name of the provider: [name] for the user name, [email] and
    [phone_number] for themselves, [custom:profile_image_url] for the
    profile image, in this order.  So a request that supplies a field
    makes the call, and the call carries that field. *)
Theorem update_sends_supplied_fields (rt : Runtime) (self : UserRepository)
    (username : string) (u : UserUpdate) (w : World) :
  (nothing_set u ->
   update rt self username u w
   = (Return (VDict (<["message" := VStr "No attributes to update"]> ∅)), w))
  /\ snd (update rt self username u w)
     = {| calls := calls w ++ update_calls self username (update_attributes rt u);
          clock_reads := clock_reads w |}
  /\ Forall (supplied u) (update_attributes rt u)
  /\ (forall a, supplied u a -> In a (update_attributes rt u))
  /\ update_attributes rt u
     = sent "name" (uu_username u) ++ sent "email" (uu_email u)
       ++ sent "phone_number" (uu_phone_number u)
       ++ sent "custom:profile_image_url" (uu_profile_image_url u)
  /\ (forall a, supplied u a ->
      calls (snd (update rt self username u w))
      = calls w ++ [{| api := "admin_update_user_attributes";
                       kwargs :=
                         <["UserAttributes" :=
                             VList (attribute_dict <$> update_attributes rt u)]>
                           (<["Username" := VStr username]>
                              (<["UserPoolId" := VStr (user_pool_id self)]> ∅)) |}]).
Proof.
  split_and!.
  - intros (Hn & He & Hp & Hi & Ht). rewrite update_run. unfold transmitted.
    now rewrite Hn, He, Hp, Hi.
  - apply update_world.
  - rewrite update_attributes_transmitted. apply transmitted_supplied.
  - intros a Ha. rewrite update_attributes_transmitted.
    now apply supplied_transmitted.
  - apply update_attributes_transmitted.
  - intros a Ha. rewrite update_world. cbn [calls].
    rewrite update_attributes_transmitted.
    apply supplied_transmitted in Ha.
    destruct (transmitted u) as [|b l]; [contradiction | reflexivity].
Qed.

Example update_examples :
  let run u := update Sample.runtime (Sample.repo None) "3f1c-uuid" u Sample.world0 in
  let unset := {| uu_username := NotSet; uu_email := NotSet; uu_phone_number := NotSet;
                  uu_profile_image_url := NotSet; uu_updated_at := NotSet |} in
  let renamed := {| uu_username := IsSet (Some "bob"); uu_email := IsSet None;
                    uu_phone_number := NotSet; uu_profile_image_url := IsSet (Some "");
                    uu_updated_at := IsSet 1700000000 |} in
  calls (snd (run unset)) = []
  /\ calls (snd (run renamed))
     = [{| api := "admin_update_user_attributes";
           kwargs := update_params (Sample.repo None) "3f1c-uuid"
                       [{| Name := "name"; Value := "bob" |};
                        {| Name := "custom:profile_image_url"; Value := "" |}] |}].
Proof. split; reflexivity. Qed.

Lemma name_mapping_unmapped (key : string) :
  ~ In key ["profile_image_url"; "phone_number"; "email"; "username"] ->
  name_mapping !! key = None.
Proof.
  intros H. unfold name_mapping. cbn [In] in H.
  rewrite !lookup_insert_ne by (intros Hk; apply H; rewrite <- Hk; tauto).
  apply lookup_empty.
Qed.

Lemma sent_names (name : string) (f : Field (option string)) :
  Forall (fun a => Name a = name) (sent name f).
Proof. destruct f as [|[v|]]; repeat constructor. Qed.

Lemma sent_None (name : string) : sent name (IsSet None) = [].
Proof. reflexivity. Qed.

Lemma transmitted_names (u : UserUpdate) :
  Forall (fun a => In (Name a) provider_names) (transmitted u).
Proof.
  unfold transmitted.
  repeat apply Forall_app_2;
    (eapply Forall_impl; [apply sent_names |]); intros a ->; cbn; tauto.
Qed.

Lemma sent_skips (field_name : string) (f : Field (option string)) (name : string) :
  (name = field_name -> f = IsSet None) ->
  Forall (fun a => Name a <> name) (sent field_name f).
Proof.
  intros H. destruct f as [|[v|]]; cbn; try apply Forall_nil_2.
  apply Forall_cons_2; [| apply Forall_nil_2]. cbn. intros Heq.
  symmetry in Heq. specialize (H Heq). discriminate H.
Qed.

(** no attribute carries the name of a field that is set to [None] *)
Lemma transmitted_skips (u : UserUpdate) (name : string) :
  (name = "name" -> uu_username u = IsSet None) ->
  (name = "email" -> uu_email u = IsSet None) ->
  (name = "phone_number" -> uu_phone_number u = IsSet None) ->
  (name = "custom:profile_image_url" -> uu_profile_image_url u = IsSet None) ->
  Forall (fun a => Name a <> name) (transmitted u).
Proof.
  intros Hn He Hp Hi. unfold transmitted.
  repeat apply Forall_app_2; apply sent_skips; assumption.
Qed.

(** C10.  Each attribute [update] sends carries one of the names [email],
    [phone_number], [custom:profile_image_url] and [name].  A field set to
    [None] sends nothing: no attribute carries its name.  The step of the
    loop leaves the attributes as they are for a value that is [None] and
    for a key outside the four of the mapping; so [updated_at], set or
    not, changes neither the attributes nor anything [update] does. *)
Theorem update_names_and_frame (rt : Runtime) (self : UserRepository)
    (username : string) (u : UserUpdate) (w : World) :
  Forall (fun a => In (Name a) provider_names) (update_attributes rt u)
  /\ (uu_username u = IsSet None ->
      Forall (fun a => Name a <> "name") (update_attributes rt u))
  /\ (uu_email u = IsSet None ->
      Forall (fun a => Name a <> "email") (update_attributes rt u))
  /\ (uu_phone_number u = IsSet None ->
      Forall (fun a => Name a <> "phone_number") (update_attributes rt u))
  /\ (uu_profile_image_url u = IsSet None ->
      Forall (fun a => Name a <> "custom:profile_image_url") (update_attributes rt u))
  /\ (forall attributes key, update_step rt attributes (key, VNone) = attributes)
  /\ (forall attributes key value,
         ~ In key ["profile_image_url"; "phone_number"; "email"; "username"] ->
         update_step rt attributes (key, value) = attributes)
  /\ (forall t,
         update_attributes rt (with_updated_at t u) = update_attributes rt u
         /\ update rt self username (with_updated_at t u) w = update rt self username u w)
  /\ snd (update rt self username u w)
     = {| calls := calls w ++ update_calls self username (update_attributes rt u);
          clock_reads := clock_reads w |}.
Proof.
  split_and!.
  - rewrite update_attributes_transmitted. apply transmitted_names.
  - intros H. rewrite update_attributes_transmitted.
    apply (transmitted_skips u "name"); try discriminate. intros _. exact H.
  - intros H. rewrite update_attributes_transmitted.
    apply (transmitted_skips u "email"); try discriminate. intros _. exact H.
  - intros H. rewrite update_attributes_transmitted.
    apply (transmitted_skips u "phone_number"); try discriminate. intros _. exact H.
  - intros H. rewrite update_attributes_transmitted.
    apply (transmitted_skips u "custom:profile_image_url"); try discriminate.
    intros _. exact H.
  - reflexivity.
  - intros attributes key value H. unfold update_step.
    rewrite (name_mapping_unmapped key H). now destruct value.
  - intros t.
    assert (Ht : transmitted (with_updated_at t u) = transmitted u) by reflexivity.
    split; [now rewrite !update_attributes_transmitted |].
    now rewrite !update_run, Ht.
  - apply update_world.
Qed.

Example update_drops_updated_at :
  let u := {| uu_username := IsSet None; uu_email := NotSet;
              uu_phone_number := IsSet (Some "+12025550199"); uu_profile_image_url := NotSet;
              uu_updated_at := IsSet 1700000000 |} in
  update_attributes Sample.runtime u
  = [{| Name := "phone_number"; Value := "+12025550199" |}]
  /\ fst (update Sample.runtime (Sample.repo None) "3f1c-uuid"
            {| uu_username := IsSet None; uu_email := NotSet; uu_phone_number := NotSet;
               uu_profile_image_url := NotSet; uu_updated_at := IsSet 1700000000 |}
            Sample.world0)
     = Return (VDict (<["message" := VStr "No attributes to update"]> ∅)).
Proof. split; reflexivity. Qed.

End Updates.

(** ** The boundary of the broker: one call, and normalized failures *)

Module Boundary.

Import Spec.
Local Open Scope list_scope.

(** the handler of the goal raises *)
Ltac on_error :=
  match goal with
  | |- context [on_ClientError ?context ?e ?w'] =>
      let x := fresh "x" in
      destruct (Run.on_ClientError_raises context e w') as [x ->]
  end.

(** the handler of the goal raises the status of the table *)
Ltac normalized :=
  match goal with
  | |- context [on_ClientError ?context ?e ?w'] =>
      let msg := fresh "msg" in
      destruct (Run.on_ClientError_status context e w') as [msg ->]; now exists msg
  end.

Lemma signup_calls (self : UserRepository) (user_data : UserCreate) (w : World) :
  calls (snd (signup self user_data w))
  = calls w ++ [{| api := "sign_up"; kwargs := signup_params self user_data |}].
Proof.
  unfold signup, try_except_ClientError, mbind, M_bind, invoke.
  destruct (sign_up _ _) as [e | response]; [now on_error | reflexivity].
Qed.

Lemma login_calls (self : UserRepository) (username password : string) (w : World) :
  calls (snd (login self username password w))
  = calls w ++ [{| api := "admin_initiate_auth";
                   kwargs := login_params self username password |}].
Proof.
  unfold login, try_except_ClientError, mbind, M_bind, invoke, getitem.
  fold (login_params self username password).
  destruct (admin_initiate_auth _ _) as [e | [[[[a|] [r|] [i|] [t|] [x|]]|]]];
    try reflexivity.
  now on_error.
Qed.

Lemma refresh_token_calls (self : UserRepository) (token : string) (w : World) :
  calls (snd (refresh_token self token w))
  = calls w ++ [{| api := "admin_initiate_auth";
                   kwargs := refresh_token_params self token |}].
Proof.
  rewrite Broker.refresh_token_run. cbn zeta.
  destruct (admin_initiate_auth _ _) as [e | [[[[a|] r [i|] [t|] [x|]]|]]];
    try reflexivity.
  now on_error.
Qed.

Lemma get_current_user_calls (rt : Runtime) (self : UserRepository) (token : string)
    (w : World) :
  calls (snd (get_current_user rt self token w))
  = calls w ++ [{| api := "get_user"; kwargs := <["AccessToken" := VStr token]> ∅ |}].
Proof.
  unfold get_current_user, try_except_ClientError, mbind, M_bind, invoke, utcnow,
    UserOut_init.
  destruct (get_user _ _) as [e | response]; cbn; [now on_error |].
  now destruct (EmailStr rt _).
Qed.

Lemma get_by_username_calls (rt : Runtime) (self : UserRepository) (username : string)
    (w : World) :
  calls (snd (get_by_username rt self username w))
  = calls w ++ [{| api := "admin_get_user";
                   kwargs := get_by_username_params self username |}].
Proof.
  unfold get_by_username, try_except_ClientError, mbind, M_bind, invoke, getitem.
  fold (get_by_username_params self username).
  destruct (admin_get_user _ _) as [e | [[n|] [a|] en]]; try reflexivity;
    [now on_error |].
  cbn. rewrite Mapper.map_user_run. cbn zeta. now destruct (EmailStr rt _).
Qed.

(** X1.  Each operation of the broker makes one call to the provider, the
    one of its use case, whether the provider answers or fails and whether
    the operation returns or raises; [update] makes none when it has no
    attribute to send. *)
Theorem one_call_per_operation (rt : Runtime) (self : UserRepository) (w : World) :
  (forall user_data,
      calls (snd (signup self user_data w))
      = calls w ++ [{| api := "sign_up"; kwargs := signup_params self user_data |}])
  /\ (forall username password,
         calls (snd (login self username password w))
         = calls w ++ [{| api := "admin_initiate_auth";
                          kwargs := login_params self username password |}])
  /\ (forall token,
         calls (snd (refresh_token self token w))
         = calls w ++ [{| api := "admin_initiate_auth";
                          kwargs := refresh_token_params self token |}])
  /\ (forall token,
         calls (snd (get_current_user rt self token w))
         = calls w ++ [{| api := "get_user"; kwargs := <["AccessToken" := VStr token]> ∅ |}])
  /\ (forall limit token,
         calls (snd (get_all rt self limit token w))
         = calls w ++ [{| api := "list_users"; kwargs := get_all_params self limit token |}])
  /\ (forall username,
         calls (snd (get_by_username rt self username w))
         = calls w ++ [{| api := "admin_get_user";
                          kwargs := get_by_username_params self username |}])
  /\ (forall username user_data,
         calls (snd (update rt self username user_data w))
         = calls w ++ update_calls self username (update_attributes rt user_data)).
Proof.
  split_and!.
  - intros user_data. apply signup_calls.
  - intros username password. apply login_calls.
  - intros token. apply refresh_token_calls.
  - intros token. apply get_current_user_calls.
  - intros limit token. apply Listing.get_all_calls.
  - intros username. apply get_by_username_calls.
  - intros username user_data. now rewrite Updates.update_world.
Qed.

(** X2.  A failure of the provider in an operation of the broker leaves the
    operation by an [AppException] whose status is the one the table of
    section 4.2 gives the code of the failure. *)
Theorem provider_failure_is_normalized (rt : Runtime) (self : UserRepository)
    (e : ClientError) (w : World) :
  let normalized (o : Outcome PyVal * World) :=
    exists msg : string,
      fst o = Raise (EApp {| message := msg; status_code := table_status (Code e) |}) in
  (forall user_data,
      sign_up (client self) (signup_params self user_data) = inl e ->
      normalized (signup self user_data w))
  /\ (forall username password,
         admin_initiate_auth (client self) (login_params self username password) = inl e ->
         normalized (login self username password w))
  /\ (forall token,
         admin_initiate_auth (client self) (refresh_token_params self token) = inl e ->
         normalized (refresh_token self token w))
  /\ (forall token,
         get_user (client self) (<["AccessToken" := VStr token]> ∅) = inl e ->
         normalized (get_current_user rt self token w))
  /\ (forall limit token,
         list_users (client self) (get_all_params self limit token) = inl e ->
         normalized (get_all rt self limit token w))
  /\ (forall username,
         admin_get_user (client self) (get_by_username_params self username) = inl e ->
         normalized (get_by_username rt self username w))
  /\ (forall username user_data,
         update_attributes rt user_data <> [] ->
         admin_update_user_attributes (client self)
           (update_params self username (update_attributes rt user_data)) = inl e ->
         normalized (update rt self username user_data w)).
Proof.
  cbn zeta. split_and!.
  - intros user_data H. unfold signup, try_except_ClientError, mbind, M_bind, invoke.
    rewrite H. normalized.
  - intros username password H.
    unfold login, try_except_ClientError, mbind, M_bind, invoke.
    fold (login_params self username password). rewrite H. normalized.
  - intros token H. rewrite Broker.refresh_token_run, H. cbn zeta. normalized.
  - intros token H.
    unfold get_current_user, try_except_ClientError, mbind, M_bind, invoke.
    rewrite H. normalized.
  - intros limit token H. unfold get_all, try_except_ClientError, mbind, M_bind, invoke.
    rewrite H. normalized.
  - intros username H.
    unfold get_by_username, try_except_ClientError, mbind, M_bind, invoke.
    fold (get_by_username_params self username). rewrite H. normalized.
  - intros username user_data Hne H. rewrite Updates.update_run.
    rewrite Updates.update_attributes_transmitted in Hne, H.
    destruct (transmitted user_data) as [|a l]; [congruence |].
    cbn zeta. rewrite H. normalized.
Qed.

(** X3.  [login] of a user the provider reports as unconfirmed raises the
    [AppException] of status 403 that asks for the verification of the
    e-mail address; with a client secret its [AuthParameters] carry the
    [SECRET_HASH] of the user name, and none without. *)
Theorem login_unconfirmed_is_forbidden (self : UserRepository)
    (username password m : string) (w : World) :
  (admin_initiate_auth (client self) (login_params self username password)
   = inl {| Code := "UserNotConfirmedException"; Message := m |} ->
   fst (login self username password w)
   = Raise (EApp {| message := "Please verify your email before logging in. Check your inbox for the confirmation code.";
                    status_code := 403 |}))
  /\ login_auth_params self username password !! "SECRET_HASH"
     = VStr <$> _get_secret_hash self username.
Proof.
  split.
  - intros H. unfold login, try_except_ClientError, mbind, M_bind, invoke.
    fold (login_params self username password). now rewrite H.
  - unfold login_auth_params, _get_secret_hash.
    now destruct (client_secret self) as [[|c s]|].
Qed.

End Boundary.

(** ** The operations on an account: confirmation, codes, sign-out, removal *)

Module Accounts.

Import Spec Words.
Local Open Scope list_scope.

(** a method that calls the provider once and answers from the response *)
Lemma one_call_run {R} (context name : string)
    (method : gmap string PyVal -> ClientError + R) (kw : gmap string PyVal)
    (result : R -> PyVal) (w : World) :
  try_except_ClientError (r ← invoke name method kw; mret (result r))
    (on_ClientError context) w
  = match method kw with
    | inl e => on_ClientError context e (called w name kw)
    | inr r => (Return (result r), called w name kw)
    end.
Proof.
  unfold try_except_ClientError, mbind, M_bind, invoke, called.
  now destruct (method kw).
Qed.

Lemma one_call_world {R} (context name : string)
    (method : gmap string PyVal -> ClientError + R) (kw : gmap string PyVal)
    (result : R -> PyVal) (w : World) :
  snd (try_except_ClientError (r ← invoke name method kw; mret (result r))
         (on_ClientError context) w)
  = called w name kw.
Proof.
  rewrite one_call_run. destruct (method kw) as [e | r]; [| reflexivity].
  now destruct (Run.on_ClientError_raises context e (called w name kw)) as [x ->].
Qed.

Lemma one_call_settled {R} (context name : string)
    (method : gmap string PyVal -> ClientError + R) (kw : gmap string PyVal)
    (result : R -> PyVal) (w : World) :
  (forall r, exists d msg, result r = VDict d /\ d !! "message" = Some (VStr msg)) ->
  settled (method kw)
    (try_except_ClientError (r ← invoke name method kw; mret (result r))
       (on_ClientError context) w).
Proof.
  intros Hres. rewrite one_call_run. unfold settled.
  destruct (method kw) as [e | r].
  - destruct (Run.on_ClientError_status context e (called w name kw)) as [msg ->].
    now exists msg.
  - destruct (Hres r) as (d & msg & -> & Hd). now exists d, msg.
Qed.

Lemma with_secret_hash_SecretHash (self : UserRepository) (username : string)
    (params : gmap string PyVal) :
  params !! "SecretHash" = None ->
  user_repository.with_secret_hash self username params !! "SecretHash"
  = VStr <$> _get_secret_hash self username.
Proof.
  intros Hp. unfold user_repository.with_secret_hash, _get_secret_hash.
  destruct (truthy_opt (client_secret self)); cbn [negb].
  - now rewrite lookup_insert_eq.
  - exact Hp.
Qed.

Lemma with_secret_hash_other (self : UserRepository) (username key : string)
    (params : gmap string PyVal) :
  key <> "SecretHash" ->
  user_repository.with_secret_hash self username params !! key = params !! key.
Proof.
  intros Hk. unfold user_repository.with_secret_hash.
  destruct (truthy_opt (client_secret self)); [| reflexivity].
  now rewrite lookup_insert_ne.
Qed.

Lemma secret_hash_configured (self : UserRepository) (username : string) :
  is_Some (_get_secret_hash self username) <-> truthy_opt (client_secret self) = true.
Proof.
  unfold _get_secret_hash.
  destruct (truthy_opt (client_secret self)); cbn [negb]; split; intros H.
  - reflexivity.
  - eexists. reflexivity.
  - destruct H as [x H]. discriminate H.
  - discriminate H.
Qed.

(** X4.  Each of [confirm_email], [resend_confirmation_code], [logout],
    [forgot_password], [confirm_forgot_password] and [delete] leaves the
    world with one call more, the call of its use case with its keyword
    arguments, and reads no clock, whatever the provider answers. *)
Theorem account_operations_call_once (self : UserRepository) (idp : cognito_idp.methods)
    (w : World) :
  (forall email code,
      snd (user_repository.confirm_email self idp email code w)
      = called w "confirm_sign_up" (user_repository.confirm_email_params self email code))
  /\ (forall email,
         snd (user_repository.resend_confirmation_code self idp email w)
         = called w "resend_confirmation_code"
             (user_repository.resend_confirmation_code_params self email))
  /\ (forall token,
         snd (user_repository.logout idp token w)
         = called w "global_sign_out" (<["AccessToken" := VStr token]> ∅))
  /\ (forall email,
         snd (user_repository.forgot_password self idp email w)
         = called w "forgot_password" (user_repository.forgot_password_params self email))
  /\ (forall email code new_password,
         snd (user_repository.confirm_forgot_password self idp email code new_password w)
         = called w "confirm_forgot_password"
             (user_repository.confirm_forgot_password_params self email code new_password))
  /\ (forall username,
         snd (user_repository.delete self idp username w)
         = called w "admin_delete_user" (user_repository.delete_params self username)).
Proof.
  split_and!; intros; apply one_call_world.
Qed.

(** X5.  The four operations that act for the client application send the
    e-mail address as [Username] with the [ClientId], and a [SecretHash]
    exactly when a client secret is configured: the one [_get_secret_hash]
    derives from that same [Username].  [delete] sends none. *)
Theorem secret_hash_of_the_username (self : UserRepository)
    (email code new_password : string) :
  let authenticated (params : gmap string PyVal) :=
    params !! "Username" = Some (VStr email)
    /\ params !! "ClientId" = Some (VStr (client_id self))
    /\ params !! "SecretHash" = VStr <$> _get_secret_hash self email
    /\ (is_Some (params !! "SecretHash") <-> truthy_opt (client_secret self) = true) in
  authenticated (user_repository.confirm_email_params self email code)
  /\ authenticated (user_repository.resend_confirmation_code_params self email)
  /\ authenticated (user_repository.forgot_password_params self email)
  /\ authenticated
       (user_repository.confirm_forgot_password_params self email code new_password)
  /\ (forall username, user_repository.delete_params self username !! "SecretHash" = None).
Proof.
  cbn zeta.
  assert (Hsome : forall params : gmap string PyVal,
             params !! "SecretHash" = VStr <$> _get_secret_hash self email ->
             is_Some (params !! "SecretHash") <-> truthy_opt (client_secret self) = true).
  { intros params ->. rewrite <- (secret_hash_configured self email).
    now rewrite fmap_is_Some. }
  unfold user_repository.confirm_email_params,
    user_repository.resend_confirmation_code_params,
    user_repository.forgot_password_params,
    user_repository.confirm_forgot_password_params.
  split_and!;
    try (rewrite with_secret_hash_other by discriminate; reflexivity);
    try (apply with_secret_hash_SecretHash; reflexivity);
    try (apply Hsome, with_secret_hash_SecretHash; reflexivity).
  intros username. reflexivity.
Qed.

(** X6.  These six operations end in one of two ways, decided by the
    provider alone.  A failure of the provider becomes the [AppException]
    whose status the table gives its code.  An answer makes the operation
    return a dict that holds a [message]: none of them raises on an
    answer, and none returns [None]. *)
Theorem account_operations_settle (self : UserRepository) (idp : cognito_idp.methods)
    (w : World) :
  (forall email code,
      settled (cognito_idp.confirm_sign_up idp
                 (user_repository.confirm_email_params self email code))
        (user_repository.confirm_email self idp email code w))
  /\ (forall email,
         settled (cognito_idp.resend_confirmation_code idp
                    (user_repository.resend_confirmation_code_params self email))
           (user_repository.resend_confirmation_code self idp email w))
  /\ (forall token,
         settled (cognito_idp.global_sign_out idp (<["AccessToken" := VStr token]> ∅))
           (user_repository.logout idp token w))
  /\ (forall email,
         settled (cognito_idp.forgot_password idp
                    (user_repository.forgot_password_params self email))
           (user_repository.forgot_password self idp email w))
  /\ (forall email code new_password,
         settled (cognito_idp.confirm_forgot_password idp
                    (user_repository.confirm_forgot_password_params self email code
                       new_password))
           (user_repository.confirm_forgot_password self idp email code new_password w))
  /\ (forall username,
         settled (cognito_idp.admin_delete_user idp
                    (user_repository.delete_params self username))
           (user_repository.delete self idp username w)).
Proof.
  split_and!; intros; apply one_call_settled; intros r; eexists _, _;
    (split; [reflexivity | reflexivity]).
Qed.

(** X7.  The results of [signup], [resend_confirmation_code] and
    [forgot_password] always hold the two keys of the delivery of the
    code: with [None] when the provider reports no delivery, which raises
    nothing, and with the medium and the destination of the provider
    otherwise. *)
Theorem delivery_is_reported (self : UserRepository) (idp : cognito_idp.methods)
    (user_data : UserCreate) (email : string) (w : World) :
  let reports (details : option CodeDeliveryDetailsType) (o : Outcome PyVal * World) :=
    exists d : gmap string PyVal,
      fst o = Return (VDict d)
      /\ match details with
         | None =>
             d !! "code_delivery_medium" = Some VNone
             /\ d !! "code_delivery_destination" = Some VNone
         | Some x =>
             d !! "code_delivery_medium" = Some (of_opt_str (DeliveryMedium x))
             /\ d !! "code_delivery_destination" = Some (of_opt_str (Destination x))
         end in
  (forall response,
      sign_up (client self) (signup_params self user_data) = inr response ->
      reports (CodeDeliveryDetails response) (signup self user_data w))
  /\ (forall response,
         cognito_idp.resend_confirmation_code idp
           (user_repository.resend_confirmation_code_params self email) = inr response ->
         reports (cd_CodeDeliveryDetails response)
           (user_repository.resend_confirmation_code self idp email w))
  /\ (forall response,
         cognito_idp.forgot_password idp
           (user_repository.forgot_password_params self email) = inr response ->
         reports (cd_CodeDeliveryDetails response)
           (user_repository.forgot_password self idp email w)).
Proof.
  cbn zeta. split_and!; intros response Hr.
  - unfold signup. rewrite one_call_run, Hr. eexists; split; [reflexivity |].
    now destruct (CodeDeliveryDetails response).
  - unfold user_repository.resend_confirmation_code. rewrite one_call_run, Hr.
    eexists; split; [reflexivity |].
    now destruct (cd_CodeDeliveryDetails response).
  - unfold user_repository.forgot_password. rewrite one_call_run, Hr.
    eexists; split; [reflexivity |].
    now destruct (cd_CodeDeliveryDetails response).
Qed.

End Accounts.

(** ** The tokens of [login] *)

Module Tokens.

Import Words.
Local Open Scope list_scope.

Lemma login_run (self : UserRepository) (username password : string) (w : World) :
  let w' := called w "admin_initiate_auth" (login_params self username password) in
  login self username password w
  = match admin_initiate_auth (client self) (login_params self username password) with
    | inl e => on_ClientError "login" e w'
    | inr response =>
        match AuthenticationResult response with
        | None => (Raise (EKeyError "AuthenticationResult"), w')
        | Some t =>
            match missing_tokens t with
            | key :: _ => (Raise (EKeyError key), w')
            | [] =>
                (Return (VDict (
                   <["expires_in" := VInt (default 0 (ExpiresIn t))]>
                  (<["token_type" := VStr (default "" (TokenType t))]>
                  (<["id_token" := VStr (default "" (IdToken t))]>
                  (<["refresh_token" := VStr (default "" (RefreshToken t))]>
                  (<["access_token" := VStr (default "" (AccessToken t))]>
                  (<["status" := VStr "SUCCESS"]> ∅))))))), w')
            end
        end
    end.
Proof.
  unfold login, try_except_ClientError, mbind, M_bind, invoke, getitem, called.
  fold (login_params self username password).
  destruct (admin_initiate_auth _ _) as [e | [[[[a|] [r|] [i|] [t|] [x|]]|]]]; reflexivity.
Qed.

(** X8.  When the provider answers the call of [login], [login] returns
    only if the answer holds an [AuthenticationResult] with all of
    [AccessToken], [RefreshToken], [IdToken], [TokenType] and [ExpiresIn],
    and then hands the five on.  Otherwise it raises the [KeyError] of the
    first key it misses, which no handler of the method catches: the
    answer to a challenge, which holds no [AuthenticationResult], is such
    a case. *)
Theorem login_needs_every_token (self : UserRepository) (username password : string)
    (response : InitiateAuthResponse) (w : World) :
  admin_initiate_auth (client self) (login_params self username password) = inr response ->
  fst (login self username password w)
  = match AuthenticationResult response with
    | None => Raise (EKeyError "AuthenticationResult")
    | Some t =>
        match missing_tokens t with
        | key :: _ => Raise (EKeyError key)
        | [] =>
            Return (VDict (
              <["expires_in" := VInt (default 0 (ExpiresIn t))]>
             (<["token_type" := VStr (default "" (TokenType t))]>
             (<["id_token" := VStr (default "" (IdToken t))]>
             (<["refresh_token" := VStr (default "" (RefreshToken t))]>
             (<["access_token" := VStr (default "" (AccessToken t))]>
             (<["status" := VStr "SUCCESS"]> ∅)))))))
        end
    end.
Proof.
  intros H. rewrite login_run, H. cbn zeta.
  destruct (AuthenticationResult response) as [t|]; [| reflexivity].
  now destruct (missing_tokens t).
Qed.

(** An authentication without a refresh token: [login] raises
    [KeyError('RefreshToken')], where [refresh_token] returns. *)
Lemma login_needs_every_token_witness :
  fst (login Sample2.sparse_repo "a@b.com" "Secret1!" Sample.world0)
  = Raise (EKeyError "RefreshToken")
  /\ exists d, fst (refresh_token Sample2.sparse_repo "refresh-2" Sample.world0)
               = Return (VDict d).
Proof.
  split.
  - exact (login_needs_every_token Sample2.sparse_repo "a@b.com" "Secret1!" _
             Sample.world0 eq_refl).
  - eexists. reflexivity.
Defined.

End Tokens.

(** ** A page of users, and the bag of attributes of a user *)

Module Pages.

Import Words.
Local Open Scope list_scope.

Lemma attrs_dict_snoc (l : list Attribute) (a : Attribute) :
  attrs_dict (l ++ [a]) = <[Name a := Value a]> (attrs_dict l).
Proof. unfold attrs_dict. now rewrite fold_left_app. Qed.

Lemma last_named_nil (n v : string) : ~ last_named n v [].
Proof. intros (l1 & l2 & H & _). now destruct l1. Qed.

Lemma last_named_snoc (n v : string) (l : list Attribute) (a : Attribute) :
  last_named n v (l ++ [a])
  <-> (Name a = n /\ Value a = v) \/ (Name a <> n /\ last_named n v l).
Proof.
  split.
  - intros (l1 & l2 & H & Hl2). destruct l2 as [|y l2 _] using rev_ind.
    + apply app_inj_tail in H as [_ ->]. now left.
    + change (l ++ [a] = l1 ++ ({| Name := n; Value := v |} :: l2) ++ [y]) in H.
      rewrite app_assoc in H. apply app_inj_tail in H as [-> ->].
      apply Forall_app in Hl2 as [Hl2 Hy]. apply Forall_cons_1 in Hy as [Hy _].
      right. split; [exact Hy |]. now exists l1, l2.
  - intros [[Hn Hv] | [Hn (l1 & l2 & -> & Hl2)]].
    + exists l, []. destruct a as [an av]; cbn in *; subst. now split.
    + exists l1, (l2 ++ [a]). rewrite <- app_assoc. split; [reflexivity |].
      apply Forall_app_2; [exact Hl2 | now apply Forall_cons_2].
Qed.

(** X9.  The dict [_map_user] and [get_current_user] make of a list of
    attributes gives a name the value of the last attribute of that name
    in the list, and nothing to a name no attribute has: of two entries of
    one name the later wins. *)
Theorem attrs_dict_last_wins (l : list Attribute) (n : string) :
  (forall v, attrs_dict l !! n = Some v <-> last_named n v l)
  /\ (attrs_dict l !! n = None <-> Forall (fun a => Name a <> n) l).
Proof.
  induction l as [|a l [IHs IHn]] using rev_ind.
  - split.
    + intros v. split; [discriminate |]. intros H. now apply last_named_nil in H.
    + split; [constructor | reflexivity].
  - rewrite attrs_dict_snoc. split.
    + intros v. rewrite last_named_snoc.
      destruct (decide (Name a = n)) as [Heq | Hne].
      * rewrite Heq, lookup_insert_eq. split.
        -- intros [= <-]. now left.
        -- intros [[_ ->] | [Hne _]]; [reflexivity | contradiction].
      * rewrite lookup_insert_ne by exact Hne. rewrite IHs. split.
        -- intros H. now right.
        -- intros [[Heq _] | [_ H]]; [contradiction | exact H].
    + rewrite Forall_app, Forall_singleton.
      destruct (decide (Name a = n)) as [Heq | Hne].
      * rewrite Heq, lookup_insert_eq. split; [discriminate |].
        intros [_ Hne]. contradiction.
      * rewrite lookup_insert_ne by exact Hne. rewrite IHn. tauto.
Qed.

(** *** get_all *)

Lemma map_user_valid (rt : Runtime) (user : CognitoUser) (w : World) :
  valid_email rt user ->
  exists r,
    _map_user rt user w
    = (Return r, {| calls := calls w; clock_reads := S (S (clock_reads w)) |})
    /\ maps_to rt user r.
Proof.
  intros [e He]. rewrite Mapper.map_user_run. cbn zeta.
  unfold email_of, attributes_of in He. rewrite He.
  eexists. split; [reflexivity |]. now split.
Qed.

Lemma map_user_invalid (rt : Runtime) (user : CognitoUser) (w : World) :
  ~ valid_email rt user ->
  _map_user rt user w
  = (Raise (EValidation "email"),
     {| calls := calls w; clock_reads := S (S (clock_reads w)) |}).
Proof.
  intros Hn. rewrite Mapper.map_user_run. cbn zeta.
  unfold valid_email, email_of, attributes_of in Hn.
  destruct (EmailStr rt _) as [e|]; [| reflexivity].
  exfalso. apply Hn. now eexists.
Qed.

Lemma comprehension_valid (rt : Runtime) (l : list CognitoUser) (w : World) :
  Forall (valid_email rt) l ->
  exists records w',
    comprehension (_map_user rt) l w = (Return records, w')
    /\ Forall2 (maps_to rt) l records.
Proof.
  revert w. induction l as [|user l IH]; intros w Hl; cbn [comprehension].
  - exists [], w. split; [reflexivity | constructor].
  - apply Forall_cons_1 in Hl as [Hu Hl].
    destruct (map_user_valid rt user w Hu) as (r & Hr & Hm).
    destruct (IH {| calls := calls w; clock_reads := S (S (clock_reads w)) |} Hl)
      as (records & w' & Hrs & Hms).
    exists (r :: records), w'. unfold mbind, M_bind. rewrite Hr, Hrs.
    split; [reflexivity | now constructor].
Qed.

Lemma comprehension_invalid (rt : Runtime) (l : list CognitoUser) (w : World) :
  Exists (fun user => ~ valid_email rt user) l ->
  exists w', comprehension (_map_user rt) l w = (Raise (EValidation "email"), w').
Proof.
  revert w. induction l as [|user l IH]; intros w Hl; cbn [comprehension].
  - now apply Exists_nil in Hl.
  - unfold mbind, M_bind. rewrite Mapper.map_user_run. cbn zeta.
    destruct (EmailStr rt _) as [e|] eqn:He; [| now eexists].
    apply Exists_cons in Hl as [Hu | Hl].
    + exfalso. apply Hu. exists e. exact He.
    + destruct (IH {| calls := calls w; clock_reads := S (S (clock_reads w)) |} Hl)
        as (w' & ->).
      now eexists.
Qed.

(** X10.  [get_all] asks the provider for the page after a token only when
    it is given one that is not empty, and hands on the token of the
    provider's answer as [next_token], [None] when the answer has none.
    A page comes whole or not at all: when [UserOut] accepts the address
    of each user of the answer, the records of [users] are those users
    mapped, one for one and in their order; when it rejects one, [get_all]
    raises the validation error and returns no other user either. *)
Theorem get_all_pages (rt : Runtime) (self : UserRepository) (limit : Z)
    (token : option string) (response : ListUsersResponse) (w : World) :
  list_users (client self) (get_all_params self limit token) = inr response ->
  get_all_params self limit token !! "PaginationToken"
  = (if truthy_opt token then VStr <$> token else None)
  /\ (Forall (valid_email rt) (default [] (Users response)) ->
      exists records,
        fst (get_all rt self limit token w)
        = Return (VDict (<["next_token" := of_opt_str (PaginationToken response)]>
                           (<["users" := VList (VUser <$> records)]> ∅)))
        /\ Forall2 (maps_to rt) (default [] (Users response)) records)
  /\ (Exists (fun user => ~ valid_email rt user) (default [] (Users response)) ->
      fst (get_all rt self limit token w) = Raise (EValidation "email")).
Proof.
  intros Hcall. split; [| split].
  - unfold get_all_params. now destruct token as [[|c t]|].
  - intros Hv. unfold get_all, try_except_ClientError, mbind, M_bind, invoke.
    rewrite Hcall.
    match goal with
    | |- context [comprehension _ _ ?w1] =>
        destruct (comprehension_valid rt _ w1 Hv) as (records & w' & -> & Hm)
    end.
    now exists records.
  - intros Hi. unfold get_all, try_except_ClientError, mbind, M_bind, invoke.
    rewrite Hcall.
    match goal with
    | |- context [comprehension _ _ ?w1] =>
        destruct (comprehension_invalid rt _ w1 Hi) as (w' & ->)
    end.
    reflexivity.
Qed.

(** The page of the sample holds a user without an address after one with:
    nothing of it is returned. *)
Lemma get_all_pages_witness :
  fst (get_all Sample.runtime Sample2.sparse_repo 20 (Some "page-1") Sample.world0)
  = Raise (EValidation "email").
Proof.
  destruct (get_all_pages Sample.runtime Sample2.sparse_repo 20 (Some "page-1") _
              Sample.world0 eq_refl) as (_ & _ & H).
  apply H. apply Exists_cons_tl, Exists_cons_hd. intros [e He]. discriminate He.
Defined.

End Pages.

(** ** What [signup] registers, and what the mapper reads back *)

Module Registration.

Import Spec Words.
Local Open Scope list_scope.

Lemma signup_attributes_cases (user_data : UserCreate) :
  signup_attributes user_data
  = [{| Name := "email"; Value := uc_email user_data |};
     {| Name := "name"; Value := name_sent user_data |}]
    ++ match when_truthy (uc_phone_number user_data) with
       | Some p => [{| Name := "phone_number"; Value := p |}]
       | None => []
       end
    ++ match when_truthy (uc_profile_image_url user_data) with
       | Some u => [{| Name := "custom:profile_image_url"; Value := u |}]
       | None => []
       end.
Proof.
  unfold signup_attributes, name_sent, when_truthy. rewrite Mapper.item0_split.
  destruct (uc_username user_data) as [[|c n]|],
    (uc_phone_number user_data) as [[|d p]|],
    (uc_profile_image_url user_data) as [[|e u]|]; reflexivity.
Qed.

Lemma signup_attributes_lookup (user_data : UserCreate) :
  let d := attrs_dict (signup_attributes user_data) in
  d !! "email" = Some (uc_email user_data)
  /\ d !! "name" = Some (name_sent user_data)
  /\ d !! "phone_number" = when_truthy (uc_phone_number user_data)
  /\ d !! "custom:profile_image_url" = when_truthy (uc_profile_image_url user_data).
Proof.
  cbn zeta. rewrite signup_attributes_cases.
  generalize (name_sent user_data) (uc_email user_data). intros n e.
  destruct (when_truthy (uc_phone_number user_data)) as [p|],
    (when_truthy (uc_profile_image_url user_data)) as [u|];
    split_and!; vm_compute; reflexivity.
Qed.

Lemma signup_attributes_names (user_data : UserCreate) :
  NoDup (Name <$> signup_attributes user_data)
  /\ Forall (fun a => Name a ∈ provider_names) (signup_attributes user_data).
Proof.
  rewrite signup_attributes_cases.
  generalize (name_sent user_data) (uc_email user_data). intros n e.
  destruct (when_truthy (uc_phone_number user_data)) as [p|],
    (when_truthy (uc_profile_image_url user_data)) as [u|];
    split; apply (bool_decide_unpack _); vm_compute; exact I.
Qed.

Lemma py_or_truthy (n : string) (y : option string) :
  Str.truthy n = true -> Some n ||| y = Some n.
Proof. intros H. unfold py_or. now rewrite H. Qed.

Lemma default_when_truthy (x : option string) :
  default "" (when_truthy x) = default "" x.
Proof. now destruct x as [[|c s]|]. Qed.

Lemma name_sent_truthy (rt : Runtime) (user_data : UserCreate) (e : string) :
  EmailStr_local_part rt -> EmailStr rt (uc_email user_data) = Some e ->
  Str.truthy (name_sent user_data) = true.
Proof.
  intros Hlocal He. unfold name_sent.
  destruct (uc_username user_data) as [[|c n]|]; cbn [truthy_opt Str.truthy default];
    try reflexivity;
    specialize (Hlocal _ _ He); rewrite Mapper.item0_split in Hlocal;
    now destruct (before "@" (uc_email user_data)).
Qed.

Lemma signup_run (self : UserRepository) (user_data : UserCreate) (w : World)
    (response : SignUpResponse) :
  sign_up (client self) (signup_params self user_data) = inr response ->
  exists d,
    fst (signup self user_data w) = Return (VDict d)
    /\ d !! "username" = Some (VStr (name_sent user_data))
    /\ d !! "email" = Some (VStr (uc_email user_data)).
Proof.
  intros H. unfold signup. rewrite Accounts.one_call_run, H.
  eexists. split; [reflexivity |]. split; [| reflexivity].
  rewrite lookup_insert_ne by discriminate. rewrite lookup_insert_ne by discriminate.
  rewrite lookup_insert_ne by discriminate. rewrite lookup_insert_eq.
  unfold name_sent. rewrite Mapper.item0_split.
  now destruct (uc_username user_data) as [[|c n]|].
Qed.

(** X11.  [signup] registers a user under the e-mail address of the
    request, with one attribute for a name: [email] and [name] always,
    [phone_number] and [custom:profile_image_url] only for a value that is
    not empty.  The [name] is the user name of the request, or the text of
    the address before its [@]; it is the [username] the result reports. *)
Theorem signup_attribute_list (self : UserRepository) (user_data : UserCreate) :
  let attributes := signup_attributes user_data in
  signup_params self user_data !! "Username" = Some (VStr (uc_email user_data))
  /\ signup_params self user_data !! "UserAttributes"
     = Some (VList (attribute_dict <$> attributes))
  /\ NoDup (Name <$> attributes)
  /\ Forall (fun a => Name a ∈ provider_names) attributes
  /\ attrs_dict attributes !! "email" = Some (uc_email user_data)
  /\ attrs_dict attributes !! "name" = Some (name_sent user_data)
  /\ attrs_dict attributes !! "phone_number" = when_truthy (uc_phone_number user_data)
  /\ attrs_dict attributes !! "custom:profile_image_url"
     = when_truthy (uc_profile_image_url user_data)
  /\ (forall w response,
         sign_up (client self) (signup_params self user_data) = inr response ->
         exists d,
           fst (signup self user_data w) = Return (VDict d)
           /\ d !! "username" = Some (VStr (name_sent user_data))
           /\ d !! "email" = Some (VStr (uc_email user_data))).
Proof.
  cbn zeta.
  destruct (signup_attributes_lookup user_data) as (H1 & H2 & H3 & H4).
  destruct (signup_attributes_names user_data) as [Hn Hp].
  split_and!; try assumption.
  - unfold signup_params. now destruct (truthy_opt (client_secret self)).
  - unfold signup_params. now destruct (truthy_opt (client_secret self)).
  - intros w response. apply signup_run.
Qed.

(** X12.  What [signup] registers, [_map_user] reads back.  For a request
    whose address [EmailStr] accepts and a user of the provider whose
    attributes hold, under the four names of the provider, what [signup]
    sent, [_map_user] returns a record with the validated address, the
    name sent as its user name, and the phone number and the image of the
    request, the empty string for one that was not sent. *)
Theorem signup_round_trip (rt : Runtime) (user_data : UserCreate) (user : CognitoUser)
    (e : string) (w : World) :
  EmailStr_local_part rt ->
  EmailStr rt (uc_email user_data) = Some e ->
  same_profile (attributes_of user) (attrs_dict (signup_attributes user_data)) ->
  exists r w',
    _map_user rt user w = (Return r, w')
    /\ out_email r = e
    /\ out_username r = Some (name_sent user_data)
    /\ out_phone_number r = Some (default "" (uc_phone_number user_data))
    /\ out_profile_image_url r = Some (default "" (uc_profile_image_url user_data)).
Proof.
  intros Hlocal He Hsame.
  destruct (signup_attributes_lookup user_data) as (H1 & H2 & H3 & H4).
  unfold same_profile, provider_names, attributes_of in Hsame.
  apply Forall_cons_1 in Hsame as [S1 Hsame]. apply Forall_cons_1 in Hsame as [S3 Hsame].
  apply Forall_cons_1 in Hsame as [S4 Hsame]. apply Forall_cons_1 in Hsame as [S2 _].
  rewrite H1 in S1. rewrite H2 in S2. rewrite H3 in S3. rewrite H4 in S4.
  rewrite Mapper.map_user_run. cbn zeta. unfold map_user_username.
  rewrite S1, S2, S3, S4. cbn [from_option id]. rewrite He.
  rewrite !(py_or_truthy _ _ (name_sent_truthy rt user_data e Hlocal He)).
  rewrite !default_when_truthy.
  eexists _, _. split; [reflexivity |]. now split_and!.
Qed.

(** A request without a user name: the user is registered, and read back,
    under the text of the address before its [@]. *)
Lemma signup_round_trip_witness :
  let user_data :=
    {| uc_email := "a@b.com"; uc_username := None; uc_password := "Secret1!";
       uc_phone_number := Some "+12025550123"; uc_profile_image_url := Some "";
       uc_created_at := 0; uc_updated_at := 0 |} in
  let user :=
    {| Username := Some "3f1c-uuid";
       Attributes := Some ({| Name := "sub"; Value := "3f1c-uuid" |}
                           :: {| Name := "email_verified"; Value := "false" |}
                           :: signup_attributes user_data);
       Enabled := Some true |} in
  exists r w',
    _map_user Sample.runtime user Sample.world0 = (Return r, w')
    /\ out_email r = "a@b.com" /\ out_username r = Some "a"
    /\ out_phone_number r = Some "+12025550123"
    /\ out_profile_image_url r = Some "".
Proof.
  intros user_data user.
  refine (signup_round_trip Sample.runtime user_data user "a@b.com" Sample.world0
            UserRecords.sample_local_part eq_refl _).
  unfold same_profile, provider_names.
  repeat (apply Forall_cons_2; [vm_compute; reflexivity |]). apply Forall_nil_2.
Defined.

End Registration.

(** ** One user, seen by itself and by an administrator *)

Module Profiles.

Import Spec Words.
Local Open Scope list_scope.

Lemma get_current_user_run (rt : Runtime) (self : UserRepository) (token : string)
    (w : World) :
  let kw : gmap string PyVal := <["AccessToken" := VStr token]> ∅ in
  let w' := {| calls := calls w ++ [{| api := "get_user"; kwargs := kw |}];
               clock_reads := S (S (clock_reads w)) |} in
  get_current_user rt self token w
  = match get_user (client self) kw with
    | inl e => on_ClientError "get_current_user" e (called w "get_user" kw)
    | inr response =>
        let attrs := attrs_dict (default [] (gu_UserAttributes response)) in
        match EmailStr rt (default "" (attrs !! "email")) with
        | Some e =>
            (Return (VUser
               {| out_email := e;
                  out_username := current_user_username attrs;
                  out_phone_number := Some (default "" (attrs !! "phone_number"));
                  out_profile_image_url :=
                    Some (default "" (attrs !! "custom:profile_image_url"));
                  out_is_active := Some true;
                  out_email_verified := Some (email_verified_of attrs);
                  out_created_at := Some (utc_clock rt (clock_reads w));
                  out_updated_at := Some (utc_clock rt (S (clock_reads w))) |}), w')
        | None => (Raise (EValidation "email"), w')
        end
    end.
Proof.
  unfold get_current_user, try_except_ClientError, mbind, M_bind, invoke, utcnow,
    UserOut_init, called.
  destruct (get_user _ _) as [e | response]; cbn; [reflexivity |].
  now destruct (EmailStr rt _).
Qed.

Lemma get_by_username_run (rt : Runtime) (self : UserRepository) (username : string)
    (w : World) :
  let kw := get_by_username_params self username in
  let w1 := called w "admin_get_user" kw in
  get_by_username rt self username w
  = match admin_get_user (client self) kw with
    | inl e => on_ClientError "get_by_username" e w1
    | inr response =>
        match agu_Username response, agu_UserAttributes response with
        | None, _ => (Raise (EKeyError "Username"), w1)
        | Some _, None => (Raise (EKeyError "UserAttributes"), w1)
        | Some name, Some attributes =>
            match _map_user rt {| Username := Some name;
                                  Attributes := Some attributes;
                                  Enabled := Some (default true (agu_Enabled response)) |} w1 with
            | (Return user, w2) => (Return (VUser user), w2)
            | (Raise x, w2) => (Raise x, w2)
            end
        end
    end.
Proof.
  unfold get_by_username, try_except_ClientError, mbind, M_bind, invoke, getitem, called.
  fold (get_by_username_params self username).
  destruct (admin_get_user _ _) as [e | [[n|] [a|] en]]; try reflexivity.
  cbn. rewrite Mapper.map_user_run. cbn zeta. now destruct (EmailStr rt _).
Qed.

Lemma chain_ends_early (x : option string) (l i : string) :
  Str.truthy l = true -> x ||| Some l ||| Some i = x ||| Some l.
Proof.
  intros Hl. rewrite (Mapper.py_or_Some x l).
  destruct (Str.truthy (default "" x)) eqn:Hx; unfold py_or; now rewrite ?Hx, ?Hl.
Qed.

(** X13.  The record a user gets of itself and the record an administrator
    gets of it agree.  When the provider answers [get_user] and
    [admin_get_user] with the same attributes, [get_current_user] and
    [get_by_username] both reject an address [UserOut] rejects, or return
    records with the same address, user name, phone number, image and
    verification flag.  They differ in [is_active]: [get_by_username]
    reports what the provider says of the account, [get_current_user]
    reports [True] whatever it says. *)
Theorem current_user_agrees_with_lookup (rt : Runtime) (self : UserRepository)
    (token name : string) (gu : GetUserResponse) (agu : AdminGetUserResponse)
    (attributes : list Attribute) (w1 w2 : World) :
  EmailStr_local_part rt ->
  get_user (client self) (<["AccessToken" := VStr token]> ∅) = inr gu ->
  admin_get_user (client self) (get_by_username_params self name) = inr agu ->
  gu_UserAttributes gu = Some attributes ->
  agu_UserAttributes agu = Some attributes ->
  is_Some (agu_Username agu) ->
  (fst (get_current_user rt self token w1) = Raise (EValidation "email")
   /\ fst (get_by_username rt self name w2) = Raise (EValidation "email"))
  \/ exists r1 r2,
       fst (get_current_user rt self token w1) = Return (VUser r1)
       /\ fst (get_by_username rt self name w2) = Return (VUser r2)
       /\ out_email r1 = out_email r2
       /\ out_username r1 = out_username r2
       /\ out_phone_number r1 = out_phone_number r2
       /\ out_profile_image_url r1 = out_profile_image_url r2
       /\ out_email_verified r1 = out_email_verified r2
       /\ out_is_active r1 = Some true
       /\ out_is_active r2 = Some (default true (agu_Enabled agu)).
Proof.
  intros Hlocal Hgu Hagu Ha1 Ha2 [n Hn].
  rewrite get_current_user_run, get_by_username_run, Hgu, Hagu, Ha1, Ha2, Hn.
  cbn zeta. rewrite Mapper.map_user_run. cbn zeta. cbn [Attributes Username Enabled default from_option id].
  destruct (EmailStr rt _) as [e|] eqn:He; [right | left; now split].
  eexists _, _. split; [reflexivity |]. split; [reflexivity |].
  cbn [out_email out_username out_phone_number out_profile_image_url out_email_verified
       out_is_active].
  split_and!; try reflexivity.
  unfold current_user_username, map_user_username. symmetry. apply chain_ends_early.
  specialize (Hlocal _ _ He).
  now destruct (Str.item0 _).
Qed.

(** a disabled account is active in its own eyes *)
Lemma current_user_agrees_with_lookup_witness :
  exists r1 r2,
    fst (get_current_user Sample.runtime Sample2.suspended_repo "token" Sample.world0)
    = Return (VUser r1)
    /\ fst (get_by_username Sample.runtime Sample2.suspended_repo "3f1c-uuid" Sample.world0)
       = Return (VUser r2)
    /\ out_username r1 = out_username r2
    /\ out_is_active r1 = Some true
    /\ out_is_active r2 = Some false.
Proof.
  destruct (current_user_agrees_with_lookup Sample.runtime Sample2.suspended_repo
              "token" "3f1c-uuid" _ _ _ Sample.world0 Sample.world0
              UserRecords.sample_local_part eq_refl eq_refl eq_refl eq_refl
              (ex_intro _ _ eq_refl))
    as [[H _] | (r1 & r2 & H1 & H2 & _ & Hu & _ & _ & _ & Ha1 & Ha2)].
  - vm_compute in H. discriminate H.
  - exists r1, r2. split_and!; assumption.
Defined.

End Profiles.

(** ** The test of the connection *)

Module Connection.

Import Spec Words.
Local Open Scope list_scope.

Lemma has_admin_no_srp_elem (auth_flows : list string) :
  user_repository.has_admin_no_srp auth_flows = true <-> "ADMIN_NO_SRP_AUTH" ∈ auth_flows.
Proof.
  unfold user_repository.has_admin_no_srp. rewrite existsb_exists. split.
  - intros (x & Hin & Hx). apply String.eqb_eq in Hx. subst x.
    now apply list_elem_of_In.
  - intros H. exists "ADMIN_NO_SRP_AUTH". split; [now apply list_elem_of_In | reflexivity].
Qed.

Lemma test_connection_run (lib : Libraries) (self : UserRepository)
    (idp : cognito_idp.methods) (w : World) :
  let pool_kw : gmap string PyVal := <["UserPoolId" := VStr (user_pool_id self)]> ∅ in
  let w1 := called w "describe_user_pool" pool_kw in
  let w2 := called w1 "describe_user_pool_client"
              (user_repository.describe_client_params self) in
  let failed (e : ClientError) : PyVal :=
    VDict (<["code" := VStr (Code e)]>
          (<["message" := VStr (str_ClientError lib e)]>
          (<["status" := VStr "error"]> ∅))) in
  user_repository.test_connection lib self idp w
  = match cognito_idp.describe_user_pool idp pool_kw with
    | inl e => (Return (failed e), w1)
    | inr pool_info =>
        match UserPool pool_info with
        | None => (Raise (EKeyError "UserPool"), w1)
        | Some user_pool =>
            match pool_Name user_pool with
            | None => (Raise (EKeyError "Name"), w1)
            | Some pool_name =>
                match cognito_idp.describe_user_pool_client idp
                        (user_repository.describe_client_params self) with
                | inl e => (Return (failed e), w2)
                | inr client_info =>
                    match UserPoolClient client_info with
                    | None => (Raise (EKeyError "UserPoolClient"), w2)
                    | Some pool_client =>
                        match ClientName pool_client with
                        | None => (Raise (EKeyError "ClientName"), w2)
                        | Some client_name =>
                            let auth_flows := default [] (ExplicitAuthFlows pool_client) in
                            (Return (
                               if user_repository.has_admin_no_srp auth_flows
                               then VDict (
                                      <["auth_flows" := VList (VStr <$> auth_flows)]>
                                     (<["app_client" := VStr client_name]>
                                     (<["user_pool" := VStr pool_name]>
                                     (<["message" := VStr "Cognito connection successful"]>
                                     (<["status" := VStr "success"]> ∅)))))
                               else VDict (
                                      <["required_action" :=
                                          VStr "Enable ALLOW_ADMIN_USER_PASSWORD_AUTH in Cognito app client settings"]>
                                     (<["message" := VStr "ADMIN_NO_SRP_AUTH not enabled in app client"]>
                                     (<["status" := VStr "error"]> ∅)))), w2)
                        end
                    end
                end
            end
        end
    end.
Proof.
  unfold user_repository.test_connection, try_except_ClientError, mbind, M_bind, invoke,
    getitem, called.
  destruct (cognito_idp.describe_user_pool idp _) as [e | [[[[n|]]|]]]; try reflexivity.
  cbn.
  destruct (cognito_idp.describe_user_pool_client idp _) as [e | [[[[c|] f]|]]];
    try reflexivity.
  cbn -[user_repository.has_admin_no_srp].
  now destruct (user_repository.has_admin_no_srp _).
Qed.

(** X14.  [test_connection] reports a failure of the provider, it does not
    raise it: the result is a dict of status [error] with the text of the
    error and the code of the provider as it came, not the status of the
    table, and no [AppException] leaves the method.  It asks for the
    application client only once the pool was found, so a failure of the
    first call leaves one call in the world and an answer leaves two.  An
    answer without the name of the pool ends in a [KeyError] before the
    second call.  When both calls are answered with their names, the
    status is [success] exactly when [ADMIN_NO_SRP_AUTH] is among the
    explicit flows of the client, and [error] otherwise, also for a
    client that lists no flows. *)
Theorem test_connection_reports (lib : Libraries) (self : UserRepository)
    (idp : cognito_idp.methods) (w : World) :
  let pool_kw : gmap string PyVal := <["UserPoolId" := VStr (user_pool_id self)]> ∅ in
  let client_kw := user_repository.describe_client_params self in
  let o := user_repository.test_connection lib self idp w in
  let failed (e : ClientError) : PyVal :=
    VDict (<["code" := VStr (Code e)]>
          (<["message" := VStr (str_ClientError lib e)]>
          (<["status" := VStr "error"]> ∅))) in
  (forall a, fst o <> Raise (EApp a))
  /\ (forall e,
         cognito_idp.describe_user_pool idp pool_kw = inl e ->
         o = (Return (failed e), called w "describe_user_pool" pool_kw))
  /\ (forall pool_info,
         cognito_idp.describe_user_pool idp pool_kw = inr pool_info ->
         UserPool pool_info ≫= pool_Name = None ->
         (exists key, fst o = Raise (EKeyError key))
         /\ snd o = called w "describe_user_pool" pool_kw)
  /\ (forall pool_info pool_name,
         cognito_idp.describe_user_pool idp pool_kw = inr pool_info ->
         UserPool pool_info ≫= pool_Name = Some pool_name ->
         snd o = called (called w "describe_user_pool" pool_kw)
                   "describe_user_pool_client" client_kw
         /\ (forall e,
                cognito_idp.describe_user_pool_client idp client_kw = inl e ->
                fst o = Return (failed e))
         /\ (forall client_info pool_client client_name,
                cognito_idp.describe_user_pool_client idp client_kw = inr client_info ->
                UserPoolClient client_info = Some pool_client ->
                ClientName pool_client = Some client_name ->
                exists d,
                  fst o = Return (VDict d)
                  /\ (d !! "status" = Some (VStr "success")
                      <-> "ADMIN_NO_SRP_AUTH" ∈ default [] (ExplicitAuthFlows pool_client))
                  /\ (d !! "status" = Some (VStr "error")
                      <-> "ADMIN_NO_SRP_AUTH" ∉ default [] (ExplicitAuthFlows pool_client)))).
Proof.
  cbn zeta. rewrite test_connection_run. cbn zeta. split_and!.
  - intros a.
    destruct (cognito_idp.describe_user_pool idp _) as [e | [[[[n|]]|]]]; try discriminate.
    destruct (cognito_idp.describe_user_pool_client idp _) as [e | [[[[c|] f]|]]];
      discriminate.
  - intros e ->. reflexivity.
  - intros pool_info -> Hn.
    destruct (UserPool pool_info) as [[[n|]]|]; try discriminate Hn;
      (split; [eexists; reflexivity | reflexivity]).
  - intros pool_info pool_name -> Hn.
    destruct (UserPool pool_info) as [[[n|]]|]; try discriminate Hn.
    split_and!.
    + destruct (cognito_idp.describe_user_pool_client idp _) as [e | [[[[c|] f]|]]];
        reflexivity.
    + intros e ->. reflexivity.
    + intros client_info pool_client client_name -> -> ->.
      pose proof (has_admin_no_srp_elem (default [] (ExplicitAuthFlows pool_client)))
        as Helem.
      destruct (user_repository.has_admin_no_srp _); eexists;
        (split; [reflexivity |]); split; split; intros H;
        try reflexivity; try discriminate H.
      * now apply Helem.
      * exfalso. apply H. now apply Helem.
      * apply Helem in H. discriminate H.
      * intros Hin. apply Helem in Hin. discriminate Hin.
Qed.

(** An application client set up as the report asks, with the flow
    [ALLOW_ADMIN_USER_PASSWORD_AUTH], still fails the test: the test looks
    for the older name of the flow. *)
Example test_connection_new_name_of_the_flow :
  let idp :=
    {| cognito_idp.confirm_sign_up := cognito_idp.confirm_sign_up Sample2.idp;
       cognito_idp.resend_confirmation_code :=
         cognito_idp.resend_confirmation_code Sample2.idp;
       cognito_idp.global_sign_out := cognito_idp.global_sign_out Sample2.idp;
       cognito_idp.forgot_password := cognito_idp.forgot_password Sample2.idp;
       cognito_idp.confirm_forgot_password :=
         cognito_idp.confirm_forgot_password Sample2.idp;
       cognito_idp.admin_delete_user := cognito_idp.admin_delete_user Sample2.idp;
       cognito_idp.describe_user_pool := cognito_idp.describe_user_pool Sample2.idp;
       cognito_idp.describe_user_pool_client := fun _ =>
         inr {| UserPoolClient :=
                  Some {| ClientName := Some "web";
                          ExplicitAuthFlows := Some ["ALLOW_ADMIN_USER_PASSWORD_AUTH";
                                                     "ALLOW_REFRESH_TOKEN_AUTH"] |} |} |} in
  fst (user_repository.test_connection Sample2.lib (Sample.repo None) idp Sample.world0)
  = Return (VDict (
      <["required_action" :=
          VStr "Enable ALLOW_ADMIN_USER_PASSWORD_AUTH in Cognito app client settings"]>
     (<["message" := VStr "ADMIN_NO_SRP_AUTH not enabled in app client"]>
     (<["status" := VStr "error"]> ∅))))
  /\ exists d,
       fst (user_repository.test_connection Sample2.lib (Sample.repo None) Sample2.idp
              Sample.world0) = Return (VDict d)
       /\ d !! "status" = Some (VStr "success").
Proof. split; [reflexivity |]. eexists. split; reflexivity. Qed.

End Connection.

(** ** The route [logout] and the token of its header *)

Module SignOut.

Import Spec Words.
Local Open Scope list_scope.

Lemma prefix_append (old s : string) :
  String.prefix old s = true <-> exists b : string, s = (old ++ b)%string.
Proof.
  revert s. induction old as [|c old IH]; intros s.
  - split; [intros _; now exists s | intros _; now destruct s].
  - destruct s as [|d s]; cbn [String.prefix];
      [split; [discriminate | intros [b Hb]; discriminate Hb] |].
    destruct (Ascii.ascii_dec c d) as [-> | Hne].
    + rewrite IH. split; intros [b Hb]; exists b.
      * cbn. now rewrite Hb.
      * cbn in Hb. now inversion Hb.
    + split; [discriminate |]. intros [b Hb]. cbn in Hb. inversion Hb. congruence.
Qed.

Lemma occurs_tail (old : string) (c : ascii) (s : string) :
  occurs old s -> occurs old (String c s).
Proof. intros (a & b & ->). now exists (String c a), b. Qed.

Lemma replace_from_skip (old new a t : string) :
  PyStr.replace_from old new (String.length a) (a ++ t)%string
  = PyStr.replace_from old new 0 t.
Proof.
  induction a as [|c a IH]; cbn [String.length String.append PyStr.replace_from].
  - now destruct t.
  - exact IH.
Qed.

Lemma replace_absent (old new s : string) :
  ~ occurs old s -> PyStr.replace old new s = s.
Proof.
  unfold PyStr.replace. induction s as [|c s IH]; intros Hn; cbn [PyStr.replace_from].
  - reflexivity.
  - destruct (String.prefix old (String c s)) eqn:Hp.
    + exfalso. apply Hn. apply prefix_append in Hp as [b ->]. now exists ""%string, b.
    + rewrite IH; [reflexivity |]. intros H. apply Hn. now apply occurs_tail.
Qed.

Lemma replace_occurrence (old new t : string) :
  old <> ""%string ->
  PyStr.replace old new (old ++ t) = (new ++ PyStr.replace old new t)%string.
Proof.
  intros Hne. unfold PyStr.replace. destruct old as [|c old]; [contradiction |].
  change (String c old ++ t)%string with (String c (old ++ t)).
  cbn [PyStr.replace_from].
  assert (Hp : String.prefix (String c old) (String c (old ++ t)) = true).
  { apply prefix_append. now exists t. }
  rewrite Hp. cbn [String.length]. rewrite Nat.sub_1_r. cbn [Nat.pred].
  now rewrite replace_from_skip.
Qed.

Lemma logout_run (rt : Runtime) (lib : Libraries) (user_repo : UserRepository)
    (idp : cognito_idp.methods) (header : string) (w : World) :
  let kw : gmap string PyVal :=
    <["AccessToken" := VStr (PyStr.replace "Bearer " "" header)]> ∅ in
  serve rt lib user_repo idp (POST_logout (Some header)) w
  = match cognito_idp.global_sign_out idp kw with
    | inl e =>
        match on_ClientError "logout" e (called w "global_sign_out" kw) with
        | (Raise (EApp exc), w') => (app_exception_handler exc, w')
        | (_, w') => (general_exception_handler, w')
        end
    | inr _ =>
        (JsonResponse_any rt VNone (VStr "User logged out successfully") 200,
         called w "global_sign_out" kw)
    end.
Proof.
  cbn zeta. unfold serve, app, route_of, routes.logout, required_header.
  unfold mbind at 1, H_bind at 1, mret at 1, H_ret at 1.
  unfold mbind at 1, H_bind at 1, lift.
  unfold user_repository.logout. rewrite Accounts.one_call_run.
  destruct (cognito_idp.global_sign_out idp _) as [e | r].
  - destruct (Run.on_ClientError_raises "logout" e
                (called w "global_sign_out"
                   (<["AccessToken" := VStr (PyStr.replace "Bearer " "" header)]> ∅)))
      as [x ->].
    reflexivity.
  - reflexivity.
Qed.

(** X15.  The route [logout] answers a request without the header
    [Authorization] with the validation error of FastAPI, and calls
    nothing.  With the header it makes one call, [global_sign_out], on the
    header after [replace("Bearer ", "")], and on the provider's answer
    responds 200 with the message of the repository and no data.  The
    token of a header [Bearer <token>] is the token, and a header that
    never holds the scheme is taken for the token as it is; the scheme is
    taken out of the rest of the header as well. *)
Theorem logout_route_token (rt : Runtime) (lib : Libraries) (user_repo : UserRepository)
    (idp : cognito_idp.methods) (w : World) :
  serve rt lib user_repo idp (POST_logout None) w
  = (request_validation_handler lib "Authorization", w)
  /\ (forall header,
         snd (serve rt lib user_repo idp (POST_logout (Some header)) w)
         = called w "global_sign_out"
             (<["AccessToken" := VStr (PyStr.replace "Bearer " "" header)]> ∅))
  /\ (forall header r,
         cognito_idp.global_sign_out idp
           (<["AccessToken" := VStr (PyStr.replace "Bearer " "" header)]> ∅) = inr r ->
         fst (serve rt lib user_repo idp (POST_logout (Some header)) w)
         = {| response_status_code := 200;
              content := <["data" := jsonable_encoder rt VNone]>
                        (<["message" := VStr "User logged out successfully"]>
                        (<["status" := VStr "success"]> ∅)) |})
  /\ (forall token,
         ~ occurs "Bearer " token ->
         PyStr.replace "Bearer " "" ("Bearer " ++ token) = token
         /\ PyStr.replace "Bearer " "" token = token)
  /\ (forall rest,
         PyStr.replace "Bearer " "" ("Bearer " ++ rest)
         = PyStr.replace "Bearer " "" rest).
Proof.
  split_and!.
  - reflexivity.
  - intros header. rewrite logout_run. cbn zeta.
    destruct (cognito_idp.global_sign_out idp _) as [e | r]; [| reflexivity].
    now destruct (Run.on_ClientError_raises "logout" e
                    (called w "global_sign_out"
                       (<["AccessToken" := VStr (PyStr.replace "Bearer " "" header)]> ∅)))
      as [x ->].
  - intros header r Hr. rewrite logout_run. cbn zeta. now rewrite Hr.
  - intros token Hn. rewrite replace_occurrence by discriminate.
    now rewrite (replace_absent _ _ _ Hn).
  - intros rest. now rewrite replace_occurrence by discriminate.
Qed.

(** The scheme is taken out wherever it stands, and as often as it does;
    a header without it is the token. *)
Example logout_route_tokens :
  PyStr.replace "Bearer " "" "Bearer abc.def" = "abc.def"
  /\ PyStr.replace "Bearer " "" "Bearer Bearer abc" = "abc"
  /\ PyStr.replace "Bearer " "" "abc Bearer def" = "abc def"
  /\ PyStr.replace "Bearer " "" "abc.def" = "abc.def"
  /\ PyStr.replace "Bearer " "" "bearer abc" = "bearer abc"
  /\ PyStr.replace "aa" "b" "aaa" = "ba".
Proof. repeat split. Qed.

End SignOut.

(** ** The bodies of the requests *)

Module Bodies.

Import Spec Words.
Local Open Scope list_scope.

Lemma table_status_failure (code : string) : table_status code ∈ failure_statuses.
Proof.
  unfold table_status, failure_statuses.
  cbv [mapping_table provider_code find fst snd String.append].
  repeat (Run.case_code; [apply (bool_decide_unpack _); vm_compute; exact I |]).
  apply (bool_decide_unpack _); vm_compute; exact I.
Qed.

Lemma table_status_not_422 (code : string) : table_status code <> 422.
Proof.
  pose proof (table_status_failure code) as H. intros Heq. rewrite Heq in H.
  revert H. apply (bool_decide_unpack _). vm_compute. exact I.
Qed.


Lemma default_factory_run (rt : Runtime) (f : Field datetime) (w : World) :
  exists t w', schemas.default_factory rt f w = (Return t, w') /\ calls w' = calls w.
Proof. destruct f as [|t]; eexists _, _; split; reflexivity. Qed.

Lemma UserCreate_init_run (rt : Runtime) (body : schemas.UserCreate_fields) (w : World) :
  exists created_at updated_at w',
    calls w' = calls w
    /\ schemas.UserCreate_init rt body w
       = (match schemas.UserCreate_error rt body with
          | Some field => Raise (EValidation field)
          | None =>
              Return
                {| uc_email :=
                     default "" (schemas.required (schemas.f_email body) ≫= EmailStr rt);
                   uc_username := schemas.optional None (schemas.f_username body);
                   uc_password := default "" (schemas.required (schemas.f_password body));
                   uc_phone_number := schemas.optional None (schemas.f_phone_number body);
                   uc_profile_image_url :=
                     schemas.optional (Some "") (schemas.f_profile_image_url body);
                   uc_created_at := created_at;
                   uc_updated_at := updated_at |}
          end, w').
Proof.
  unfold schemas.UserCreate_init, mbind at 1, M_bind at 1.
  destruct (default_factory_run rt (schemas.f_created_at body) w) as (c & w1 & -> & H1).
  unfold mbind at 1, M_bind at 1.
  destruct (default_factory_run rt (schemas.f_updated_at body) w1) as (u & w2 & -> & H2).
  exists c, u, w2. split; [congruence |].
  now destruct (schemas.UserCreate_error rt body).
Qed.




Lemma UserLogin_init_run (rt : Runtime) (body : schemas.UserLogin_fields) (w : World) :
  (acceptable_login rt body
   /\ exists s e p,
        schemas.l_email body = IsSet (Some s) /\ EmailStr rt s = Some e
        /\ schemas.l_password body = IsSet (Some p)
        /\ schemas.UserLogin_init rt body w
           = (Return {| ul_email := e; ul_password := p |}, w))
  \/ (~ acceptable_login rt body
      /\ exists field, schemas.UserLogin_init rt body w = (Raise (EValidation field), w)).
Proof.
  unfold schemas.UserLogin_init, acceptable_login, at_least, schemas.min_length.
  destruct (schemas.l_email body) as [|[s|]]; cbn [schemas.required mbind option_bind].
  1, 3: right; split; [intros [(s' & Hs & _) _]; discriminate Hs | eexists; reflexivity].
  destruct (EmailStr rt s) as [e|] eqn:He.
  2: { right. split; [| eexists; reflexivity].
       intros [(s' & Hs & [e' He']) _]. inversion Hs; subst. congruence. }
  destruct (schemas.l_password body) as [|[p|]]; cbn [schemas.required].
  1, 3: right; split; [intros (_ & (p' & Hp & _)); discriminate Hp | eexists; reflexivity].
  destruct (6 <=? PyStr.len p)%nat eqn:Hlen.
  - apply Nat.leb_le in Hlen. left. split.
    + split; [exists s; split; [reflexivity | now exists e] | now exists p].
    + now exists s, e, p.
  - apply Nat.leb_gt in Hlen. right. split; [| eexists; reflexivity].
    intros (_ & (p' & Hp & Hl)). inversion Hp; subst. lia.
Qed.

Lemma with_body_valid {B A} (lib : Libraries) (init : B -> M A)
    (route : A -> H JSONResponse) (body : B) (a : A) (w w' : World) :
  init body w = (Return a, w') ->
  app lib (with_body init route body) w = app lib (route a) w'.
Proof. intros Hi. unfold app, with_body. now rewrite Hi. Qed.

Lemma with_body_invalid {B A} (lib : Libraries) (init : B -> M A)
    (route : A -> H JSONResponse) (body : B) (field : string) (w w' : World) :
  init body w = (Raise (EValidation field), w') ->
  app lib (with_body init route body) w = (request_validation_handler lib field, w').
Proof. intros Hi. unfold app, with_body. now rewrite Hi. Qed.

Lemma login_route_run (rt : Runtime) (lib : Libraries) (user_repo : UserRepository)
    (user : UserLogin) (w : World) :
  let kw := login_params user_repo (ul_email user) (ul_password user) in
  let w1 := called w "admin_initiate_auth" kw in
  app lib (routes.login rt user_repo user) w
  = match admin_initiate_auth (client user_repo) kw with
    | inl error =>
        match on_ClientError "login" error w1 with
        | (Raise (EApp exc), w') => (app_exception_handler exc, w')
        | (_, w') => (general_exception_handler, w')
        end
    | inr response =>
        (match AuthenticationResult response with
         | None => general_exception_handler
         | Some t =>
             match missing_tokens t with
             | _ :: _ => general_exception_handler
             | [] =>
                 {| response_status_code := 200;
                    content :=
                      <["data" :=
                          jsonable_encoder rt (VDict (
                            <["expires_in" := VInt (default 0 (ExpiresIn t))]>
                           (<["token_type" := VStr (default "" (TokenType t))]>
                           (<["id_token" := VStr (default "" (IdToken t))]>
                           (<["refresh_token" := VStr (default "" (RefreshToken t))]>
                           (<["access_token" := VStr (default "" (AccessToken t))]>
                           (<["status" := VStr "SUCCESS"]> ∅)))))))]>
                     (<["message" := VStr "Login successful"]>
                     (<["status" := VStr "success"]> ∅)) |}
             end
         end, w1)
    end.
Proof.
  cbn zeta. unfold app, routes.login, mbind at 1, H_bind at 1, lift.
  rewrite Tokens.login_run. cbn zeta.
  destruct (admin_initiate_auth _ _) as [error | response].
  - destruct (Run.on_ClientError_raises "login" error
                (called w "admin_initiate_auth"
                   (login_params user_repo (ul_email user) (ul_password user))))
      as [x ->].
    reflexivity.
  - destruct (AuthenticationResult response) as [t|]; [| reflexivity].
    now destruct (missing_tokens t).
Qed.

(** X17.  The application answers [POST /users/login] with 422, and leaves
    the world as it was, exactly when the body has no address that
    [EmailStr] accepts or no password of six characters or more.
    Otherwise it calls [admin_initiate_auth] once.  A failure of the
    provider is answered with the status the table gives its code, in the
    envelope of the errors.  An answer that holds all five tokens is
    answered 200 with the message [Login successful] and the result of
    [login] as data; an answer that lacks one, as the answer to a challenge
    does, is answered 500 by the handler of the exceptions left. *)
Theorem login_route_answers (rt : Runtime) (lib : Libraries)
    (user_repo : UserRepository) (idp : cognito_idp.methods)
    (body : schemas.UserLogin_fields) (w : World) :
  let answer := serve rt lib user_repo idp (POST_login body) w in
  (response_status_code (fst answer) = 422 <-> ~ acceptable_login rt body)
  /\ (~ acceptable_login rt body -> snd answer = w)
  /\ (acceptable_login rt body ->
      exists s e p,
        schemas.l_email body = IsSet (Some s) /\ EmailStr rt s = Some e
        /\ schemas.l_password body = IsSet (Some p)
        /\ snd answer = called w "admin_initiate_auth" (login_params user_repo e p)
        /\ match admin_initiate_auth (client user_repo) (login_params user_repo e p) with
           | inl error =>
               exists msg,
                 fst answer
                 = {| response_status_code := table_status (Code error);
                      content := <["message" := VStr msg]> (<["status" := VStr "error"]> ∅) |}
           | inr response =>
               match AuthenticationResult response with
               | None => fst answer = general_exception_handler
               | Some t =>
                   match missing_tokens t with
                   | _ :: _ => fst answer = general_exception_handler
                   | [] =>
                       exists tokens,
                         fst (login user_repo e p w) = Return tokens
                         /\ fst answer
                            = {| response_status_code := 200;
                                 content :=
                                   <["data" := jsonable_encoder rt tokens]>
                                  (<["message" := VStr "Login successful"]>
                                  (<["status" := VStr "success"]> ∅)) |}
                   end
               end
           end).
Proof.
  intros answer. subst answer. unfold serve, route_of.
  destruct (UserLogin_init_run rt body w)
    as [(Hyes & s & e & p & Hs & He & Hp & Hinit) | (Hno & field & Hinit)].
  2: { rewrite (with_body_invalid _ _ _ _ _ _ _ Hinit). cbn [fst snd].
       split_and!; [split; [intros _; exact Hno | reflexivity] | reflexivity |].
       intros H. contradiction. }
  rewrite (with_body_valid _ _ _ _ _ _ _ Hinit), login_route_run.
  cbn [ul_email ul_password]. cbn zeta.
  destruct (admin_initiate_auth _ _) as [error | response] eqn:Hcall.
  - destruct (Run.on_ClientError_status "login" error
                (called w "admin_initiate_auth" (login_params user_repo e p)))
      as [msg ->].
    cbn [fst snd response_status_code app_exception_handler status_code message].
    split_and!.
    + split; [intros H; now apply table_status_not_422 in H | intros H; contradiction].
    + intros H. contradiction.
    + intros _. exists s, e, p. rewrite Hcall, ?Ht, ?Hm. split_and!; try reflexivity; try assumption.
      now exists msg.
  - cbn [fst snd].
    assert (H422 : forall r : JSONResponse,
               response_status_code r <> 422 ->
               (response_status_code r = 422 <-> ~ acceptable_login rt body)).
    { intros r Hr. split; [intros H; contradiction | intros H; contradiction]. }
    destruct (AuthenticationResult response) as [t|] eqn:Ht.
    2: { split_and!; [apply H422; discriminate | intros H; contradiction |].
         intros _. exists s, e, p. rewrite Hcall, ?Ht, ?Hm. now split_and!. }
    destruct (missing_tokens t) as [|key rest] eqn:Hm.
    2: { split_and!; [apply H422; discriminate | intros H; contradiction |].
         intros _. exists s, e, p. rewrite Hcall, ?Ht, ?Hm. now split_and!. }
    split_and!; [apply H422; discriminate | intros H; contradiction |].
    intros _. exists s, e, p. rewrite Hcall, ?Ht, ?Hm. split_and!; try reflexivity; try assumption.
    rewrite Tokens.login_run, Hcall, Ht, Hm. cbn zeta.
    eexists. split; reflexivity.
Qed.

Lemma UserUpdate_init_eq (rt : Runtime) (body : UserUpdate) (w : World) :
  exists w',
    calls w' = calls w
    /\ schemas.UserUpdate_init rt body w
       = (match schemas.optional_email rt (uu_email body) with
          | None => Raise (EValidation "email")
          | Some email =>
              if schemas.max_length 15 (schemas.optional None (uu_phone_number body))
              then Return {| uu_username := uu_username body; uu_email := email;
                             uu_phone_number := uu_phone_number body;
                             uu_profile_image_url := uu_profile_image_url body;
                             uu_updated_at := uu_updated_at body |}
              else Raise (EValidation "phone_number")
          end, w').
Proof.
  unfold schemas.UserUpdate_init, mbind at 1, M_bind at 1.
  destruct (default_factory_run rt (uu_updated_at body) w) as (t & w1 & -> & H1).
  exists w1. split; [exact H1 |].
  destruct (schemas.optional_email rt (uu_email body)); [| reflexivity].
  now destruct (schemas.max_length 15 _).
Qed.

(** the request [UserUpdate] makes of a body it accepts: the body, with the
    address [EmailStr] makes of its address *)
Lemma UserUpdate_init_run (rt : Runtime) (body : UserUpdate) (w : World) :
  exists w',
    calls w' = calls w
    /\ ((acceptable_update rt body
         /\ schemas.UserUpdate_init rt body w
            = (Return {| uu_username := uu_username body;
                         uu_email := match uu_email body with
                                     | IsSet (Some s) => IsSet (EmailStr rt s)
                                     | f => f
                                     end;
                         uu_phone_number := uu_phone_number body;
                         uu_profile_image_url := uu_profile_image_url body;
                         uu_updated_at := uu_updated_at body |}, w'))
        \/ (~ acceptable_update rt body
            /\ exists field,
                 schemas.UserUpdate_init rt body w = (Raise (EValidation field), w'))).
Proof.
  destruct (UserUpdate_init_eq rt body w) as (w1 & H1 & Hinit).
  exists w1. split; [exact H1 |]. rewrite Hinit. clear Hinit.
  unfold acceptable_update, at_most, schemas.optional_email, schemas.max_length.
  destruct (uu_email body) as [|[s|]] eqn:Hs.
  2: destruct (EmailStr rt s) as [e|] eqn:He; cbn [fmap option_fmap option_map].
  3: { right. split; [| eexists; reflexivity].
       intros [Hm _]. destruct (Hm s eq_refl) as [e' He']. congruence. }
  all: destruct (schemas.optional None (uu_phone_number body)) as [ph|];
    [destruct (PyStr.len ph <=? 15)%nat eqn:Hph;
     [apply Nat.leb_le in Hph | apply Nat.leb_gt in Hph] |].
  all: try (right; split; [| eexists; reflexivity];
            intros [_ Hm]; specialize (Hm ph eq_refl); lia).
  all: left; split; [| reflexivity]; split;
    [ intros s' Hs'; try discriminate Hs'; inversion Hs'; subst; unfold is_Some; eauto
    | intros x Hx; try discriminate Hx; inversion Hx; subst; exact Hph ].
Qed.





(** Characters are counted, not bytes: three [é] are six bytes and too
    short a password, six are a password. *)
Example password_of_six_characters :
  let three := (Sample2.e_acute ++ Sample2.e_acute ++ Sample2.e_acute)%string in
  String.length three = 6%nat
  /\ schemas.min_length 6 three = false
  /\ schemas.min_length 6 (three ++ three)%string = true
  /\ schemas.min_length 6 "12345" = false
  /\ schemas.min_length 6 "123456" = true
  /\ schemas.max_length 15 (Some "+12025550123") = true
  /\ schemas.max_length 15 (Some "+1202555012345678") = false
  /\ schemas.max_length 15 None = true.
Proof. repeat split. Qed.

End Bodies.

(** ** The answers of the application *)

Module Application.

Import Spec Words.
Local Open Scope list_scope.

(** *** How the methods of the repository end *)

Lemma try_regular (context : string) (body : M PyVal) (w : World) :
  match fst (body w) with
  | Raise (EApp _) => False
  | Raise (ERequestValidation _) => False
  | _ => True
  end ->
  regular (fst (try_except_ClientError body (on_ClientError context) w)).
Proof.
  unfold try_except_ClientError.
  destruct (body w) as [[a|[a|e|k|f|p]] w1]; cbn [fst]; try contradiction;
    intros _; try exact I.
  destruct (Run.on_ClientError_status context e w1) as [msg ->]. cbn.
  apply Bodies.table_status_failure.
Qed.

Lemma one_call_regular {R} (context name : string)
    (method : gmap string PyVal -> ClientError + R) (kw : gmap string PyVal)
    (result : R -> PyVal) (w : World) :
  regular (fst (try_except_ClientError (r ← invoke name method kw; mret (result r))
                  (on_ClientError context) w)).
Proof.
  apply try_regular. unfold mbind, M_bind, invoke. now destruct (method kw).
Qed.

Lemma login_regular (self : UserRepository) (username password : string) (w : World) :
  regular (fst (login self username password w)).
Proof.
  apply try_regular. unfold mbind, M_bind, invoke, getitem.
  destruct (admin_initiate_auth _ _) as [e | [[[[a|] [r|] [i|] [t|] [x|]]|]]]; exact I.
Qed.

Lemma get_by_username_regular (rt : Runtime) (self : UserRepository) (username : string)
    (w : World) :
  regular (fst (get_by_username rt self username w)).
Proof.
  apply try_regular. unfold mbind, M_bind, invoke, getitem.
  destruct (admin_get_user _ _) as [e | [[n|] [a|] en]]; try exact I.
  cbn. rewrite Mapper.map_user_run. cbn zeta. now destruct (EmailStr rt _).
Qed.

Lemma comprehension_map_user_ends (rt : Runtime) (l : list CognitoUser) (w : World) :
  match fst (comprehension (_map_user rt) l w) with
  | Return _ => True
  | Raise (EValidation _) => True
  | _ => False
  end.
Proof.
  revert w. induction l as [|user l IH]; intros w; cbn [comprehension]; [exact I |].
  unfold mbind, M_bind. rewrite Mapper.map_user_run. cbn zeta.
  destruct (EmailStr rt _); [| exact I].
  specialize (IH {| calls := calls w; clock_reads := S (S (clock_reads w)) |}).
  now destruct (comprehension _ l _) as [[users|[| | | |]] w2].
Qed.

Lemma get_all_regular (rt : Runtime) (self : UserRepository) (limit : Z)
    (token : option string) (w : World) :
  regular (fst (get_all rt self limit token w)).
Proof.
  apply try_regular. unfold mbind, M_bind, invoke.
  destruct (list_users _ _) as [e | response]; [exact I |].
  match goal with
  | |- context [comprehension _ ?l ?w1] =>
      pose proof (comprehension_map_user_ends rt l w1) as H;
      destruct (comprehension _ l w1) as [[users|[| | | |]] w2]
  end; cbn in *; tauto.
Qed.

Lemma update_regular (rt : Runtime) (self : UserRepository) (username : string)
    (u : UserUpdate) (w : World) :
  regular (fst (update rt self username u w)).
Proof.
  apply try_regular. destruct (update_attributes rt u) as [|a l]; [exact I |].
  unfold mbind, M_bind, invoke. now destruct (admin_update_user_attributes _ _).
Qed.

(** *** From the repository to the response *)

Lemma general_is_envelope (lib : Libraries) : envelope lib general_exception_handler.
Proof.
  right; left. split; [apply (bool_decide_unpack _); vm_compute; exact I |].
  now exists "Internal Server Error".
Qed.

Lemma answer_of_route {A} (lib : Libraries) (m : M A) (rest : A -> H JSONResponse)
    (w : World) :
  regular (fst (m w)) ->
  (forall a w', m w = (Return a, w') -> finishes (rest a)) ->
  envelope lib (fst (app lib (lift m ≫= rest) w))
  /\ response_status_code (fst (app lib (lift m ≫= rest) w)) <> 422
  /\ snd (app lib (lift m ≫= rest) w) = snd (m w).
Proof.
  intros Hreg Hrest. unfold app, mbind, H_bind, lift.
  destruct (m w) as [[a|x] w1]; cbn [fst snd] in *.
  - destruct (Hrest a w1 eq_refl w1) as [Hw Hr].
    destruct (rest a w1) as [[f|r] w2]; cbn [fst snd] in *; subst w2.
    + destruct f as [[exc|e|k|f|p]| |]; try contradiction; cbn [fst snd];
        (split; [apply general_is_envelope | split; [discriminate | reflexivity]]).
    + destruct Hr as [H200 Hc]. cbn [fst snd].
      split; [left; now split | split; [now rewrite H200 | reflexivity]].
  - destruct x as [exc|e|k|f|p]; try contradiction; cbn [fst snd];
      try (split; [apply general_is_envelope | split; [discriminate | reflexivity]]).
    unfold regular in Hreg. split; [| split; [| reflexivity]].
    + right; left. split; [exact Hreg | now exists (message exc)].
    + cbn. intros H. rewrite H in Hreg. revert Hreg.
      apply (bool_decide_unpack _). vm_compute. exact I.
Qed.

Lemma JsonResponse_finishes (rt : Runtime) (data : PyVal) (msg : string) :
  finishes (mret (JsonResponse rt data msg 200)).
Proof. intros w. split; [reflexivity |]. split; [reflexivity |]. now eexists _, msg. Qed.

Lemma one_more_call (w w' : World) (c : Call) :
  calls w' = calls w ++ [c] -> at_most_one_call w w'.
Proof. intros H. exists [c]. split; [exact H | reflexivity]. Qed.

Lemma no_more_call (w w' : World) : calls w' = calls w -> at_most_one_call w w'.
Proof. intros H. exists []. split; [now rewrite app_nil_r | cbn; lia]. Qed.

Lemma validation_is_envelope (lib : Libraries) (param : string) :
  envelope lib (request_validation_handler lib param).
Proof. right; right. split; [reflexivity | now exists param]. Qed.

(** X19.  Whatever the request, the provider and the world, the
    application answers in one of three shapes: with status 200 and the
    envelope of [JsonResponse], of status [success], with a message and
    data; with a status among 400, 401, 403, 404, 409, 429 and 500 and
    the envelope of the exception handlers, of status [error], with a
    message and no data; or with 422 and the detail of FastAPI.  To answer
    it calls the provider once at most, and not at all when it answers
    422. *)
Theorem every_answer_is_an_envelope (rt : Runtime) (lib : Libraries)
    (user_repo : UserRepository) (idp : cognito_idp.methods) (request : Request)
    (w : World) :
  let answer := serve rt lib user_repo idp request w in
  envelope lib (fst answer)
  /\ at_most_one_call w (snd answer)
  /\ (response_status_code (fst answer) = 422 -> calls (snd answer) = calls w).
Proof.
  intros answer. subst answer. unfold serve.
  destruct request as [| limit token | username | body | username body | username
                       | email code | body | header]; cbn [route_of].
  - (* GET / *)
    split_and!; [left; split; [reflexivity | now eexists _, _]
                | now apply no_more_call | reflexivity].
  - (* GET /users/ *)
    assert (Hroute : forall n,
               envelope lib (fst (app lib (lift (get_all rt user_repo n token
                 ≫= fun users => mret (JsonResponse rt users "Users retrieved successfully" 200))) w))
               /\ at_most_one_call w (snd (app lib (lift (get_all rt user_repo n token
                 ≫= fun users => mret (JsonResponse rt users "Users retrieved successfully" 200))) w))
               /\ (response_status_code (fst (app lib (lift (get_all rt user_repo n token
                 ≫= fun users => mret (JsonResponse rt users "Users retrieved successfully" 200))) w)) = 422
                   -> calls (snd (app lib (lift (get_all rt user_repo n token
                 ≫= fun users => mret (JsonResponse rt users "Users retrieved successfully" 200))) w)) = calls w)).
    { intros n.
      destruct (answer_of_route lib (get_all rt user_repo n token)
                  (fun users => mret (JsonResponse rt users "Users retrieved successfully" 200))
                  w (get_all_regular rt user_repo n token w)
                  (fun a w' _ => JsonResponse_finishes rt a _)) as (He & H422 & Hw).
      assert (Heq : app lib (lift (get_all rt user_repo n token
                 ≫= fun users => mret (JsonResponse rt users "Users retrieved successfully" 200))) w
                    = app lib (lift (get_all rt user_repo n token)
                 ≫= fun users => mret (JsonResponse rt users "Users retrieved successfully" 200)) w).
      { unfold app, lift, mbind, M_bind, H_bind.
        now destruct (get_all rt user_repo n token w) as [[a|x] w1]. }
      rewrite Heq. split_and!; [exact He | | intros H; contradiction].
      rewrite Hw. eapply one_more_call, Listing.get_all_calls. }
    assert (Hgiven : forall n,
               app lib (lift (mret n ≫= fun limit => get_all rt user_repo limit token
                 ≫= fun users => mret (JsonResponse rt users "Users retrieved successfully" 200))) w
               = app lib (lift (get_all rt user_repo n token
                 ≫= fun users => mret (JsonResponse rt users "Users retrieved successfully" 200))) w).
    { intros n. unfold app, lift. unfold mbind at 1, M_bind at 1, mret at 1, M_ret at 1.
      reflexivity. }
    unfold user_router.list_users, resolve_query. cbn [le query_default].
    destruct limit as [v|]; [destruct (v <=? 60) |]; rewrite ?Hgiven.
    + exact (Hroute v).
    + unfold app, lift, mbind, M_bind, raise. cbn [fst snd].
      split_and!; [apply validation_is_envelope | now apply no_more_call | reflexivity].
    + exact (Hroute 20).
  - (* GET /users/{username} *)
    destruct (answer_of_route lib (get_by_username rt user_repo username)
                (fun user => mret (JsonResponse rt user "User retrieved successfully" 200))
                w (get_by_username_regular rt user_repo username w)
                (fun a w' _ => JsonResponse_finishes rt a _)) as (He & H422 & Hw).
    unfold routes.get_user. split_and!; [exact He | | intros H; contradiction].
    rewrite Hw. eapply one_more_call, Boundary.get_by_username_calls.
  - (* POST /users/create *)
    destruct (Bodies.UserCreate_init_run rt body w) as (c & u & w' & Hw' & Hinit).
    destruct (schemas.UserCreate_error rt body) as [field|].
    + rewrite (Bodies.with_body_invalid _ _ _ _ _ _ _ Hinit).
      split_and!; [apply validation_is_envelope | now apply no_more_call | intros _; exact Hw'].
    + rewrite (Bodies.with_body_valid _ _ _ _ _ _ _ Hinit).
      match type of Hinit with _ = (Return ?r, _) => set (user := r) in * end.
      destruct (answer_of_route lib (signup user_repo user)
                  (fun created => mret (JsonResponse rt created "User created successfully" 200))
                  w' (one_call_regular _ _ _ _ _ _)
                  (fun a w'' _ => JsonResponse_finishes rt a _)) as (He & H422 & Hw).
      unfold routes.create_user. split_and!; [exact He | | intros H; contradiction].
      rewrite Hw. eapply one_more_call. rewrite Boundary.signup_calls, Hw'. reflexivity.
  - (* PUT /users/update/{username} *)
    destruct (Bodies.UserUpdate_init_run rt body w)
      as (w' & Hw' & [[Hyes Hinit] | (Hno & field & Hinit)]).
    + rewrite (Bodies.with_body_valid _ _ _ _ _ _ _ Hinit).
      match type of Hinit with _ = (Return ?r, _) => set (user := r) in * end.
      destruct (answer_of_route lib (update rt user_repo username user)
                  (fun updated => mret (JsonResponse rt updated "User updated successfully" 200))
                  w' (update_regular rt user_repo username user w')
                  (fun a w'' _ => JsonResponse_finishes rt a _)) as (He & H422 & Hw).
      unfold routes.update_user. split_and!; [exact He | | intros H; contradiction].
      rewrite Hw, Updates.update_world. cbn [calls]. rewrite Hw'.
      unfold update_calls. destruct (update_attributes rt user) as [|a l].
      * apply no_more_call. cbn [calls]. now rewrite app_nil_r.
      * eapply one_more_call. reflexivity.
    + rewrite (Bodies.with_body_invalid _ _ _ _ _ _ _ Hinit).
      split_and!; [apply validation_is_envelope | now apply no_more_call | intros _; exact Hw'].
  - (* DELETE /users/delete/{username} *)
    destruct (answer_of_route lib (user_repository.delete user_repo idp username)
                (fun result => mret (JsonResponse rt result "User deleted successfully" 200))
                w (one_call_regular _ _ _ _ _ _)
                (fun a w' _ => JsonResponse_finishes rt a _)) as (He & H422 & Hw).
    unfold routes.delete_user. split_and!; [exact He | | intros H; contradiction].
    rewrite Hw. unfold user_repository.delete. rewrite Accounts.one_call_world.
    eapply one_more_call. reflexivity.
  - (* POST /users/confirm *)
    destruct email as [email|];
      [| split_and!; [apply validation_is_envelope | now apply no_more_call | reflexivity]].
    destruct code as [code|];
      [| split_and!; [apply validation_is_envelope | now apply no_more_call | reflexivity]].
    change (required_query "email" (Some email) ≫= _)
      with (routes.confirm_email rt user_repo idp email code).
    unfold routes.confirm_email.
    destruct (answer_of_route lib (user_repository.confirm_email user_repo idp email code)
                (fun result => message ← subscript result "message";
                               mret (JsonResponse_any rt result message 200))
                w (one_call_regular _ _ _ _ _ _)) as (He & H422 & Hw).
    { intros a w' Ha. unfold user_repository.confirm_email in Ha.
      rewrite Accounts.one_call_run in Ha.
      destruct (cognito_idp.confirm_sign_up idp _) as [e | r].
      - destruct (Run.on_ClientError_raises "confirm_email" e
                    (called w "confirm_sign_up"
                       (user_repository.confirm_email_params user_repo email code)))
          as [x Hx].
        rewrite Hx in Ha. discriminate Ha.
      - inversion Ha; subst. intros w0. split; [reflexivity |].
        split; [reflexivity | now eexists _, _]. }
    split_and!; [exact He | | intros H; contradiction].
    rewrite Hw. unfold user_repository.confirm_email. rewrite Accounts.one_call_world.
    eapply one_more_call. reflexivity.
  - (* POST /users/login *)
    destruct (Bodies.UserLogin_init_run rt body w)
      as [(Hyes & s & e & p & Hs & He & Hp & Hinit) | (Hno & field & Hinit)].
    + rewrite (Bodies.with_body_valid _ _ _ _ _ _ _ Hinit), Bodies.login_route_run.
      cbn [ul_email ul_password]. cbn zeta.
      destruct (admin_initiate_auth _ _) as [error | response].
      * destruct (Run.on_ClientError_status "login" error
                    (called w "admin_initiate_auth" (login_params user_repo e p)))
          as [msg ->].
        cbn [fst snd]. split_and!.
        -- right; left. split; [apply Bodies.table_status_failure | now exists msg].
        -- eapply one_more_call. reflexivity.
        -- intros H. now apply Bodies.table_status_not_422 in H.
      * cbn [fst snd]. split_and!.
        -- destruct (AuthenticationResult response) as [t|];
             [| apply general_is_envelope].
           destruct (missing_tokens t); [| apply general_is_envelope].
           left. split; [reflexivity | now eexists _, _].
        -- eapply one_more_call. reflexivity.
        -- destruct (AuthenticationResult response) as [t|]; [| discriminate].
           destruct (missing_tokens t); discriminate.
    + rewrite (Bodies.with_body_invalid _ _ _ _ _ _ _ Hinit).
      split_and!; [apply validation_is_envelope | now apply no_more_call | reflexivity].
  - (* POST /users/logout *)
    destruct header as [header|];
      [| split_and!; [apply validation_is_envelope | now apply no_more_call | reflexivity]].
    pose proof (SignOut.logout_run rt lib user_repo idp header w) as Hrun.
    unfold serve in Hrun. cbn [route_of] in Hrun. rewrite Hrun. cbn zeta.
    destruct (cognito_idp.global_sign_out idp _) as [e | r].
    + destruct (Run.on_ClientError_status "logout" e
                  (called w "global_sign_out"
                     (<["AccessToken" := VStr (PyStr.replace "Bearer " "" header)]> ∅)))
        as [msg ->].
      cbn [fst snd]. split_and!.
      * right; left. split; [apply Bodies.table_status_failure | now exists msg].
      * eapply one_more_call. reflexivity.
      * intros H. now apply Bodies.table_status_not_422 in H.
    + cbn [fst snd]. split_and!.
      * left. split; [reflexivity | now eexists _, _].
      * eapply one_more_call. reflexivity.
      * discriminate.
Qed.

End Application.

(** ** The routes, one by one *)

Module Routes.

Import Spec Words.
Local Open Scope list_scope.

Lemma lift_raises {A} (lib : Libraries) (m : M A) (rest : A -> H JSONResponse)
    (w w' : World) (x : Exception) :
  m w = (Raise x, w') ->
  app lib (lift m ≫= rest) w
  = (match x with
     | EApp exc => app_exception_handler exc
     | ERequestValidation param => request_validation_handler lib param
     | _ => general_exception_handler
     end, w').
Proof.
  intros Hm. unfold app, mbind, H_bind, lift. rewrite Hm. now destruct x.
Qed.

Lemma lift_returns {A} (lib : Libraries) (m : M A) (rest : A -> H JSONResponse)
    (w w' : World) (a : A) :
  m w = (Return a, w') ->
  app lib (lift m ≫= rest) w = app lib (rest a) w'.
Proof. intros Hm. unfold app, mbind, H_bind, lift. now rewrite Hm. Qed.

(** X20.  The application answers [GET /users/{username}] after one call,
    [admin_get_user].  A failure of the provider is answered with the
    status the table gives its code.  An answer of the provider is
    answered 200, with the user mapped as data, when it holds the
    [Username] and the attributes and [UserOut] accepts the address among
    them; and 500 when a key is missing or the address is rejected: the
    error of the model is no [AppException]. *)
Theorem get_user_route_answers (rt : Runtime) (lib : Libraries)
    (user_repo : UserRepository) (idp : cognito_idp.methods) (username : string)
    (w : World) :
  let answer := serve rt lib user_repo idp (GET_user username) w in
  calls (snd answer)
  = calls w ++ [{| api := "admin_get_user";
                   kwargs := get_by_username_params user_repo username |}]
  /\ match admin_get_user (client user_repo) (get_by_username_params user_repo username) with
     | inl error =>
         exists msg,
           fst answer
           = {| response_status_code := table_status (Code error);
                content := <["message" := VStr msg]> (<["status" := VStr "error"]> ∅) |}
     | inr response =>
         match agu_Username response, agu_UserAttributes response with
         | Some name, Some attributes =>
             let user := {| Username := Some name; Attributes := Some attributes;
                            Enabled := Some (default true (agu_Enabled response)) |} in
             (valid_email rt user ->
              exists r,
                maps_to rt user r
                /\ fst answer
                   = {| response_status_code := 200;
                        content :=
                          <["data" := jsonable_encoder rt (VUser r)]>
                         (<["message" := VStr "User retrieved successfully"]>
                         (<["status" := VStr "success"]> ∅)) |})
             /\ (~ valid_email rt user -> fst answer = general_exception_handler)
         | _, _ => fst answer = general_exception_handler
         end
     end.
Proof.
  intros answer. subst answer. unfold serve. cbn [route_of]. unfold routes.get_user.
  split.
  - destruct (Application.answer_of_route lib (get_by_username rt user_repo username)
                (fun user => mret (JsonResponse rt user "User retrieved successfully" 200))
                w (Application.get_by_username_regular rt user_repo username w)
                (fun a w' _ => Application.JsonResponse_finishes rt a _)) as (_ & _ & Hw).
    rewrite Hw. apply Boundary.get_by_username_calls.
  - pose proof (Profiles.get_by_username_run rt user_repo username w) as Hrun.
    cbn zeta in Hrun.
    destruct (admin_get_user _ _) as [error | response].
    + destruct (Run.on_ClientError_status "get_by_username" error
                  (called w "admin_get_user" (get_by_username_params user_repo username)))
        as [msg Hmsg].
      rewrite Hmsg in Hrun. rewrite (lift_raises _ _ _ _ _ _ Hrun). now exists msg.
    + destruct (agu_Username response) as [name|];
        [| now rewrite (lift_raises _ _ _ _ _ _ Hrun)].
      destruct (agu_UserAttributes response) as [attributes|];
        [| now rewrite (lift_raises _ _ _ _ _ _ Hrun)].
      cbn zeta. split.
      * intros Hvalid.
        match type of Hrun with
        | context [_map_user rt ?u ?w1] =>
            destruct (Pages.map_user_valid rt u w1 Hvalid) as (r & Hr & Hmaps)
        end.
        rewrite Hr in Hrun. rewrite (lift_returns _ _ _ _ _ _ Hrun).
        exists r. split; [exact Hmaps | reflexivity].
      * intros Hinvalid.
        match type of Hrun with
        | context [_map_user rt ?u ?w1] =>
            rewrite (Pages.map_user_invalid rt u w1 Hinvalid) in Hrun
        end.
        now rewrite (lift_raises _ _ _ _ _ _ Hrun).
Qed.

(** a user the pool does not hold *)
Example get_user_route_unknown :
  fst (serve Sample.runtime Sample2.lib (Sample.repo None) Sample2.idp (GET_user "ghost")
         Sample.world0)
  = {| response_status_code := 404;
       content := <["message" := VStr "User not found"]> (<["status" := VStr "error"]> ∅) |}.
Proof. reflexivity. Qed.

Lemma list_users_given (rt : Runtime) (lib : Libraries) (user_repo : UserRepository)
    (limit : option Z) (token : option string) (w : World) :
  default 20 limit <= 60 ->
  app lib (lift (user_router.list_users rt user_repo limit token)) w
  = app lib (lift (get_all rt user_repo (default 20 limit) token)
             ≫= fun users => mret (JsonResponse rt users "Users retrieved successfully" 200)) w.
Proof.
  intros Hle. unfold user_router.list_users, resolve_query. cbn [le query_default].
  destruct limit as [v|]; cbn [default from_option id] in *.
  - apply Z.leb_le in Hle. rewrite Hle.
    unfold app, lift, mbind, M_bind, H_bind, mret, M_ret, H_ret.
    now destruct (get_all rt user_repo v token w) as [[a|x] w1].
  - unfold app, lift, mbind, M_bind, H_bind, mret, M_ret, H_ret.
    now destruct (get_all rt user_repo 20 token w) as [[a|x] w1].
Qed.

Lemma get_all_answered (rt : Runtime) (self : UserRepository) (limit : Z)
    (token : option string) (response : ListUsersResponse) (w : World) :
  list_users (client self) (get_all_params self limit token) = inr response ->
  get_all rt self limit token w
  = match comprehension (_map_user rt) (default [] (Users response))
            (called w "list_users" (get_all_params self limit token)) with
    | (Return users, w') =>
        (Return (VDict (<["next_token" := of_opt_str (PaginationToken response)]>
                          (<["users" := VList (VUser <$> users)]> ∅))), w')
    | (Raise x, w') => (Raise x, w')
    end.
Proof.
  intros Hcall. unfold get_all, try_except_ClientError, mbind, M_bind, invoke, called.
  rewrite Hcall.
  pose proof (Application.comprehension_map_user_ends rt (default [] (Users response))
                {| calls := calls w ++ [{| api := "list_users";
                                           kwargs := get_all_params self limit token |}];
                   clock_reads := clock_reads w |}) as H.
  destruct (comprehension _ _ _) as [[users|[| | | |]] w2]; cbn in H; try contradiction;
    reflexivity.
Qed.

(** X21.  The application answers [GET /users/] with a limit it accepts
    after one call, [list_users]: with the status of the table when the
    provider fails; with 200, the users mapped in their order and the
    [next_token] of the provider, when [UserOut] accepts the address of
    every user of the page; and with 500, and no user at all, when it
    rejects the address of one. *)
Theorem list_users_route_answers (rt : Runtime) (lib : Libraries)
    (user_repo : UserRepository) (idp : cognito_idp.methods) (limit : option Z)
    (token : option string) (w : World) :
  default 20 limit <= 60 ->
  let kw := get_all_params user_repo (default 20 limit) token in
  let answer := serve rt lib user_repo idp (GET_users limit token) w in
  calls (snd answer) = calls w ++ [{| api := "list_users"; kwargs := kw |}]
  /\ match list_users (client user_repo) kw with
     | inl error =>
         exists msg,
           fst answer
           = {| response_status_code := table_status (Code error);
                content := <["message" := VStr msg]> (<["status" := VStr "error"]> ∅) |}
     | inr response =>
         (Forall (valid_email rt) (default [] (Users response)) ->
          exists records,
            Forall2 (maps_to rt) (default [] (Users response)) records
            /\ fst answer
               = {| response_status_code := 200;
                    content :=
                      <["data" :=
                          jsonable_encoder rt (VDict (
                            <["next_token" := of_opt_str (PaginationToken response)]>
                           (<["users" := VList (VUser <$> records)]> ∅)))]>
                     (<["message" := VStr "Users retrieved successfully"]>
                     (<["status" := VStr "success"]> ∅)) |})
         /\ (Exists (fun user => ~ valid_email rt user) (default [] (Users response)) ->
             fst answer = general_exception_handler)
     end.
Proof.
  intros Hle kw answer. subst kw answer. unfold serve. cbn [route_of].
  rewrite (list_users_given rt lib user_repo limit token w Hle).
  split.
  - destruct (Application.answer_of_route lib
                (get_all rt user_repo (default 20 limit) token)
                (fun users => mret (JsonResponse rt users "Users retrieved successfully" 200))
                w (Application.get_all_regular rt user_repo _ token w)
                (fun a w' _ => Application.JsonResponse_finishes rt a _)) as (_ & _ & Hw).
    rewrite Hw. apply Listing.get_all_calls.
  - destruct (list_users _ _) as [error | response] eqn:Hcall.
    + assert (Hrun : exists msg,
                 get_all rt user_repo (default 20 limit) token w
                 = (Raise (EApp {| message := msg;
                                   status_code := table_status (Code error) |}),
                    called w "list_users"
                      (get_all_params user_repo (default 20 limit) token))).
      { unfold get_all, try_except_ClientError, mbind, M_bind, invoke. rewrite Hcall.
        apply Run.on_ClientError_status. }
      destruct Hrun as [msg Hrun]. rewrite (lift_raises _ _ _ _ _ _ Hrun). now exists msg.
    + pose proof (get_all_answered rt user_repo _ token response w Hcall) as Hrun.
      split.
      * intros Hvalid.
        destruct (Pages.comprehension_valid rt _
                    (called w "list_users"
                       (get_all_params user_repo (default 20 limit) token)) Hvalid)
          as (records & w' & Hrecords & Hmaps).
        rewrite Hrecords in Hrun. rewrite (lift_returns _ _ _ _ _ _ Hrun).
        exists records. split; [exact Hmaps | reflexivity].
      * intros Hinvalid.
        destruct (Pages.comprehension_invalid rt _
                    (called w "list_users"
                       (get_all_params user_repo (default 20 limit) token)) Hinvalid)
          as (w' & Hraise).
        rewrite Hraise in Hrun. now rewrite (lift_raises _ _ _ _ _ _ Hrun).
Qed.

(** One user without an address in the pool, and the page is lost: the
    application answers 500. *)
Lemma list_users_route_answers_witness :
  fst (serve Sample.runtime Sample2.lib Sample2.sparse_repo Sample2.idp
         (GET_users None None) Sample.world0)
  = general_exception_handler
  /\ calls (snd (serve Sample.runtime Sample2.lib Sample2.sparse_repo Sample2.idp
                   (GET_users None None) Sample.world0))
     = [{| api := "list_users";
           kwargs := get_all_params Sample2.sparse_repo 20 None |}].
Proof.
  assert (Hle : default 20 None <= 60) by (cbn; lia).
  destruct (list_users_route_answers Sample.runtime Sample2.lib Sample2.sparse_repo
              Sample2.idp None None Sample.world0 Hle) as [Hcalls Hanswer].
  split; [| exact Hcalls].
  apply Hanswer. apply Exists_cons_tl, Exists_cons_hd. intros [e He]. discriminate He.
Defined.



End Routes.

(** ** The logging service *)

Module Logging.

Import logger.
Local Open Scope list_scope.

Lemma getLogger_store (name name' : string) (l : Logger) (p : Process) :
  key name = key name' -> getLogger name (store name' l p) = l.
Proof. intros Hk. unfold getLogger, store. cbn. now rewrite Hk, lookup_insert_eq. Qed.

Lemma getLogger_key (name name' : string) (p : Process) :
  key name = key name' -> handlers (getLogger name p) = handlers (getLogger name' p)
                          /\ level (getLogger name p) = level (getLogger name' p).
Proof. intros Hk. unfold getLogger, fresh. now rewrite Hk. Qed.

Lemma getLogger_loggers (name : string) (p p' : Process) :
  loggers p = loggers p' -> getLogger name p = getLogger name p'.
Proof. intros H. unfold getLogger. now rewrite H. Qed.

Lemma initialize_logger_run (os : OS) (self : LoggingService) (p p' : Process) :
  _initialize_logger os self p = (Some tt, p') ->
  let log_path := path_join os (log_dir self) (log_file self) in
  directories p' = directories p ++ [log_dir self]
  /\ files p' = files p ++ [log_path]
  /\ level (getLogger (name self) p') = service_level self
  /\ handlers (getLogger (name self) p')
     = match handlers (getLogger (name self) p) with
       | [] => [StreamHandler "sys.stdout" format;
                RotatingFileHandler log_path 5000000 5 format]
       | held => held
       end.
Proof.
  unfold _initialize_logger.
  destruct (can_make os (log_dir self)); cbn [negb]; [| discriminate].
  destruct (can_open os _); cbn [negb]; [| discriminate].
  cbn [loggers directories files].
  set (q := {| loggers := loggers p;
               directories := directories p ++ [log_dir self];
               files := files p ++ [path_join os (log_dir self) (log_file self)] |}).
  assert (Hq : getLogger (name self) q = getLogger (name self) p)
    by (apply getLogger_loggers; reflexivity).
  unfold setLevel, addHandler.
  rewrite !getLogger_store by reflexivity. cbn [handlers level]. rewrite Hq.
  destruct (handlers (getLogger (name self) p)) as [|h held] eqn:Hheld;
    intros [= <-]; cbn zeta; rewrite ?getLogger_store by reflexivity;
    cbn [handlers level directories files store app q]; now split_and!.
Qed.

(** X23.  The handlers of a logger are attached once.  Of two services
    made for one name, the second finds the handlers of the first and adds
    none: the logger keeps its handlers, the two of the first service when
    nothing had configured the logger before, and those it had otherwise.
    The two services hold one logger: it takes the level of the second,
    and a level set through one is the level read through the other.  The
    second service opens its file all the same, though no handler of the
    logger writes to it. *)
Theorem handlers_are_attached_once (os : OS) (a b : LoggingService) (p p1 p2 : Process) :
  key (name a) = key (name b) ->
  _initialize_logger os a p = (Some tt, p1) ->
  _initialize_logger os b p1 = (Some tt, p2) ->
  get_logger a p2 = get_logger b p2
  /\ handlers (get_logger b p2) = handlers (get_logger a p1)
  /\ handlers (get_logger a p1) <> []
  /\ (handlers (getLogger (name a) p) = [] ->
      handlers (get_logger b p2)
      = [StreamHandler "sys.stdout" format;
         RotatingFileHandler (path_join os (log_dir a) (log_file a)) 5000000 5 format])
  /\ (handlers (getLogger (name a) p) <> [] ->
      handlers (get_logger b p2) = handlers (getLogger (name a) p))
  /\ level (get_logger a p2) = service_level b
  /\ files p2 = files p ++ [path_join os (log_dir a) (log_file a);
                            path_join os (log_dir b) (log_file b)]
  /\ (forall lvl, level (get_logger a (set_level b lvl p2)) = lvl).
Proof.
  intros Hk Ha Hb.
  apply initialize_logger_run in Ha as (_ & Hfa & Hla & Hha).
  apply initialize_logger_run in Hb as (_ & Hfb & Hlb & Hhb).
  cbn zeta in *. unfold get_logger, set_level.
  destruct (getLogger_key _ _ p1 Hk) as [Hh1 Hl1].
  destruct (getLogger_key _ _ p2 Hk) as [Hh2 Hl2].
  assert (Hne : handlers (getLogger (name a) p1) <> []).
  { rewrite Hha. destruct (handlers (getLogger (name a) p)); discriminate. }
  assert (Hsame : handlers (getLogger (name b) p2) = handlers (getLogger (name a) p1)).
  { rewrite Hhb, <- Hh1. destruct (handlers (getLogger (name a) p1)); [contradiction | reflexivity]. }
  split_and!.
  - unfold getLogger, fresh. now rewrite Hk.
  - exact Hsame.
  - exact Hne.
  - intros Hnone. rewrite Hsame, Hha, Hnone. reflexivity.
  - intros Hheld. rewrite Hsame, Hha.
    destruct (handlers (getLogger (name a) p)); [contradiction | reflexivity].
  - now rewrite Hl2.
  - rewrite Hfb, Hfa, <- app_assoc. reflexivity.
  - intros lvl. unfold setLevel. now rewrite getLogger_store.
Qed.

(** The service of [core/dependancies.py], and a second one for another
    file: the logger of the application keeps the two handlers of the
    first, and takes the level of the second, whose file is opened and
    never written to. *)
Lemma handlers_are_attached_once_witness :
  exists a b p1 p2,
    logging_service Sample2.os Sample2.process = (Some a, p1)
    /\ LoggingService_init Sample2.os "audit" "audit.log" WARNING "app_logger" p1
       = (Some b, p2)
    /\ handlers (get_logger b p2)
       = [StreamHandler "sys.stdout" format;
          RotatingFileHandler "logs/app.log" 5000000 5 format]
    /\ level (get_logger a p2) = WARNING
    /\ files p2 = ["logs/app.log"; "audit/audit.log"].
Proof.
  eexists _, _, _, _. split; [reflexivity |]. split; [reflexivity |].
  match goal with
  | |- context [get_logger ?b ?p2] =>
      match goal with
      | |- context [get_logger ?a p2] =>
          lazymatch a with
          | b => fail
          | _ =>
              destruct (handlers_are_attached_once Sample2.os a b Sample2.process
                          _ p2 eq_refl eq_refl eq_refl)
                as (_ & _ & _ & Hh & _ & Hl & Hf & _)
          end
      end
  end.
  split; [exact (Hh eq_refl) |]. split; [exact Hl | exact Hf].
Defined.

End Logging.

